(** * comma.hypothesis: the date-range extractor, the feature encoder, the
      template generator and the schema validators

    A shallow embedding of [src/comma/hypothesis.py] (class [Hypothesis]) and
    of the cross-file check of [src/tests/test_validate_csvs.py].

    Conventions of the embedding.
    - A Python [str] is a [string]; paths and column labels are taken to be
      ASCII, so that the pattern class [\d] is the ten characters 0..9.
    - A Python [int] is a [Z].
    - A call that may raise returns a [result]: [Ok v] for a normal return,
      [Raise e] for an exception that leaves the function.  An exception is
      its class and its message; the text of a message produced inside the
      interpreter or a library ([datetime], [json], [pandas]) is not
      modelled and is [None].
    - A Python [set] of strings is a [gset string].  Python iterates a set
      in an order that depends on the hash seed of the process; the model
      uses [elements], and no statement below depends on that order. *)

From Stdlib Require Import ZArith Ascii String List Bool Lia DecimalString Sorted.
From stdpp Require Import base option list gmap strings sets sorting.

Local Open Scope Z_scope.

(** ** Exceptions and results *)

Inductive exn_class :=
| ValueError
| FileNotFoundError
| AttributeError
| KeyError
| TypeError
| IndexError
| AssertionError
| JSONDecodeError
| ParserError
| EmptyDataError.

Record exn := Exn { exn_cls : exn_class; exn_msg : option string }.

Inductive result (A : Type) :=
| Ok (a : A)
| Raise (e : exn).

Arguments Ok {A} a.
Arguments Raise {A} e.

#[global] Instance result_ret : MRet result := fun A a => Ok a.
#[global] Instance result_bind : MBind result := fun A B f m =>
  match m with
  | Ok a => f a
  | Raise e => Raise e
  end.

(** [raise C msg]: a [raise C(msg)] statement of the program. *)
Definition raise {A} (c : exn_class) (msg : string) : result A :=
  Raise (Exn c (Some msg)).

(** An exception raised inside the interpreter or a library call. *)
Definition raised_by_library {A} (c : exn_class) : result A :=
  Raise (Exn c None).

(** ** Strings *)

Definition nl : string := String (ascii_of_nat 10) EmptyString.

(** [sep.join(xs)] *)
Fixpoint join (sep : string) (xs : list string) : string :=
  match xs with
  | [] => EmptyString
  | [x] => x
  | x :: rest => x +:+ sep +:+ join sep rest
  end.

(** [needle in haystack] on strings. *)
Fixpoint is_infix (needle haystack : string) : bool :=
  String.prefix needle haystack ||
  match haystack with
  | EmptyString => false
  | String _ rest => is_infix needle rest
  end.

(** [s.endswith(suffix)] *)
Definition endswith (s suffix : string) : bool :=
  String.prefix (String.rev suffix) (String.rev s).

(** [s.lower()] on ASCII text. *)
Definition lower_char (c : ascii) : ascii :=
  let n := nat_of_ascii c in
  if ((65 <=? n) && (n <=? 90))%nat then ascii_of_nat (n + 32) else c.

Fixpoint lower (s : string) : string :=
  match s with
  | EmptyString => EmptyString
  | String c rest => String (lower_char c) (lower rest)
  end.

Definition is_digit (c : ascii) : bool :=
  ((48 <=? nat_of_ascii c) && (nat_of_ascii c <=? 57))%nat.

Definition digit_val (c : ascii) : Z := Z.of_nat (nat_of_ascii c) - 48.

(** [int(s)] on a group of the date format: decimal digits, after a blank
    at most; the blank does not count. *)
Fixpoint int_acc (acc : Z) (s : string) : Z :=
  match s with
  | EmptyString => acc
  | String c rest =>
      if is_digit c then int_acc (10 * acc + digit_val c) rest
      else int_acc acc rest
  end.

Definition int (s : string) : Z := int_acc 0 s.

(** [str(n)] for [n >= 0]. *)
Definition str_int (n : Z) : string := NilZero.string_of_uint (N.to_uint (Z.to_N n)).

(** ["%0<w>d" % n] for [n >= 0]. *)
Definition zero_pad (w : nat) (n : Z) : string :=
  let s := str_int n in
  String.concat EmptyString (repeat "0"%string (w - String.length s)%nat) +:+ s.

(** ** [datetime]

    [datetime.strptime(s, '%Y-%m-%d')] yields a [datetime] whose time of day
    is midnight, so only the calendar fields are kept. *)

Record datetime := Datetime { year : Z; month : Z; day : Z }.

#[global] Instance datetime_eq_dec : EqDecision datetime.
Proof. solve_decision. Defined.

(** [datetime] values compare as the tuples [(year, month, day, ...)]. *)
Definition dt_compare (a b : datetime) : comparison :=
  match year a ?= year b with
  | Eq => match month a ?= month b with
          | Eq => day a ?= day b
          | c => c
          end
  | c => c
  end.

Definition dt_ltb (a b : datetime) : bool :=
  match dt_compare a b with Lt => true | _ => false end.
Definition dt_gtb (a b : datetime) : bool :=
  match dt_compare a b with Gt => true | _ => false end.
Definition dt_leb (a b : datetime) : bool :=
  match dt_compare a b with Gt => false | _ => true end.

(** [str(d)]: [isoformat(sep=' ')] of a midnight [datetime]. *)
Definition str_datetime (d : datetime) : string :=
  zero_pad 4 (year d) +:+ "-" +:+ zero_pad 2 (month d) +:+ "-" +:+
  zero_pad 2 (day d) +:+ " 00:00:00".

Definition is_leap (y : Z) : bool :=
  (y mod 4 =? 0) && (negb (y mod 100 =? 0) || (y mod 400 =? 0)).

Definition days_in_month (y m : Z) : Z :=
  if m =? 2 then (if is_leap y then 29 else 28)
  else if (m =? 4) || (m =? 6) || (m =? 9) || (m =? 11) then 30
  else 31.

(** The constructor [datetime(y, m, d)]: [MINYEAR = 1], [MAXYEAR = 9999]. *)
Definition make_datetime (y m d : Z) : result datetime :=
  if negb ((1 <=? y) && (y <=? 9999)) then raised_by_library ValueError
  else if negb ((1 <=? m) && (m <=? 12)) then raised_by_library ValueError
  else if negb ((1 <=? d) && (d <=? days_in_month y m)) then
    raised_by_library ValueError
  else Ok (Datetime y m d).

(** *** The format ['%Y-%m-%d']

    CPython's [_strptime] turns the format into the regular expression
    [(?P<Y>\d\d\d\d)-(?P<m>1[0-2]|0[1-9]|[1-9])-(?P<d>3[01]|[12]\d|0[1-9]|[1-9]| [1-9])]
    and applies it with [re.match].  A matcher maps the text still to be
    read to the ways it can match, in the order a backtracking matcher
    tries them: the matched text and what is left. *)

Definition matcher := string → list (string * string).

Definition in_range (lo hi : ascii) (c : ascii) : bool :=
  ((nat_of_ascii lo <=? nat_of_ascii c) && (nat_of_ascii c <=? nat_of_ascii hi))%nat.

(** One character of a class. *)
Definition re_char (p : ascii → bool) : matcher := fun s =>
  match s with
  | String c rest => if p c then [(String c EmptyString, rest)] else []
  | EmptyString => []
  end.

(** [r1 r2] *)
Definition re_seq (r1 r2 : matcher) : matcher := fun s =>
  '(a, s1) ← r1 s; '(b, s2) ← r2 s1; [(a +:+ b, s2)].

(** [r1|r2] *)
Definition re_alt (r1 r2 : matcher) : matcher := fun s => r1 s ++ r2 s.

Definition re_lit (c : ascii) : matcher := re_char (Ascii.eqb c).
Definition re_digit : matcher := re_char is_digit.

Definition re_Y : matcher :=
  re_seq re_digit (re_seq re_digit (re_seq re_digit re_digit)).

Definition re_m : matcher :=
  re_alt (re_seq (re_lit "1") (re_char (in_range "0" "2")))
 (re_alt (re_seq (re_lit "0") (re_char (in_range "1" "9")))
         (re_char (in_range "1" "9"))).

Definition re_d : matcher :=
  re_alt (re_seq (re_lit "3") (re_char (in_range "0" "1")))
 (re_alt (re_seq (re_char (in_range "1" "2")) re_digit)
 (re_alt (re_seq (re_lit "0") (re_char (in_range "1" "9")))
 (re_alt (re_char (in_range "1" "9"))
         (re_seq (re_lit " ") (re_char (in_range "1" "9")))))).

(** The groups of the first match of the whole expression, and the text
    that follows the match. *)
Definition format_match (data : string) : option (string * string * string * string) :=
  head ('(y, s1) ← re_Y data;
        '(_, s2) ← re_lit "-" s1;
        '(m, s3) ← re_m s2;
        '(_, s4) ← re_lit "-" s3;
        '(d, s5) ← re_d s4;
        [(y, m, d, s5)]).

(** [datetime.strptime(data, '%Y-%m-%d')]: no match and text left after
    the match are both [ValueError]. *)
Definition strptime (data : string) : result datetime :=
  match format_match data with
  | None => raised_by_library ValueError
  | Some (y, m, d, rest) =>
      match rest with
      | EmptyString => make_datetime (int y) (int m) (int d)
      | _ => raised_by_library ValueError
      end
  end.

(** *** The pattern [(\d{4}-\d{2}-\d{2})] *)

Definition re_date : matcher :=
  re_seq re_Y (re_seq (re_lit "-") (re_seq (re_seq re_digit re_digit)
         (re_seq (re_lit "-") (re_seq re_digit re_digit)))).

(** [pattern.search(file)]: the leftmost match; [Some g] stands for a match
    object whose [group(1)] is [g], [None] for Python's [None]. *)
Fixpoint search (file : string) : option string :=
  match head (re_date file) with
  | Some (g, _) => Some g
  | None =>
      match file with
      | EmptyString => None
      | String _ rest => search rest
      end
  end.


(** ** [Hypothesis.filter_dates] *)

(** The loop that gathers [all_dates]: a path the pattern does not match
    is passed over. *)
Fixpoint collect_dates (file_list : list string) : result (list datetime) :=
  match file_list with
  | [] => Ok []
  | file :: rest =>
      match search file with
      | Some g =>
          date ← strptime g;
          all_dates ← collect_dates rest;
          Ok (date :: all_dates)
      | None => collect_dates rest
      end
  end.

(** [min(d0 :: ds)] and [max(d0 :: ds)]: the first smallest (largest) item. *)
Definition py_min (d0 : datetime) (ds : list datetime) : datetime :=
  fold_left (fun m d => if dt_ltb d m then d else m) ds d0.
Definition py_max (d0 : datetime) (ds : list datetime) : datetime :=
  fold_left (fun m d => if dt_gtb d m then d else m) ds d0.

(** The comprehension that builds [filtered_paths]; [.group(1)] on [None]
    is an [AttributeError]. *)
Fixpoint filter_paths (start end_ : datetime) (file_list : list string)
  : result (list string) :=
  match file_list with
  | [] => Ok []
  | file :: rest =>
      match search file with
      | None => raised_by_library AttributeError
      | Some g =>
          d ← strptime g;
          filtered ← filter_paths start end_ rest;
          Ok (if dt_leb start d && dt_leb d end_ then file :: filtered
              else filtered)
      end
  end.

Definition no_dates_msg : string := "Dates provided are not within the list".

Definition outside_msg (time_period : string * string) (min_date max_date : datetime)
  : string :=
  "time_period (" +:+ time_period.1 +:+ " - " +:+ time_period.2 +:+ ") " +:+
  "is outside available dates that go from " +:+
  "(" +:+ str_datetime min_date +:+ " to " +:+ str_datetime max_date +:+ ")".

Definition filter_dates (file_list : list string) (time_period : string * string)
  : result (list string) :=
  start ← strptime time_period.1;
  end_ ← strptime time_period.2;
  all_dates ← collect_dates file_list;
  match all_dates with
  | [] => raise ValueError no_dates_msg
  | d0 :: ds =>
      let min_date := py_min d0 ds in
      let max_date := py_max d0 ds in
      if dt_ltb start min_date || dt_gtb end_ max_date then
        raise ValueError (outside_msg time_period min_date max_date)
      else filter_paths start end_ file_list
  end.

(** ** Values read from JSON and CSV files *)

(** What [json.load] returns.  [JObj] holds the items of the [dict] in
    insertion order; a real number is kept as the numeral in the file. *)
#[warnings="-register-all"]
Inductive json :=
| JNull
| JBool (b : bool)
| JInt (z : Z)
| JFloat (numeral : string)
| JStr (s : string)
| JArr (items : list json)
| JObj (members : list (string * json)).

(** A cell of a [pandas.DataFrame].  A real number is kept as its numeral
    (a missing value as the numeral [nan]); the program only ever inspects
    text cells, the labels of the [actions] column. *)
Inductive cell :=
| Str (s : string)
| Int (z : Z)
| Float (numeral : string).

#[global] Instance cell_eq_dec : EqDecision cell.
Proof. solve_decision. Defined.

#[global] Instance cell_countable : Countable cell :=
  inj_countable'
    (fun c => match c with
              | Str s => inl s
              | Int z => inr (inl z)
              | Float t => inr (inr t)
              end)
    (fun x => match x with
              | inl s => Str s
              | inr (inl z) => Int z
              | inr (inr t) => Float t
              end)
    (fun c => match c with Str _ | Int _ | Float _ => eq_refl end).

(** A table: the column labels and the rows, each row one cell per column. *)
Record DataFrame := mkDataFrame { columns : list string; rows : list (list cell) }.

(** What [df[label]] selects: a [Series] when one column carries the label,
    a frame of all of them when several do. *)
Inductive selection :=
| Series (values : list cell)
| Frame (df : DataFrame).

#[global] Instance DataFrame_eq_dec : EqDecision DataFrame.
Proof. solve_decision. Defined.

#[global] Instance selection_eq_dec : EqDecision selection.
Proof. solve_decision. Defined.

(** The positions at which [label] occurs in [labels], counted from [i]. *)
Fixpoint positions_from (i : nat) (label : string) (labels : list string) : list nat :=
  match labels with
  | [] => []
  | l :: rest =>
      if String.eqb l label then i :: positions_from (S i) label rest
      else positions_from (S i) label rest
  end.

Definition positions := positions_from 0.

Definition cell_at (i : nat) (row : list cell) : cell := nth i row (Float "nan").

(** [df[label]] *)
Definition df_getitem (df : DataFrame) (label : string) : result selection :=
  match positions label (columns df) with
  | [] => raised_by_library KeyError
  | [i] => Ok (Series (map (cell_at i) (rows df)))
  | ps =>
      Ok (Frame (mkDataFrame (map (fun _ => label) ps)
                   (map (fun row => map (fun i => cell_at i row) ps) (rows df))))
  end.

(** [set(sel)]: the values of a series, the column labels of a frame. *)
Definition set_of_selection (sel : selection) : gset cell :=
  match sel with
  | Series values => list_to_set values
  | Frame df => list_to_set (map Str (columns df))
  end.

(** [sel.unique()]: only a [Series] has the method. *)
Definition unique (sel : selection) : result (list cell) :=
  match sel with
  | Series values => Ok (remove_dups values)
  | Frame _ => raised_by_library AttributeError
  end.

(** [df[label] = values] for a list of values: its length must be the
    number of rows; every column that carries the label receives the
    values, and a label the frame does not have becomes a new last column. *)
Definition df_setitem (df : DataFrame) (label : string) (values : list cell)
  : result DataFrame :=
  if negb (length values =? length (rows df))%nat then raised_by_library ValueError
  else if existsb (fun l => String.eqb l label) (columns df) then
    Ok (mkDataFrame (columns df)
          (zip_with (fun row v =>
             zip_with (fun l c => if String.eqb l label then v else c) (columns df) row)
             (rows df) values))
  else
    Ok (mkDataFrame (columns df ++ [label])
          (zip_with (fun row v => row ++ [v]) (rows df) values)).

(** [pd.DataFrame(c, index=range(n), columns=cols)] *)
Definition df_const (c : cell) (n : nat) (cols : list string) : DataFrame :=
  mkDataFrame cols (repeat (map (fun _ => c) cols) n).

(** ** The parameter directory

    A file is what the two readers of the program make of it: [json.load]
    ([None]: the text is no JSON document) and [pd.read_csv] with
    [sep=';'], which returns a table or raises, a [ParserError] on a text
    it cannot split into records, an [EmptyDataError] on an empty file.
    The decimal mark passed to [read_csv] decides how numeric cells are
    typed but not the header, the number of rows or a text cell. *)
Record file := mkFile { json_view : option json; csv_view : result DataFrame }.

(** The directory [dir_params]: its regular files by name.  Every path the
    program touches is [os.path.join(dir_params, name)]. *)
Abbreviation directory := (gmap string file).

(** [os.path.exists] / [os.path.isfile] of [os.path.join(dir_params, name)] *)
Definition isfile (dir : directory) (name : string) : bool :=
  bool_decide (is_Some (dir !! name)).

(** [json.load(open(path))] *)
Definition json_load (dir : directory) (name : string) : result json :=
  match dir !! name with
  | None => raised_by_library FileNotFoundError
  | Some f =>
      match json_view f with
      | Some j => Ok j
      | None => raised_by_library JSONDecodeError
      end
  end.

(** [pd.read_csv] with [sep=';'] on a file that exists. *)
Definition parse_csv (f : file) : result DataFrame := csv_view f.

(** [pd.read_csv(path, sep=';')] *)
Definition read_csv (dir : directory) (name : string) : result DataFrame :=
  match dir !! name with
  | None => raised_by_library FileNotFoundError
  | Some f => parse_csv f
  end.

(** ** Static metadata of the class *)

Definition PARAMS_INDIVIDUAL : string := "params_individual.json".

Definition lockdown_policies : list string := ["absent"; "easy"; "medium"; "hard"].

Definition individual_status : list string := ["mh"].

Definition all_possible_actions : list string :=
  ["work_from_home"; "maintain_physical_distance"; "stay_at_home"; "exercise";
   "socialise"; "travel"; "seek_help"; "negative_coping"; "positive_coping";
   "socialise_online"].

(** ** [Hypothesis._get_one_hot_encoded_features] *)

Definition is_str (v : json) : bool :=
  match v with JStr _ => true | _ => false end.

(** [v[0]] on a value read from JSON: the first item of a list, the first
    character of a string; a [dict] has no key [0], and nothing else can be
    subscripted. *)
Definition getitem0 (v : json) : result json :=
  match v with
  | JArr (x :: _) => Ok x
  | JArr [] => raised_by_library IndexError
  | JStr (String c _) => Ok (JStr (String c EmptyString))
  | JStr EmptyString => raised_by_library IndexError
  | JObj _ => raised_by_library KeyError
  | JNull | JBool _ | JInt _ | JFloat _ => raised_by_library TypeError
  end.

Fixpoint chars (s : string) : list string :=
  match s with
  | EmptyString => []
  | String c rest => String c EmptyString :: chars rest
  end.

(** [for v in x]: the items of a list, the characters of a string, the
    keys of a [dict]. *)
Definition iterate (x : json) : result (list json) :=
  match x with
  | JArr items => Ok items
  | JStr s => Ok (map JStr (chars s))
  | JObj members => Ok (map (fun kv => JStr kv.1) members)
  | JNull | JBool _ | JInt _ | JFloat _ => raised_by_library TypeError
  end.

(** [key + '_' + v] *)
Definition level_column (key : string) (v : json) : result string :=
  match v with
  | JStr s => Ok (key +:+ "_" +:+ s)
  | _ => raised_by_library TypeError
  end.

(** A list comprehension whose body may raise. *)
Fixpoint comprehension {A B} (f : A → result B) (xs : list A) : result (list B) :=
  match xs with
  | [] => Ok []
  | x :: rest => y ← f x; ys ← comprehension f rest; Ok (y :: ys)
  end.

(** The loop over [params_individual.items()], [features] being the list
    built so far. *)
Fixpoint encode_items (items : list (string * json)) (features : list string)
  : result (list string) :=
  match items with
  | [] => Ok features
  | (key, value) :: rest =>
      v0 ← getitem0 value;
      v00 ← getitem0 v0;
      if is_str v00 then
        levels ← iterate v0;
        cols ← comprehension (level_column key) levels;
        encode_items rest (features ++ cols)
      else encode_items rest (features ++ [key])
  end.

(** [.items()] exists on a [dict] only. *)
Definition dict_items (j : json) : result (list (string * json)) :=
  match j with
  | JObj members => Ok members
  | _ => raised_by_library AttributeError
  end.

Definition _get_one_hot_encoded_features (dir : directory) (fname : string)
  : result (list string) :=
  params_individual ← json_load dir fname;
  items ← dict_items params_individual;
  encode_items items [].

(** ** [Hypothesis.create_empty_hypotheses]

    The state is the directory; an exception leaves it as it was, since
    everything that can raise comes before the first write.

    What [pd.read_csv] with [sep=';'] makes of the text that
    [df.to_csv(path, sep=';', index=False)] writes for a table is the
    parameter [read_back] of the model.  It need not be the table that was
    written: pandas reads an empty label as [Unnamed: N] and a repeated
    label under a new name such as [x.1]. *)
Section generator.
Variable read_back : DataFrame → result DataFrame.

(** The file [df.to_csv(path, sep=';', index=False)] leaves behind.  The
    generator writes tables whose first label is [actions]: the text starts
    with it and is no JSON document. *)
Definition to_csv (df : DataFrame) : file :=
  mkFile None (read_back df).

(** The message of the [FileNotFoundError]: the backslash at the end of the
    source line joins it to the next one, whose indentation is part of the
    text. *)
Definition missing_spec_msg (dir_params : string) : string :=
  "'" +:+ PARAMS_INDIVIDUAL +:+ "' " +:+ "            file is missing in the directory '"
  +:+ dir_params +:+ "'".

Definition create_empty_hypotheses (dir_params : string) (dir : directory)
  : directory * result unit :=
  if negb (isfile dir PARAMS_INDIVIDUAL) then
    (dir, raise FileNotFoundError (missing_spec_msg dir_params))
  else
    let actions := all_possible_actions in
    let status := individual_status in
    match
      (features ← _get_one_hot_encoded_features dir PARAMS_INDIVIDUAL;
       let columns := ["actions"; "baseline"] ++ features in
       df_setitem (df_const (Int 0) (length actions) columns) "actions"
                  (map Str actions))
    with
    | Raise e => (dir, Raise e)
    | Ok df =>
        let output_fpaths :=
          map (fun lockdown => "lockdown_" +:+ lockdown +:+ ".csv") lockdown_policies
          ++ map (fun s => "actions_effects_on_" +:+ s +:+ ".csv") status in
        (fold_left (fun d fp => <[fp := to_csv df]> d) output_fpaths dir, Ok tt)
    end.

End generator.

(** ** [Hypothesis.validate_param_file] *)

(** The files the validator expects, in the order it lists them. *)
Definition hypothesis_fnames : list string :=
  (status ← individual_status;
   policy ← lockdown_policies;
   ["actions_effects_on_" +:+ status +:+ "_" +:+ policy +:+ ".csv"])
  ++ map (fun lockdown => "lockdown_" +:+ lockdown +:+ ".csv") lockdown_policies.

(** [any(sets)]: a set is true when it has a member. *)
Definition any_nonempty (sets : list (gset string)) : bool :=
  existsb (fun X => bool_decide (X ≠ ∅)) sets.

(** ["%s - %s" % (fn, ", ".join(X))] *)
Definition report_line (fn : string) (X : gset string) : string :=
  fn +:+ " - " +:+ join ", " (elements X).

(** The lines of the files [fnames[i]] whose set [missing[i]] is not empty. *)
Definition report_lines (fnames : list string) (missing : list (gset string))
  : list string :=
  omap (fun '(fn, X) => if bool_decide (X ≠ ∅) then Some (report_line fn X) else None)
       (zip fnames missing).

Definition report (fnames : list string) (missing : list (gset string)) : string :=
  join nl (report_lines fnames missing).

Definition files_not_found_msg (fnames : list string) (fexist : list bool) : string :=
  "Hypothesis file(s) not found: " +:+
  join ", " (omap (fun p : string * bool => if p.2 then None else Some p.1)
              (zip fnames fexist))
  +:+ ".".

(** [set(required) - set(labels)], both in lower case. *)
Definition missing_features_of (required_features : list string) (hd : DataFrame)
  : gset string :=
  list_to_set (map lower required_features) ∖ list_to_set (map lower (columns hd)).

(** [set(required) - S] for a list of texts and a set of cells: a text is
    left when no cell of [S] is that text. *)
Definition text_difference (required : list string) (S : gset cell) : gset string :=
  list_to_set (filter (fun a => Str a ∉ S) required).

(** [set(required_actions) - set(hd["actions"])] *)
Definition missing_actions_of (required_actions : list string) (hd : DataFrame)
  : result (gset string) :=
  sel ← df_getitem hd "actions";
  Ok (text_difference required_actions (set_of_selection sel)).

Definition validate_param_file (dir : directory) : result unit :=
  let fnames := hypothesis_fnames in
  let fexist := map (isfile dir) fnames in
  if negb (forallb id fexist) then
    raise ValueError (files_not_found_msg fnames fexist)
  else
    features ← _get_one_hot_encoded_features dir PARAMS_INDIVIDUAL;
    let required_features := ["actions"; "baseline"] ++ features in
    hypothesis_data ← comprehension (read_csv dir) fnames;
    let missing_features := map (missing_features_of required_features) hypothesis_data in
    if any_nonempty missing_features then
      raise ValueError ("Missing features:" +:+ nl +:+ report fnames missing_features)
    else
      let required_actions := all_possible_actions in
      missing_actions ← comprehension (missing_actions_of required_actions) hypothesis_data;
      if any_nonempty missing_actions then
        raise ValueError ("Missing actions:" +:+ nl +:+ report fnames missing_actions)
      else Ok tt.

(** ** The cross-file check of [tests/test_validate_csvs.py]

    [test_input_example_matrices] over the entries of the directory in the
    order [os.listdir] yields them; [abs_dir] is the absolute path of the
    directory, which only the first message shows. *)

(** [repr] of a set of labels and of a list of indices; a label is shown
    between single quotes, as [repr] does for text without quotes or
    escapes. *)
Definition repr_set (X : gset string) : string :=
  match elements X with
  | [] => "set()"
  | xs => "{" +:+ join ", " (map (fun x => "'" +:+ x +:+ "'") xs) +:+ "}"
  end.

Definition repr_indices (indices : list nat) : string :=
  "[" +:+ join ", " (map (fun i => str_int (Z.of_nat i)) indices) +:+ "]".

(** The names kept in [csv_files]; they are also the names the two [glob]
    patterns [lockdown*.csv] and [actions*.csv] match, so the test on the
    globs is the test that [csv_files] is empty. *)
Definition is_matrix_name (f : string) : bool :=
  endswith f ".csv" && (String.prefix "lockdown" f || String.prefix "actions" f).

(** [[i for i, (a, b) in enumerate(zip(xs, ys)) if a != b]], counted from [i]. *)
Fixpoint diff_order_from (i : nat) (xs ys : list string) : list nat :=
  match xs, ys with
  | x :: xs', y :: ys' =>
      if String.eqb x y then diff_order_from (S i) xs' ys'
      else i :: diff_order_from (S i) xs' ys'
  | _, _ => []
  end.

Definition diff_order := diff_order_from 0.

(** A cell that is a text. *)
Definition is_text (c : cell) : bool :=
  match c with
  | Str _ => true
  | Int _ | Float _ => false
  end.

(** How Python compares two sets of the entries of [actions] columns is
    known for texts: a text equals the same text and nothing else.  For
    two sets that both hold numbers or missing values it is the parameter
    [number_sets_equal] of the model: an integer equals a real number of
    the same value (1 == 1.0), whereas a cell is kept as its numeral, and
    a NaN is found in a set only as the very same object. *)
Section cross_file_check.
Variable number_sets_equal : list cell → list cell → bool.

(** [set(xs) == set(ys)] for the entries of two [actions] columns. *)
Definition sets_equal (xs ys : list cell) : bool :=
  if forallb is_text xs && forallb is_text ys then
    bool_decide ((list_to_set xs : gset cell) = list_to_set ys)
  else if forallb is_text xs || forallb is_text ys then false
  else number_sets_equal xs ys.

(** The body of the loop over [csv_files[1:]]; [actions] are the entries
    of the reference, [first_df['actions'].unique()]. *)
Definition check_against (column_names : list string) (num_columns num_rows : nat)
    (actions : list cell) (entry : string * file) : result unit :=
  let '(file, f) := entry in
  df0 ← parse_csv f;
  let df := mkDataFrame (map lower (columns df0)) (rows df0) in
  if negb (length (columns df) =? num_columns)%nat then
    raise AssertionError (file +:+ " has a different number of columns.")
  else if negb (length (rows df) =? num_rows)%nat then
    raise AssertionError (file +:+ " has a different number of rows.")
  else if bool_decide ((list_to_set (columns df) : gset string) ≠ list_to_set column_names) then
    let missing : gset string := list_to_set column_names ∖ list_to_set (columns df) in
    let additional : gset string := list_to_set (columns df) ∖ list_to_set column_names in
    raise AssertionError
      (file +:+ " has different column names. " +:+
       "Missing: " +:+ repr_set missing +:+ ". Additional: " +:+ repr_set additional)
  else if bool_decide (columns df ≠ column_names) then
    raise AssertionError
      (file +:+ " has different column order at indices: " +:+
       repr_indices (diff_order (columns df) column_names) +:+ ".")
  else
    sel ← df_getitem df "actions";
    entries ← unique sel;
    if sets_equal entries actions then Ok tt
    else raise AssertionError (file +:+ " has different 'actions' entries.").

Fixpoint check_all (check : string * file → result unit) (entries : list (string * file))
  : result unit :=
  match entries with
  | [] => Ok tt
  | entry :: rest => check entry;; check_all check rest
  end.

Definition test_input_example_matrices (abs_dir : string)
    (listing : list (string * file)) : result unit :=
  let csv_files := List.filter (fun entry => is_matrix_name entry.1) listing in
  match csv_files with
  | [] => raise ValueError ("No CSV files found in the directory '" +:+ abs_dir +:+ "'.")
  | (_, first) :: others =>
      first_df ← parse_csv first;
      let column_names := map lower (columns first_df) in
      let num_columns := length column_names in
      let num_rows := length (rows first_df) in
      sel ← df_getitem first_df "actions";
      actions ← unique sel;
      check_all (check_against column_names num_columns num_rows actions) others
  end.

End cross_file_check.

(** ** [Hypothesis.get_file_paths]

    [fetch url] stands for [requests.get(url)] followed by
    [raise_for_status()] and [.json()]: the decoded body of the response,
    or the exception of the transport, of an error status or of the
    decoder. *)

(** The value a [dict] holds for a key. *)
Fixpoint dict_get (members : list (string * json)) (key : string) : option json :=
  match members with
  | [] => None
  | (k, v) :: rest => if String.eqb k key then Some v else dict_get rest key
  end.

(** [v[key]] for a text key: only a [dict] can be asked. *)
Definition getitem (v : json) (key : string) : result json :=
  match v with
  | JObj members =>
      match dict_get members key with
      | Some x => Ok x
      | None => raised_by_library KeyError
      end
  | JNull | JBool _ | JInt _ | JFloat _ | JStr _ | JArr _ => raised_by_library TypeError
  end.

Definition get_file_paths (fetch : string → result json) (url : string)
  : result (list json) :=
  data ← fetch url;
  payload ← getitem data "payload";
  tree ← getitem payload "tree";
  items ← getitem tree "items";
  items ← iterate items;
  comprehension (fun item => getitem item "path") items.

(** ** [Hypothesis.read_hypotheses]

    Two operations of pandas are parameters of the model: [astype_float],
    the conversion [Series.astype(float)] of a column, which raises on a
    text that is no number, and [argsort], the order in which
    [sort_values] puts the rows given their category codes (a position
    per row; rows with the same code come in an order pandas does not
    promise).  [policies] is the set of policies in the order the loop
    meets them.  Tables read by [read_csv] have distinct labels, so the
    loop over the labels converts every column once. *)

Definition all_possible_features : list string :=
  ["age_group__1"; "age_group__2"; "age_group__3"; "age_group__4";
   "gender_f"; "gender_m";
   "education_high"; "education_low"; "education_medium";
   "unemployed_no"; "unemployed_yes";
   "have_partner_no"; "have_partner_yes";
   "depressed_no"; "depressed_yes";
   "children_presence_no"; "children_presence_yes";
   "housing_financial_difficulties_no"; "housing_financial_difficulties_yes";
   "selfrated_health_average"; "selfrated_health_good"; "selfrated_health_poor";
   "critical_job_no"; "critical_job_yes"].

(** [file_patterns[data_type] % policy] *)
Definition file_pattern (data_type policy : string) : string :=
  if String.eqb data_type "actions" then "actions_effects_on_mh_" +:+ policy +:+ ".csv"
  else "lockdown_" +:+ policy +:+ ".csv".

(** The rows with the cells of column [i] replaced by [values]. *)
Definition set_column (i : nat) (values : list cell) (rows : list (list cell))
  : list (list cell) :=
  zip_with (fun row v => <[i := v]> row) rows values.

(** The position of a label in a list of labels. *)
Fixpoint index_of (label : string) (labels : list string) : option nat :=
  match labels with
  | [] => None
  | l :: rest => if String.eqb l label then Some 0%nat else S <$> index_of label rest
  end.

(** The code of a cell in the categories [all_possible_actions]; what is
    no category is a missing value, and sorts last. *)
Definition category_code (v : cell) : nat :=
  match v with
  | Str s => default (length all_possible_actions) (index_of s all_possible_actions)
  | Int _ | Float _ => length all_possible_actions
  end.

(** [.cat.set_categories(all_possible_actions)] on one cell. *)
Definition set_categories (v : cell) : cell :=
  if (category_code v <? length all_possible_actions)%nat then v else Float "nan".

(** [df[labels]] for a list of labels: every column that carries one of
    them, label after label; a label the frame does not have is a
    [KeyError]. *)
Definition df_select (df : DataFrame) (labels : list string) : result DataFrame :=
  if forallb (fun l => bool_decide (l ∈ columns df)) labels then
    Ok (mkDataFrame
          (l ← labels; map (fun _ => l) (positions l (columns df)))
          (map (fun row => l ← labels; map (fun i => cell_at i row) (positions l (columns df)))
               (rows df)))
  else raised_by_library KeyError.

(** [cols]: the features in lower case, with [baseline] put in front. *)
Definition matrix_columns : list string :=
  "baseline" :: map lower all_possible_features.

Section reader.
Variable astype_float : list cell → result (list cell).
Variable argsort : list nat → list nat.

(** [for col in df.columns: if col != "actions": df[col] =
    df[col].astype(float)], from the column at position [i] on. *)
Fixpoint columns_to_float (i : nat) (labels : list string) (rows : list (list cell))
  : result (list (list cell)) :=
  match labels with
  | [] => Ok rows
  | col :: rest =>
      if String.eqb col "actions" then columns_to_float (S i) rest rows
      else
        values ← astype_float (map (cell_at i) rows);
        if negb (length values =? length rows)%nat then raised_by_library ValueError
        else columns_to_float (S i) rest (set_column i values rows)
  end.

(** The three statements that sort the rows: [df['actions']] made a
    category of the vocabulary, and
    [df.sort_values(by='actions', ignore_index=True)].  The accessor [.cat]
    exists on a [Series] only. *)
Definition sort_by_actions (df : DataFrame) : result DataFrame :=
  sel ← df_getitem df "actions";
  match sel with
  | Frame _ => raised_by_library AttributeError
  | Series values =>
      df ← df_setitem df "actions" (map set_categories values);
      let order := argsort (map category_code values) in
      Ok (mkDataFrame (columns df) (map (fun k => nth k (rows df) []) order))
  end.

(** The body of the loop: the processed table of one policy. *)
Definition read_matrix (dir : directory) (data_type policy : string) : result DataFrame :=
  df ← read_csv dir (file_pattern data_type policy);
  converted ← columns_to_float 0 (columns df) (rows df);
  df ← sort_by_actions (mkDataFrame (columns df) converted);
  df_select (mkDataFrame (map lower (columns df)) (rows df)) matrix_columns.

(** The loop over the policies, [data_dfs] being the [dict] built so far. *)
Fixpoint read_policies (dir : directory) (data_type : string) (policies : list string)
    (data_dfs : gmap string DataFrame) : result (gmap string DataFrame) :=
  match policies with
  | [] => Ok data_dfs
  | policy :: rest =>
      df ← read_matrix dir data_type policy;
      read_policies dir data_type rest (<[policy := df]> data_dfs)
  end.

Definition read_hypotheses (dir : directory) (policies : list string) (data_type : string)
  : result (gmap string DataFrame) :=
  if negb (String.eqb data_type "actions" || String.eqb data_type "lockdown") then
    raise ValueError "data_type should be either'actions' or 'lockdown'."
  else read_policies dir data_type policies ∅.

End reader.

(** ** Vocabulary of the statements *)

(** The calendar date embedded in a path: the date the program reads from
    it, when the pattern matches and the match is a date. *)
Definition path_date (file : string) : option datetime :=
  match search file with
  | Some g => match strptime g with Ok d => Some d | Raise _ => None end
  | None => None
  end.

(** A path is well dated when whatever the pattern finds in it is a
    calendar date: it holds an ISO date, or nothing shaped like one. *)
Definition well_dated (file : string) : Prop :=
  search file = None ∨ is_Some (path_date file).

#[global] Instance well_dated_dec (file : string) : Decision (well_dated file).
Proof. unfold well_dated. apply _. Defined.

(** The dates of the paths that carry one, in list order. *)
Definition parsed_dates (file_list : list string) : list datetime :=
  omap path_date file_list.

(** [mn] is the earliest (latest) of the dates [ds]. *)
Definition earliest (mn : datetime) (ds : list datetime) : Prop :=
  mn ∈ ds ∧ ∀ d, d ∈ ds → dt_leb mn d = true.
Definition latest (mx : datetime) (ds : list datetime) : Prop :=
  mx ∈ ds ∧ ∀ d, d ∈ ds → dt_leb d mx = true.

(** The date of the path lies in the closed window [[s, e]]. *)
Definition in_window (s e : datetime) (file : string) : bool :=
  match path_date file with
  | Some d => dt_leb s d && dt_leb d e
  | None => false
  end.

(** The encoder as the specification words it (4.3): an attribute whose
    first entry is a list of strings, the categorical levels, gives one
    column [attribute_level] per level, in level order; any other attribute
    gives the single column named after it; the attributes are taken in the
    order of the specification. *)
Fixpoint string_list (items : list json) : option (list string) :=
  match items with
  | [] => Some []
  | JStr s :: rest => cons s <$> string_list rest
  | _ :: _ => None
  end.

Definition attribute_columns (attribute : string * json) : list string :=
  let '(name, value) := attribute in
  match value with
  | JArr (JArr items :: _) =>
      match string_list items with
      | Some levels => map (fun level => name +:+ "_" +:+ level) levels
      | None => [name]
      end
  | _ => [name]
  end.

Definition encoded_columns (spec : list (string * json)) : list string :=
  spec ≫= attribute_columns.

(** An attribute as the data model has it: its first entry is a list that
    is not empty and is either a list of strings or a list that starts
    with something else (a number). *)
Definition well_formed_attribute (attribute : string * json) : Prop :=
  ∃ first rest more,
    attribute.2 = JArr (JArr (first :: rest) :: more) ∧
    (is_str first = true → is_Some (string_list (first :: rest))).

(** The skeleton table for the feature columns [features]: one row per
    action, in vocabulary order, the action in every column labelled
    [actions] and the integer 0 everywhere else. *)
Definition skeleton_columns (features : list string) : list string :=
  "actions" :: "baseline" :: features.

Definition skeleton_row (features : list string) (action : string) : list cell :=
  map (fun label => if String.eqb label "actions" then Str action else Int 0)
      (skeleton_columns features).

Definition skeleton (features : list string) : DataFrame :=
  mkDataFrame (skeleton_columns features)
              (map (skeleton_row features) all_possible_actions).

(** The files the generator writes: one per lockdown tier, one per status. *)
Definition skeleton_fnames : list string :=
  ["lockdown_absent.csv"; "lockdown_easy.csv"; "lockdown_medium.csv";
   "lockdown_hard.csv"; "actions_effects_on_mh.csv"].

(** A small specification, with a categorical and a numeric attribute, and
    a directory that holds nothing else. *)
Definition example_spec : list (string * json) :=
  [("gender", JArr [JArr [JStr "f"; JStr "m"]; JArr [JFloat "0.5"; JFloat "0.5"]]);
   ("age", JArr [JArr [JInt 18; JInt 65]])].

(** A specification whose one attribute has a first entry that starts with
    a text and holds a number as well. *)
Definition mixed_levels_spec : list (string * json) :=
  [("education", JArr [JArr [JStr "low"; JInt 2]])].

(** A file that holds the JSON document [j], and one that [read_csv]
    reads as the table [df].  The examples never read the first as a
    table, nor the second as JSON. *)
Definition json_file (j : json) : file :=
  mkFile (Some j) (raised_by_library ParserError).

Definition table_file (df : DataFrame) : file :=
  mkFile None (Ok df).

Definition example_dir : directory :=
  {[ PARAMS_INDIVIDUAL := json_file (JObj example_spec) ]}.

(** The read-back of a table that pandas reads as it was written. *)
Definition read_as_written (df : DataFrame) : result DataFrame := Ok df.

(** [create_empty_hypotheses(d)] followed, when it returns, by
    [validate_param_file(d)]. *)
Definition generate_then_validate (read_back : DataFrame → result DataFrame)
    (dir_params : string) (dir : directory) : directory * result unit :=
  let '(dir', r) := create_empty_hypotheses read_back dir_params dir in
  match r with
  | Ok _ => (dir', validate_param_file dir')
  | Raise e => (dir', Raise e)
  end.

(** The files the validator expects and the generator never writes. *)
Definition action_effect_fnames : list string :=
  ["actions_effects_on_mh_absent.csv"; "actions_effects_on_mh_easy.csv";
   "actions_effects_on_mh_medium.csv"; "actions_effects_on_mh_hard.csv"].

(** The small directory once its four action-effect matrices have been put
    there, each a table over the encoded columns with a row per action. *)
Definition example_matrix : file := table_file (skeleton ["gender_f"; "gender_m"; "age"]).

Definition populated_dir : directory :=
  fold_left (fun d fp => <[fp := example_matrix]> d) action_effect_fnames example_dir.

(** The directory holds the expected files, and [tables] are the tables
    [read_csv] makes of them, in the order of [hypothesis_fnames]. *)
Definition holds_tables (dir : directory) (tables : list DataFrame) : Prop :=
  Forall2 (fun name hd => ∃ f, dir !! name = Some f ∧ csv_view f = Ok hd)
          hypothesis_fnames tables.

(** The selection holds every action of the vocabulary. *)
Definition covers_vocabulary (sel : selection) : Prop :=
  ∀ a, a ∈ all_possible_actions → Str a ∈ set_of_selection sel.

(** The features the validator requires, given the encoded ones. *)
Definition required_features (features : list string) : list string :=
  ["actions"; "baseline"] ++ features.

(** Directories for the validator, all over the small specification.
    [complete_dir] holds the eight expected matrices; the others differ
    from it in one or two files. *)
Definition example_features : list string := ["gender_f"; "gender_m"; "age"].

Definition complete_dir : directory :=
  fold_left (fun d fp => <[fp := example_matrix]> d) hypothesis_fnames example_dir.

(** A matrix without the column [age]. *)
Definition matrix_without_age : DataFrame := skeleton ["gender_f"; "gender_m"].

(** A matrix without the row of [travel]. *)
Definition matrix_without_travel : DataFrame :=
  mkDataFrame (skeleton_columns example_features)
    (map (skeleton_row example_features)
         (List.filter (fun a => negb (String.eqb a "travel")) all_possible_actions)).

(** A matrix with a row for one more action, [dance]. *)
Definition matrix_with_dance : DataFrame :=
  mkDataFrame (skeleton_columns example_features)
    (map (skeleton_row example_features) (all_possible_actions ++ ["dance"])).

(** One file missing, and a column missing in another. *)
Definition missing_file_and_column_dir : directory :=
  <["lockdown_easy.csv" := table_file matrix_without_age]>
    (delete "lockdown_hard.csv" complete_dir).

(** A column missing in one file, an action missing in another. *)
Definition missing_column_and_action_dir : directory :=
  <["lockdown_easy.csv" := table_file matrix_without_age]>
    (<["lockdown_medium.csv" := table_file matrix_without_travel]> complete_dir).

(** An action missing in one file. *)
Definition missing_action_dir : directory :=
  <["lockdown_medium.csv" := table_file matrix_without_travel]> complete_dir.

(** One file with the extra action. *)
Definition extra_action_dir : directory :=
  <["lockdown_medium.csv" := table_file matrix_with_dance]> complete_dir.

(** A stand-in for the comparison of sets of numbers: two lists make the
    same set when they hold the same numerals.  The matrices of the
    examples have texts under [actions], for which it is never asked. *)
Definition same_numerals (xs ys : list cell) : bool :=
  bool_decide ((list_to_set xs : gset cell) = list_to_set ys).

(** Sibling matrices for the cross-file check: the reference, a matrix
    with two columns swapped, and one with the swap and a row less. *)
Definition reordered_columns : list string :=
  ["actions"; "baseline"; "gender_m"; "gender_f"; "age"].

Definition matrix_reordered : DataFrame :=
  mkDataFrame reordered_columns (rows (skeleton example_features)).


Definition drift_listing : list (string * file) :=
  [("params_individual.json", json_file (JObj example_spec));
   ("lockdown_absent.csv", example_matrix);
   ("actions_effects_on_mh.csv", example_matrix);
   ("lockdown_easy.csv", table_file matrix_reordered);
   ("lockdown_hard.csv", example_matrix)].


(** A value that is [null], a boolean or a number. *)
Definition is_scalar (v : json) : bool :=
  match v with
  | JNull | JBool _ | JInt _ | JFloat _ => true
  | JStr _ | JArr _ | JObj _ => false
  end.

(** Attribute values the encoder raises on, with the class of the
    exception.  The value itself, or its first entry: a scalar cannot be
    subscripted ([TypeError]), a [dict] has no key [0] ([KeyError]), an
    empty text or an empty list has no first item ([IndexError]).  And a
    first entry that is a list starting with a text and holding something
    that is no text, which cannot be appended to the attribute name
    ([TypeError]). *)
Inductive rejected_value : json → exn_class → Prop :=
| rejected_scalar (v : json) :
    is_scalar v = true → rejected_value v TypeError
| rejected_dict (members : list (string * json)) :
    rejected_value (JObj members) KeyError
| rejected_empty_text : rejected_value (JStr EmptyString) IndexError
| rejected_empty : rejected_value (JArr []) IndexError
| rejected_scalar_entry (v0 : json) (more : list json) :
    is_scalar v0 = true → rejected_value (JArr (v0 :: more)) TypeError
| rejected_dict_entry (members : list (string * json)) (more : list json) :
    rejected_value (JArr (JObj members :: more)) KeyError
| rejected_empty_text_entry (more : list json) :
    rejected_value (JArr (JStr EmptyString :: more)) IndexError
| rejected_empty_entry (more : list json) :
    rejected_value (JArr (JArr [] :: more)) IndexError
| rejected_mixed (s : string) (rest more : list json) :
    string_list rest = None →
    rejected_value (JArr (JArr (JStr s :: rest) :: more)) TypeError.

(** The table has, up to case, every column the validator requires for the
    encoded [features]. *)
Definition has_features (features : list string) (hd : DataFrame) : Prop :=
  ∀ feature, feature ∈ required_features features →
             lower feature ∈ map lower (columns hd).

(** The table has an [actions] selection that holds the whole vocabulary. *)
Definition has_actions (hd : DataFrame) : Prop :=
  ∃ sel, df_getitem hd "actions" = Ok sel ∧ covers_vocabulary sel.

(** The skeleton with the label of its first column written [Actions], and
    the complete directory with one matrix replaced by it. *)
Definition matrix_capitalised : DataFrame :=
  mkDataFrame ("Actions" :: "baseline" :: example_features)
              (rows (skeleton example_features)).

Definition capitalised_dir : directory :=
  <["lockdown_easy.csv" := table_file matrix_capitalised]> complete_dir.

(** The table with its labels in lower case, as the cross-file check looks
    at every file but the reference. *)
Definition lowered (df : DataFrame) : DataFrame :=
  mkDataFrame (map lower (columns df)) (rows df).

(** The file agrees with the reference table [ref], whose [actions] are
    [vs0]: it is read as a table with the same labels in the same order up
    to case, as many rows, and one [actions] column whose entries make,
    for Python, the same set as those of the reference. *)
Definition agrees_with (number_sets_equal : list cell → list cell → bool)
    (ref : DataFrame) (vs0 : list cell) (f : file) : Prop :=
  ∃ df vs,
    csv_view f = Ok df ∧
    map lower (columns df) = map lower (columns ref) ∧
    length (rows df) = length (rows ref) ∧
    df_getitem (lowered df) "actions" = Ok (Series vs) ∧
    sets_equal number_sets_equal (remove_dups vs) (remove_dups vs0) = true.

(** The value [v] is a [dict] that holds [x] for [key]. *)
Definition holds (v : json) (key : string) (x : json) : Prop :=
  ∃ members, v = JObj members ∧ dict_get members key = Some x.

(** The table has a cell per label in every row. *)
Definition rectangular (df : DataFrame) : Prop :=
  Forall (fun row => length row = length (columns df)) (rows df).

(** [order] puts rows with the codes [keys] in sorted order: it holds every
    position once, and along it the codes never go down. *)
Definition sorted_order (keys order : list nat) : Prop :=
  order ≡ₚ seq 0 (length keys) ∧ Sorted le (map (fun k => nth k keys 0%nat) order).

(** What the reader needs of a table: a column [actions], every column of
    [matrix_columns] up to case, and columns other than [actions] that
    [astype_float] converts. *)
Definition readable (astype_float : list cell → result (list cell)) (table : DataFrame)
  : Prop :=
  "actions" ∈ columns table ∧
  (∀ label, label ∈ matrix_columns → label ∈ map lower (columns table)) ∧
  ∀ p label, columns table !! p = Some label → label ≠ "actions" →
    ∃ values, astype_float (map (cell_at p) (rows table)) = Ok values ∧
              length values = length (rows table).

(** The two kinds of matrices the reader knows. *)
Definition valid_data_type (data_type : string) : Prop :=
  data_type = "actions" ∨ data_type = "lockdown".

(** A directory with one lockdown matrix that has every column of the
    class, the matrix the reader makes of it, and two stand-ins for the
    operations of pandas: a conversion that leaves the cells as they are,
    and the order of a table whose rows are sorted already. *)
Definition full_matrix : DataFrame := skeleton all_possible_features.

Definition full_dir : directory := {[ "lockdown_easy.csv" := table_file full_matrix ]}.

Definition full_matrix_read : DataFrame :=
  mkDataFrame matrix_columns
    (repeat (repeat (Int 0) (length matrix_columns)) (length all_possible_actions)).

Definition full_read : gmap string DataFrame := {[ "easy" := full_matrix_read ]}.

Definition keep_cells (values : list cell) : result (list cell) := Ok values.

Definition keep_order (keys : list nat) : list nat := seq 0 (length keys).

(** * Properties *)

(** ** Results *)

Lemma bind_Ok {A B} (f : A → result B) (m : result A) (b : B) :
  m ≫= f = Ok b → ∃ a, m = Ok a ∧ f a = Ok b.
Proof. destruct m as [a|e]; [eauto | discriminate]. Qed.

Lemma bind_Ok_l {A B} (k : A → result B) (a : A) : Ok a ≫= k = k a.
Proof. reflexivity. Qed.

Lemma comprehension_Ok {A B} (f : A → result B) (g : A → B) (xs : list A) :
  Forall (fun x => f x = Ok (g x)) xs → comprehension f xs = Ok (map g xs).
Proof.
  induction 1 as [|x xs Hx _ IH]; [done|].
  cbn [comprehension map]. by rewrite Hx, IH.
Qed.

(** ** Text *)

Lemma append_cons (c : ascii) (a b : string) : String c a +:+ b = String c (a +:+ b).
Proof. reflexivity. Qed.

Lemma append_nil (b : string) : EmptyString +:+ b = b.
Proof. reflexivity. Qed.

Lemma prefix_nil (s : string) : String.prefix EmptyString s = true.
Proof. by destruct s. Qed.

Lemma prefix_app (x post : string) : String.prefix x (x +:+ post) = true.
Proof.
  induction x as [|c x IH]; [apply prefix_nil|].
  rewrite append_cons. cbn [String.prefix].
  destruct (ascii_dec c c); [exact IH | congruence].
Qed.

Lemma is_infix_prefix (x s : string) : String.prefix x s = true → is_infix x s = true.
Proof. intros H. destruct s; cbn [is_infix]; by rewrite H. Qed.

(** A text occurs in whatever is built around it. *)
Lemma is_infix_app (x pre post : string) : is_infix x (pre +:+ x +:+ post) = true.
Proof.
  induction pre as [|c pre IH].
  - rewrite append_nil. apply is_infix_prefix, prefix_app.
  - rewrite append_cons. cbn [is_infix]. rewrite IH. apply orb_true_r.
Qed.

Lemma append_assoc (a b c : string) : (a +:+ b) +:+ c = a +:+ b +:+ c.
Proof. induction a as [|x a IH]; [done|]. rewrite !append_cons. by rewrite IH. Qed.

Lemma append_nil_r (a : string) : a +:+ EmptyString = a.
Proof. induction a as [|x a IH]; [done|]. rewrite append_cons. by rewrite IH. Qed.

Lemma prefix_inv (x s : string) :
  String.prefix x s = true → ∃ post, s = x +:+ post.
Proof.
  revert s. induction x as [|c x IH]; intros s H.
  - exists s. done.
  - destruct s as [|c' s]; [discriminate|]. cbn [String.prefix] in H.
    destruct (ascii_dec c c') as [->|]; [|discriminate].
    destruct (IH _ H) as [post ->]. by exists post.
Qed.

Lemma is_infix_inv (x s : string) :
  is_infix x s = true → ∃ pre post, s = pre +:+ x +:+ post.
Proof.
  induction s as [|c s IH]; cbn [is_infix]; intros H.
  - apply orb_true_iff in H as [H|H]; [|discriminate].
    destruct (prefix_inv _ _ H) as [post ->]. by exists EmptyString, post.
  - apply orb_true_iff in H as [H|H].
    + destruct (prefix_inv _ _ H) as [post ->]. by exists EmptyString, post.
    + destruct (IH H) as (pre & post & ->). by exists (String c pre), post.
Qed.

(** What occurs in a part occurs in the whole. *)
Lemma is_infix_within (x m pre post : string) :
  is_infix x m = true → is_infix x (pre +:+ m +:+ post) = true.
Proof.
  intros (a & b & ->)%is_infix_inv.
  rewrite !append_assoc, <- (append_assoc pre a). apply is_infix_app.
Qed.

Lemma is_infix_refl (x : string) : is_infix x x = true.
Proof. rewrite <- (append_nil_r x) at 2. apply (is_infix_app x EmptyString EmptyString). Qed.

(** Every item of a joined list occurs in the result. *)
Lemma is_infix_join (sep x : string) (xs : list string) :
  x ∈ xs → is_infix x (join sep xs) = true.
Proof.
  induction xs as [|y xs IH]; [by intros ?%elem_of_nil|].
  intros Hin. cbn [join]. destruct xs as [|z xs].
  - apply list_elem_of_singleton in Hin as ->. apply is_infix_refl.
  - apply elem_of_cons in Hin as [->|Hin].
    + apply (is_infix_app _ EmptyString).
    + rewrite <- append_assoc, <- (append_nil_r (join sep (z :: xs))).
      apply is_infix_within. by apply IH.
Qed.

(** ** The order on [datetime] *)

Lemma dt_leb_spec (a b : datetime) :
  dt_leb a b = true ↔
  year a < year b ∨
  (year a = year b ∧ (month a < month b ∨ (month a = month b ∧ day a ≤ day b))).
Proof.
  unfold dt_leb, dt_compare.
  destruct (Z.compare_spec (year a) (year b));
    destruct (Z.compare_spec (month a) (month b));
    destruct (Z.compare_spec (day a) (day b)); split; intros; try done; lia.
Qed.

Lemma dt_ltb_leb (a b : datetime) : dt_ltb a b = negb (dt_leb b a).
Proof.
  unfold dt_ltb, dt_leb, dt_compare.
  destruct (Z.compare_spec (year a) (year b));
    destruct (Z.compare_spec (year b) (year a)); try lia; try done;
    destruct (Z.compare_spec (month a) (month b));
    destruct (Z.compare_spec (month b) (month a)); try lia; try done;
    destruct (Z.compare_spec (day a) (day b));
    destruct (Z.compare_spec (day b) (day a)); try lia; done.
Qed.

Lemma dt_gtb_leb (a b : datetime) : dt_gtb a b = negb (dt_leb a b).
Proof. unfold dt_gtb, dt_leb. by destruct (dt_compare a b). Qed.

Lemma dt_leb_refl (a : datetime) : dt_leb a a = true.
Proof. apply dt_leb_spec. lia. Qed.

Lemma dt_leb_trans (a b c : datetime) :
  dt_leb a b = true → dt_leb b c = true → dt_leb a c = true.
Proof. rewrite !dt_leb_spec. lia. Qed.

Lemma dt_leb_antisym (a b : datetime) :
  dt_leb a b = true → dt_leb b a = true → a = b.
Proof.
  rewrite !dt_leb_spec. destruct a, b; cbn. intros ? ?.
  f_equal; lia.
Qed.

Lemma dt_leb_total (a b : datetime) : dt_leb a b = true ∨ dt_leb b a = true.
Proof. rewrite !dt_leb_spec. lia. Qed.

(** ** [min] and [max] *)

Lemma py_min_earliest (d0 : datetime) (ds : list datetime) :
  earliest (py_min d0 ds) (d0 :: ds).
Proof.
  unfold py_min. revert d0.
  induction ds as [|d ds IH]; intros d0; cbn [fold_left].
  - split; [apply list_elem_of_singleton; done|].
    intros d ->%list_elem_of_singleton. apply dt_leb_refl.
  - destruct (IH (if dt_ltb d d0 then d else d0)) as [Hin Hle].
    split.
    + apply elem_of_cons in Hin as [->|Hin]; [destruct (dt_ltb d d0)|];
        rewrite !elem_of_cons; auto.
    + intros x Hx.
      assert (Hd : dt_leb (if dt_ltb d d0 then d else d0) d = true
                   ∧ dt_leb (if dt_ltb d d0 then d else d0) d0 = true).
      { rewrite dt_ltb_leb. destruct (dt_leb d0 d) eqn:E; cbn.
        - split; [done | apply dt_leb_refl].
        - split; [apply dt_leb_refl|]. destruct (dt_leb_total d d0); congruence. }
      destruct Hd as [Hd Hd0].
      apply elem_of_cons in Hx as [->|[->|Hx]%elem_of_cons].
      * eapply dt_leb_trans; [|exact Hd0]. apply Hle, elem_of_cons; auto.
      * eapply dt_leb_trans; [|exact Hd]. apply Hle, elem_of_cons; auto.
      * apply Hle, elem_of_cons; auto.
Qed.

Lemma py_max_latest (d0 : datetime) (ds : list datetime) :
  latest (py_max d0 ds) (d0 :: ds).
Proof.
  unfold py_max. revert d0.
  induction ds as [|d ds IH]; intros d0; cbn [fold_left].
  - split; [apply list_elem_of_singleton; done|].
    intros d ->%list_elem_of_singleton. apply dt_leb_refl.
  - destruct (IH (if dt_gtb d d0 then d else d0)) as [Hin Hle].
    split.
    + apply elem_of_cons in Hin as [->|Hin]; [destruct (dt_gtb d d0)|];
        rewrite !elem_of_cons; auto.
    + intros x Hx.
      assert (Hd : dt_leb d (if dt_gtb d d0 then d else d0) = true
                   ∧ dt_leb d0 (if dt_gtb d d0 then d else d0) = true).
      { rewrite dt_gtb_leb. destruct (dt_leb d d0) eqn:E; cbn.
        - split; [done | apply dt_leb_refl].
        - split; [apply dt_leb_refl|]. destruct (dt_leb_total d d0); congruence. }
      destruct Hd as [Hd Hd0].
      apply elem_of_cons in Hx as [->|[->|Hx]%elem_of_cons].
      * eapply dt_leb_trans; [exact Hd0|]. apply Hle, elem_of_cons; auto.
      * eapply dt_leb_trans; [exact Hd|]. apply Hle, elem_of_cons; auto.
      * apply Hle, elem_of_cons; auto.
Qed.

Lemma earliest_unique (a b : datetime) (ds : list datetime) :
  earliest a ds → earliest b ds → a = b.
Proof. intros [Ha Hla] [Hb Hlb]. apply dt_leb_antisym; auto. Qed.

Lemma latest_unique (a b : datetime) (ds : list datetime) :
  latest a ds → latest b ds → a = b.
Proof. intros [Ha Hla] [Hb Hlb]. apply dt_leb_antisym; auto. Qed.

(** ** [filter_dates] *)

Lemma strptime_Raise (g : string) (e : exn) :
  strptime g = Raise e → e = Exn ValueError None.
Proof.
  unfold strptime, make_datetime, raised_by_library.
  repeat case_match; congruence.
Qed.

Lemma path_date_Some (file : string) (d : datetime) :
  path_date file = Some d ↔ ∃ g, search file = Some g ∧ strptime g = Ok d.
Proof.
  unfold path_date. split.
  - destruct (search file) as [g|]; [|done].
    destruct (strptime g) eqn:E; [|done]. intros [= ->]. eauto.
  - intros (g & -> & ->). done.
Qed.

(** The bounds loop passes over exactly the paths without a date. *)
Lemma collect_dates_well_dated (file_list : list string) :
  Forall well_dated file_list → collect_dates file_list = Ok (parsed_dates file_list).
Proof.
  induction 1 as [|file rest Hfile _ IH]; [done|].
  unfold parsed_dates in *. cbn [collect_dates omap list_omap].
  unfold path_date at 1. destruct Hfile as [Hnone|[d Hd]].
  - rewrite Hnone. exact IH.
  - apply path_date_Some in Hd as (g & -> & Hg). rewrite Hg, IH. done.
Qed.

Lemma filter_paths_dated (s e : datetime) (file_list : list string) :
  Forall (fun file => is_Some (path_date file)) file_list →
  filter_paths s e file_list = Ok (List.filter (in_window s e) file_list).
Proof.
  induction 1 as [|file rest [d Hd] _ IH]; [done|].
  cbn [filter_paths List.filter]. unfold in_window at 1. rewrite Hd.
  apply path_date_Some in Hd as (g & -> & Hg). rewrite Hg, IH. cbn.
  by destruct (dt_leb s d && dt_leb d e).
Qed.

Lemma filter_paths_undated (s e : datetime) (file_list : list string) (file : string) :
  Forall well_dated file_list → file ∈ file_list → search file = None →
  filter_paths s e file_list = raised_by_library AttributeError.
Proof.
  intros Hwd Hin Hnone. induction Hwd as [|f rest Hf _ IH]; [by apply elem_of_nil in Hin|].
  cbn [filter_paths]. destruct Hf as [Hf|[d Hd]].
  - by rewrite Hf.
  - apply elem_of_cons in Hin as [->|Hin].
    { apply path_date_Some in Hd as (g & Hg & _). congruence. }
    apply path_date_Some in Hd as (g & -> & Hg). rewrite Hg, (IH Hin). done.
Qed.

Section window.
Context (file_list : list string) (ts te : string) (s e mn mx : datetime).
Hypothesis parse_start : strptime ts = Ok s.
Hypothesis parse_end : strptime te = Ok e.
Hypothesis dated : Forall well_dated file_list.
Hypothesis is_min : earliest mn (parsed_dates file_list).
Hypothesis is_max : latest mx (parsed_dates file_list).

(** The program's [min_date] and [max_date] are the earliest and the
    latest parsed date. *)
Lemma filter_dates_bounds :
  filter_dates file_list (ts, te) =
  if dt_ltb s mn || dt_gtb e mx then
    raise ValueError (outside_msg (ts, te) mn mx)
  else filter_paths s e file_list.
Proof using All.
  unfold filter_dates. cbn [fst snd]. rewrite parse_start, parse_end.
  rewrite (collect_dates_well_dated _ dated). cbn.
  destruct (parsed_dates file_list) as [|d0 ds] eqn:E.
  { destruct is_min as [Hin _]. by apply elem_of_nil in Hin. }
  rewrite (earliest_unique _ _ _ (py_min_earliest d0 ds) is_min).
  rewrite (latest_unique _ _ _ (py_max_latest d0 ds) is_max).
  done.
Qed.
End window.

Lemma earliest_check (mn : datetime) (ds : list datetime) :
  mn ∈ ds → forallb (dt_leb mn) ds = true → earliest mn ds.
Proof.
  intros Hin Hall. split; [done|]. intros d Hd.
  rewrite forallb_forall in Hall. by apply Hall, list_elem_of_In.
Qed.

Lemma latest_check (mx : datetime) (ds : list datetime) :
  mx ∈ ds → forallb (fun d => dt_leb d mx) ds = true → latest mx ds.
Proof.
  intros Hin Hall. split; [done|]. intros d Hd.
  rewrite forallb_forall in Hall. by apply Hall, list_elem_of_In.
Qed.

Lemma collect_dates_none (file_list : list string) :
  Forall (fun file => path_date file = None) file_list →
  (collect_dates file_list = Ok [] ∨
   collect_dates file_list = raised_by_library ValueError) ∧
  (Forall (fun file => search file = None) file_list → collect_dates file_list = Ok []).
Proof.
  induction 1 as [|file rest Hfile _ [IH1 IH2]]; [by split; [left|]|].
  cbn [collect_dates]. unfold path_date in Hfile.
  destruct (search file) as [g|] eqn:Hs.
  - split; [|intros [Hn _]%Forall_cons; congruence].
    destruct (strptime g) as [d|err] eqn:Hg; [done|].
    apply strptime_Raise in Hg as ->. by right.
  - split; [done|]. intros [_ ?]%Forall_cons. auto.
Qed.

Lemma outside_msg_head (tp : string * string) (mn mx : datetime) :
  ∃ rest, outside_msg tp mn mx = String "t" rest.
Proof. unfold outside_msg. rewrite append_cons. eauto. Qed.

(** The three paths of the scenarios of the specification, as the test
    suite of the repository names such files. *)
Definition path_01_01 : string := "data-rivm/tests/rivm_daily_2021-01-01.csv.gz".
Definition path_01_15 : string := "data-rivm/tests/rivm_daily_2021-01-15.csv.gz".
Definition path_01_30 : string := "data-rivm/tests/rivm_daily_2021-01-30.csv.gz".
Definition scenario_paths : list string := [path_01_01; path_01_15; path_01_30].

(** A path in which the pattern finds a text that is no calendar date, a
    thirtieth of February, and a path the pattern matches nowhere. *)
Definition path_02_30 : string := "data-rivm/tests/rivm_daily_2021-02-30.csv.gz".
Definition path_readme : string := "data-rivm/tests/README.md".



(** C5.  For a requested window that reads as the dates [s] and [e]:
    (1) when no path of the list carries a date the program can read,
    [filter_dates] raises a [ValueError] that is never the out-of-bounds one,
    and it is the error "Dates provided are not within the list" when the
    pattern matches in no path; (2) when whatever the pattern finds in a
    path of the list is a calendar date, some path carries a date and the
    start is before the earliest date [mn] or the end after the latest date
    [mx], it raises the out-of-bounds [ValueError], whose message shows the
    two requested texts and the two available dates. *)
Theorem filter_dates_range_errors
    (file_list : list string) (ts te : string) (s e : datetime) :
  strptime ts = Ok s →
  strptime te = Ok e →
  (Forall (fun file => path_date file = None) file_list →
   ∃ m, filter_dates file_list (ts, te) = Raise (Exn ValueError m) ∧
        (∀ mn mx, m ≠ Some (outside_msg (ts, te) mn mx)) ∧
        (Forall (fun file => search file = None) file_list → m = Some no_dates_msg))
  ∧
  (∀ mn mx,
     Forall well_dated file_list →
     earliest mn (parsed_dates file_list) →
     latest mx (parsed_dates file_list) →
     dt_ltb s mn = true ∨ dt_gtb e mx = true →
     filter_dates file_list (ts, te) = raise ValueError (outside_msg (ts, te) mn mx) ∧
     is_infix ts (outside_msg (ts, te) mn mx) = true ∧
     is_infix te (outside_msg (ts, te) mn mx) = true ∧
     is_infix (str_datetime mn) (outside_msg (ts, te) mn mx) = true ∧
     is_infix (str_datetime mx) (outside_msg (ts, te) mn mx) = true).
Proof.
  intros Hs He. split.
  - intros Hnone. unfold filter_dates. cbn [fst snd]. rewrite Hs, He. cbn.
    destruct (collect_dates_none _ Hnone) as [[Hc|Hc] Hall].
    + rewrite Hc. exists (Some no_dates_msg). split; [done|]. split; [|done].
      intros mn mx. destruct (outside_msg_head (ts, te) mn mx) as [rest ->]. done.
    + rewrite Hc. exists None. split; [done|]. split; [done|].
      intros Hsearch. rewrite (Hall Hsearch) in Hc. discriminate.
  - intros mn mx Hwd Hmin Hmax Hout.
    rewrite (filter_dates_bounds _ _ _ _ _ _ _ Hs He Hwd Hmin Hmax).
    split; [|unfold outside_msg; cbn [fst snd]; repeat split].
    + destruct Hout as [-> | ->]; [done | by rewrite orb_true_r].
    + apply is_infix_app.
    + rewrite <- (append_assoc "time_period (" ts), <- (append_assoc _ " - ").
      apply is_infix_app.
    + rewrite <- (append_assoc "time_period (" ts), <- (append_assoc _ " - "),
        <- (append_assoc _ te), <- (append_assoc _ ") "),
        <- (append_assoc _ "is outside available dates that go from "),
        <- (append_assoc _ "(").
      apply is_infix_app.
    + rewrite <- (append_assoc "time_period (" ts), <- (append_assoc _ " - "),
        <- (append_assoc _ te), <- (append_assoc _ ") "),
        <- (append_assoc _ "is outside available dates that go from "),
        <- (append_assoc _ "("), <- (append_assoc _ (str_datetime mn)),
        <- (append_assoc _ " to ").
      apply is_infix_app.
Qed.

(** C5, the scenario of the specification: the window 2021-02-01 to
    2026-03-15 on the three paths is refused with a message that shows the
    latest available date, 2021-01-30. *)
Lemma filter_dates_range_errors_scenario :
  filter_dates scenario_paths ("2021-02-01", "2026-03-15") =
    raise ValueError
      (outside_msg ("2021-02-01", "2026-03-15") (Datetime 2021 1 1) (Datetime 2021 1 30)) ∧
  is_infix "2021-01-30"
    (outside_msg ("2021-02-01", "2026-03-15") (Datetime 2021 1 1) (Datetime 2021 1 30)) = true.
Proof.
  destruct (filter_dates_range_errors scenario_paths "2021-02-01" "2026-03-15"
              (Datetime 2021 2 1) (Datetime 2026 3 15) eq_refl eq_refl) as [_ Hout].
  destruct (Hout (Datetime 2021 1 1) (Datetime 2021 1 30)) as [Hraise _].
  - apply (bool_decide_unpack _). vm_compute. exact I.
  - apply earliest_check; [apply (bool_decide_unpack _); vm_compute; exact I | reflexivity].
  - apply latest_check; [apply (bool_decide_unpack _); vm_compute; exact I | reflexivity].
  - right. reflexivity.
  - split; [exact Hraise | reflexivity].
Defined.

(** C5 without the condition on what the pattern finds: the first path
    carries the date 2021-01-01, the only date the program can read in the
    list, and the requested end 2026-03-15 is after it; the second path
    holds 2021-02-30, on which [strptime] raises in the bounds loop.
    [filter_dates] raises that [ValueError], which has no message, and not
    the out-of-bounds error. *)
Lemma filter_dates_range_errors_unreadable_date :
  strptime "2021-02-01" = Ok (Datetime 2021 2 1) ∧
  strptime "2026-03-15" = Ok (Datetime 2026 3 15) ∧
  parsed_dates [path_01_01; path_02_30] = [Datetime 2021 1 1] ∧
  dt_gtb (Datetime 2026 3 15) (Datetime 2021 1 1) = true ∧
  search path_02_30 = Some "2021-02-30" ∧
  strptime "2021-02-30" = raised_by_library ValueError ∧
  filter_dates [path_01_01; path_02_30] ("2021-02-01", "2026-03-15")
    = raised_by_library ValueError ∧
  ∀ mn mx, filter_dates [path_01_01; path_02_30] ("2021-02-01", "2026-03-15")
           ≠ raise ValueError (outside_msg ("2021-02-01", "2026-03-15") mn mx).
Proof.
  assert (Hrun : filter_dates [path_01_01; path_02_30] ("2021-02-01", "2026-03-15")
                 = raised_by_library ValueError) by (vm_compute; reflexivity).
  repeat split; try (vm_compute; reflexivity).
  intros mn mx. rewrite Hrun. discriminate.
Qed.

(** C9.  For a list in which whatever the pattern finds is a calendar
    date, with a path the pattern matches nowhere, and a window inside the
    earliest and latest dates of the list: the bounds loop passes over the
    undated paths, and the final comprehension, hence [filter_dates],
    raises an [AttributeError]; no list of paths is returned. *)
Theorem filter_dates_undated_path
    (file_list : list string) (ts te : string) (s e mn mx : datetime)
    (undated : string) :
  strptime ts = Ok s →
  strptime te = Ok e →
  Forall well_dated file_list →
  undated ∈ file_list →
  search undated = None →
  earliest mn (parsed_dates file_list) →
  latest mx (parsed_dates file_list) →
  dt_leb mn s = true →
  dt_leb e mx = true →
  collect_dates file_list = Ok (parsed_dates file_list) ∧
  filter_paths s e file_list = raised_by_library AttributeError ∧
  filter_dates file_list (ts, te) = raised_by_library AttributeError.
Proof.
  intros Hs He Hwd Hin Hnone Hmin Hmax Hlo Hhi.
  split; [by apply collect_dates_well_dated|].
  pose proof (filter_paths_undated s e _ _ Hwd Hin Hnone) as Hraise.
  split; [done|].
  rewrite (filter_dates_bounds _ _ _ _ _ _ _ Hs He Hwd Hmin Hmax).
  by rewrite dt_ltb_leb, dt_gtb_leb, Hlo, Hhi.
Qed.

(** C9 on the three dated paths followed by a path without a date. *)
Lemma filter_dates_undated_path_scenario :
  filter_dates (scenario_paths ++ ["data-rivm/tests/README.md"]) ("2021-01-02", "2021-01-30")
  = raised_by_library AttributeError.
Proof.
  apply (filter_dates_undated_path (scenario_paths ++ ["data-rivm/tests/README.md"])
           "2021-01-02" "2021-01-30" (Datetime 2021 1 2) (Datetime 2021 1 30)
           (Datetime 2021 1 1) (Datetime 2021 1 30) "data-rivm/tests/README.md").
  - reflexivity.
  - reflexivity.
  - apply (bool_decide_unpack _). vm_compute. exact I.
  - apply (bool_decide_unpack _). vm_compute. exact I.
  - reflexivity.
  - apply earliest_check; [apply (bool_decide_unpack _); vm_compute; exact I | reflexivity].
  - apply latest_check; [apply (bool_decide_unpack _); vm_compute; exact I | reflexivity].
  - reflexivity.
  - reflexivity.
Defined.

(** C9 without the condition on what the pattern finds: a path dated
    2021-01-01, a path the pattern matches nowhere, a path that holds
    2021-02-30, and the window 2021-01-01 to 2021-01-01, inside the dates
    the program can read.  [strptime] raises its [ValueError] in the bounds
    loop; the final comprehension is never reached and no [AttributeError]
    is raised. *)
Lemma filter_dates_undated_path_unreadable_date :
  strptime "2021-01-01" = Ok (Datetime 2021 1 1) ∧
  path_date path_01_01 = Some (Datetime 2021 1 1) ∧
  search path_readme = None ∧
  path_date path_02_30 = None ∧
  parsed_dates [path_01_01; path_readme; path_02_30] = [Datetime 2021 1 1] ∧
  collect_dates [path_01_01; path_readme; path_02_30] = raised_by_library ValueError ∧
  filter_dates [path_01_01; path_readme; path_02_30] ("2021-01-01", "2021-01-01")
    = raised_by_library ValueError ∧
  filter_dates [path_01_01; path_readme; path_02_30] ("2021-01-01", "2021-01-01")
    ≠ raised_by_library AttributeError.
Proof.
  assert (Hrun : filter_dates [path_01_01; path_readme; path_02_30]
                              ("2021-01-01", "2021-01-01")
                 = raised_by_library ValueError) by (vm_compute; reflexivity).
  repeat split; try (vm_compute; reflexivity).
  rewrite Hrun. discriminate.
Qed.

(** ** The feature encoder *)

Lemma comprehension_level_column (name : string) (items : list json) (levels : list string) :
  string_list items = Some levels →
  comprehension (level_column name) items =
  Ok (map (fun level => name +:+ "_" +:+ level) levels).
Proof.
  revert levels. induction items as [|item items IH]; intros levels.
  - intros [= <-]. done.
  - destruct item; try done. cbn [string_list].
    destruct (string_list items) as [ls|]; [|done]. intros [= <-].
    cbn [comprehension level_column]. by rewrite (IH ls eq_refl).
Qed.

Lemma string_list_head (first : json) (rest : list json) :
  is_Some (string_list (first :: rest)) → is_str first = true.
Proof. destruct first; cbn; by intros [? ?]. Qed.

Lemma encoded_columns_cons (attribute : string * json) (spec : list (string * json)) :
  encoded_columns (attribute :: spec) = attribute_columns attribute ++ encoded_columns spec.
Proof. reflexivity. Qed.

(** One turn of the loop on a well-formed attribute. *)
Lemma encode_items_cons (name : string) (value : json)
    (items : list (string * json)) (features : list string) :
  well_formed_attribute (name, value) →
  encode_items ((name, value) :: items) features =
  encode_items items (features ++ attribute_columns (name, value)).
Proof.
  intros (first & rest & more & Hvalue & Hhom). cbn [snd] in Hvalue. subst value.
  unfold attribute_columns.
  cbn [encode_items getitem0]. rewrite bind_Ok_l.
  cbn [getitem0]. rewrite bind_Ok_l.
  destruct (is_str first) eqn:Hfirst.
  - destruct (Hhom eq_refl) as [levels Hlevels]. rewrite Hlevels.
    cbn [iterate]. rewrite bind_Ok_l.
    by rewrite (comprehension_level_column _ _ _ Hlevels), bind_Ok_l.
  - destruct (string_list (first :: rest)) as [levels|] eqn:Hlevels; [|done].
    assert (is_str first = true) by (apply (string_list_head first rest); eauto).
    congruence.
Qed.

Lemma encode_items_spec (items : list (string * json)) (features : list string) :
  Forall well_formed_attribute items →
  encode_items items features = Ok (features ++ encoded_columns items).
Proof.
  intros Hwf. revert features.
  induction Hwf as [|[name value] items Hattr _ IH]; intros features.
  - cbn. by rewrite app_nil_r.
  - rewrite (encode_items_cons _ _ _ _ Hattr), IH, encoded_columns_cons.
    by rewrite <- app_assoc.
Qed.

(** C7.  When the specification file holds a mapping of well-formed
    attributes (the value of each is a list whose first entry is a list
    that is not empty and either holds texts only or starts with something
    that is no text), the encoder returns the columns the specification
    describes: the levels of a string list as [attribute_level], in level
    order, any other attribute under its own name, attribute after
    attribute in the order of the file. *)
Theorem one_hot_encoded_features_spec
    (dir : directory) (fname : string) (f : file) (spec : list (string * json)) :
  dir !! fname = Some f →
  json_view f = Some (JObj spec) →
  Forall well_formed_attribute spec →
  _get_one_hot_encoded_features dir fname = Ok (encoded_columns spec).
Proof.
  intros Hf Hjson Hwf. unfold _get_one_hot_encoded_features, json_load.
  rewrite Hf, Hjson. cbn. by rewrite encode_items_spec.
Qed.

(** C7 on a mapping with a categorical and a numeric attribute. *)
Lemma one_hot_encoded_features_spec_example :
  _get_one_hot_encoded_features example_dir PARAMS_INDIVIDUAL
  = Ok ["gender_f"; "gender_m"; "age"].
Proof.
  change (_get_one_hot_encoded_features example_dir PARAMS_INDIVIDUAL
          = Ok (encoded_columns example_spec)).
  apply (one_hot_encoded_features_spec example_dir PARAMS_INDIVIDUAL
           (json_file (JObj example_spec)) example_spec).
  - apply lookup_singleton_eq.
  - reflexivity.
  - repeat apply Forall_cons_2; [| |apply Forall_nil_2].
    + eexists _, _, _. split; [reflexivity|]. intros _. by eexists.
    + eexists _, _, _. split; [reflexivity|]. intros [=].
Defined.

(** C7 on mappings outside the data model.  The first entry of [education]
    starts with a text and holds a number: it is no string list, so the
    column list of the specification passes the attribute through, whereas
    the encoder raises a [TypeError] on [key + '_' + 2].  The value of
    [age] is a number: the specification has the column [age], the encoder
    raises a [TypeError] on [42[0]].  The first entry of [gender] is a text:
    the specification has the column [gender], the encoder returns a column
    per character. *)
Lemma one_hot_encoded_features_outside_model :
  encoded_columns mixed_levels_spec = ["education"] ∧
  _get_one_hot_encoded_features
    {[ PARAMS_INDIVIDUAL := json_file (JObj mixed_levels_spec) ]} PARAMS_INDIVIDUAL
    = raised_by_library TypeError ∧
  encoded_columns [("age", JInt 42)] = ["age"] ∧
  _get_one_hot_encoded_features
    {[ PARAMS_INDIVIDUAL := json_file (JObj [("age", JInt 42)]) ]} PARAMS_INDIVIDUAL
    = raised_by_library TypeError ∧
  encoded_columns [("gender", JArr [JStr "fm"])] = ["gender"] ∧
  _get_one_hot_encoded_features
    {[ PARAMS_INDIVIDUAL := json_file (JObj [("gender", JArr [JStr "fm"])]) ]}
    PARAMS_INDIVIDUAL
    = Ok ["gender_f"; "gender_m"].
Proof. repeat split; vm_compute; reflexivity. Qed.

(** ** The template generator *)

Lemma zip_with_set_label (label : string) (v : cell) (cols : list string) :
  zip_with (fun l c => if String.eqb l label then v else c) cols
           (map (fun _ => Int 0) cols)
  = map (fun l => if String.eqb l label then v else Int 0) cols.
Proof. induction cols as [|l cols IH]; [done|]. cbn. by rewrite IH. Qed.

(** The table the generator builds is the skeleton. *)
Lemma generated_table (features : list string) :
  df_setitem (df_const (Int 0) (length all_possible_actions)
                       (["actions"; "baseline"] ++ features))
             "actions" (map Str all_possible_actions)
  = Ok (skeleton features).
Proof.
  unfold df_setitem, df_const, skeleton, skeleton_row, skeleton_columns.
  cbn [columns rows app length all_possible_actions repeat map zip_with
       existsb String.eqb Ascii.eqb Bool.eqb orb negb Nat.eqb].
  by rewrite !zip_with_set_label.
Qed.

Lemma skeleton_fnames_eq :
  map (fun lockdown => "lockdown_" +:+ lockdown +:+ ".csv") lockdown_policies
  ++ map (fun s => "actions_effects_on_" +:+ s +:+ ".csv") individual_status
  = skeleton_fnames.
Proof. reflexivity. Qed.

Lemma lookup_fold_insert (names : list string) (f : file) (dir : directory) (name : string) :
  fold_left (fun d fp => <[fp := f]> d) names dir !! name =
  if bool_decide (name ∈ names) then Some f else dir !! name.
Proof.
  revert dir. induction names as [|n names IH]; intros dir; [done|].
  cbn [fold_left]. rewrite IH.
  destruct (decide (name ∈ names)) as [Hin|Hin].
  - rewrite !bool_decide_eq_true_2; [done| |done]. by apply elem_of_cons; right.
  - rewrite (bool_decide_eq_false_2 _ Hin).
    destruct (decide (name = n)) as [->|Hne].
    + rewrite lookup_insert_eq, bool_decide_eq_true_2; [done|]. by apply elem_of_cons; left.
    + rewrite lookup_insert_ne by done. rewrite bool_decide_eq_false_2; [done|].
      intros [?|?]%elem_of_cons; done.
Qed.

Lemma encoder_needs_file (dir : directory) (features : list string) :
  _get_one_hot_encoded_features dir PARAMS_INDIVIDUAL = Ok features →
  isfile dir PARAMS_INDIVIDUAL = true.
Proof.
  intros Hfeatures. unfold isfile. apply bool_decide_eq_true_2.
  unfold _get_one_hot_encoded_features, json_load in Hfeatures.
  destruct (dir !! PARAMS_INDIVIDUAL); [eauto | discriminate].
Qed.

(** A run of the generator on a specification the encoder accepts. *)
Lemma create_empty_hypotheses_run (read_back : DataFrame → result DataFrame)
    (dir_params : string) (dir : directory) (features : list string) :
  _get_one_hot_encoded_features dir PARAMS_INDIVIDUAL = Ok features →
  create_empty_hypotheses read_back dir_params dir =
  (fold_left (fun d fp => <[fp := to_csv read_back (skeleton features)]> d)
             skeleton_fnames dir,
   Ok tt).
Proof.
  intros Hfeatures. unfold create_empty_hypotheses.
  rewrite (encoder_needs_file _ _ Hfeatures), Hfeatures. cbn [negb].
  by rewrite bind_Ok_l, generated_table, skeleton_fnames_eq.
Qed.

(** C8.  (1) When the encoder accepts the specification file of the
    directory and returns [features], [create_empty_hypotheses] returns
    normally and writes five files, one per lockdown tier and one for the
    status [mh], each from the same table: its columns are [actions],
    [baseline] and then [features], it has one row per action in vocabulary
    order, with the action under [actions] and 0 everywhere else.  Each of
    the five files is no JSON document, and [read_csv] makes of it what
    pandas reads back from the text of that table; when pandas reads the
    table back as it was written, [read_csv] returns the table itself.  No
    other file changes.  (2) When the specification file is missing it
    raises [FileNotFoundError] and the directory is as before. *)
Theorem create_empty_hypotheses_spec (read_back : DataFrame → result DataFrame)
    (dir_params : string) (dir : directory) :
  (∀ features,
     _get_one_hot_encoded_features dir PARAMS_INDIVIDUAL = Ok features →
     ∃ dir' table,
       create_empty_hypotheses read_back dir_params dir = (dir', Ok tt) ∧
       columns table = "actions" :: "baseline" :: features ∧
       rows table =
         map (fun action =>
                map (fun label => if String.eqb label "actions" then Str action
                                  else Int 0)
                    ("actions" :: "baseline" :: features))
             all_possible_actions ∧
       (∀ name, name ∈ skeleton_fnames →
          ∃ f, dir' !! name = Some f ∧
               json_view f = None ∧
               csv_view f = read_back table ∧
               read_csv dir' name = read_back table) ∧
       (read_back table = Ok table →
        ∀ name, name ∈ skeleton_fnames → read_csv dir' name = Ok table) ∧
       (∀ name, name ∉ skeleton_fnames → dir' !! name = dir !! name) ∧
       skeleton_fnames =
         ["lockdown_absent.csv"; "lockdown_easy.csv"; "lockdown_medium.csv";
          "lockdown_hard.csv"; "actions_effects_on_mh.csv"])
  ∧
  (dir !! PARAMS_INDIVIDUAL = None →
   create_empty_hypotheses read_back dir_params dir =
   (dir, raise FileNotFoundError (missing_spec_msg dir_params))).
Proof.
  split.
  - intros features Hfeatures.
    rewrite (create_empty_hypotheses_run _ _ _ _ Hfeatures).
    eexists _, (skeleton features). split; [reflexivity|].
    assert (Hread : ∀ name, name ∈ skeleton_fnames →
              read_csv (fold_left (fun d fp => <[fp := to_csv read_back (skeleton features)]> d)
                                  skeleton_fnames dir) name
              = read_back (skeleton features)).
    { intros name Hin. unfold read_csv.
      by rewrite lookup_fold_insert, bool_decide_eq_true_2. }
    repeat split.
    + intros name Hin. exists (to_csv read_back (skeleton features)).
      repeat split; [|by apply Hread].
      by rewrite lookup_fold_insert, bool_decide_eq_true_2.
    + intros Hback name Hin. by rewrite Hread.
    + intros name Hin. by rewrite lookup_fold_insert, bool_decide_eq_false_2.
  - intros Hnone. unfold create_empty_hypotheses, isfile.
    rewrite bool_decide_eq_false_2; [done|]. rewrite Hnone. by intros [? ?].
Qed.

(** C8 on the small specification, with a table that is read back as it
    was written: the generator succeeds and [lockdown_easy.csv] is read as
    the table with the columns [actions], [baseline], [gender_f],
    [gender_m] and [age] and a row of zeros per action. *)
Lemma create_empty_hypotheses_spec_example :
  ∃ dir',
    create_empty_hypotheses read_as_written "parameters" example_dir = (dir', Ok tt) ∧
    read_csv dir' "lockdown_easy.csv" =
      Ok (mkDataFrame ["actions"; "baseline"; "gender_f"; "gender_m"; "age"]
            (map (fun action => [Str action; Int 0; Int 0; Int 0; Int 0])
                 all_possible_actions)).
Proof.
  destruct (create_empty_hypotheses_spec read_as_written "parameters" example_dir)
    as [Hvalid _].
  destruct (Hvalid ["gender_f"; "gender_m"; "age"] eq_refl)
    as (dir' & table & Hrun & Hcols & Hrows & _ & Hread & _).
  exists dir'. split; [exact Hrun|].
  rewrite (Hread eq_refl "lockdown_easy.csv"%string).
  - destruct table as [cols rws]. cbn [columns rows] in Hcols, Hrows.
    by rewrite Hcols, Hrows.
  - apply (bool_decide_unpack _). vm_compute. exact I.
Defined.

(** ** The validator: the files it expects *)

Lemma forallb_id_map_false {A} (f : A → bool) (l : list A) (x : A) :
  x ∈ l → f x = false → forallb id (map f l) = false.
Proof.
  intros Hin Hx. induction l as [|y l IH]; [by apply elem_of_nil in Hin|].
  cbn. apply elem_of_cons in Hin as [<-|Hin].
  - by rewrite Hx.
  - rewrite (IH Hin). apply andb_false_r.
Qed.

Lemma not_found_listed (dir : directory) (fnames : list string) (name : string) :
  name ∈ fnames → isfile dir name = false →
  name ∈ omap (fun p : string * bool => if p.2 then None else Some p.1)
              (zip fnames (map (isfile dir) fnames)).
Proof.
  intros Hin Hname. induction fnames as [|fn fnames IH]; [by apply elem_of_nil in Hin|].
  cbn [map zip zip_with omap list_omap]. cbn [fst snd].
  apply elem_of_cons in Hin as [<-|Hin].
  - rewrite Hname. apply elem_of_cons. by left.
  - destruct (isfile dir fn); [by apply IH|]. apply elem_of_cons. right. by apply IH.
Qed.

(** The first check of the validator: an expected file that is not there
    ends the validation with the list of all such files. *)
Lemma validate_param_file_not_found (dir : directory) (name : string) :
  name ∈ hypothesis_fnames → isfile dir name = false →
  validate_param_file dir =
    raise ValueError (files_not_found_msg hypothesis_fnames
                        (map (isfile dir) hypothesis_fnames)) ∧
  is_infix name (files_not_found_msg hypothesis_fnames
                   (map (isfile dir) hypothesis_fnames)) = true.
Proof.
  intros Hin Hname. split.
  - unfold validate_param_file.
    by rewrite (forallb_id_map_false (isfile dir) _ _ Hin Hname).
  - unfold files_not_found_msg. apply is_infix_within, is_infix_join.
    by apply not_found_listed.
Qed.

Lemma isfile_fold_insert (names : list string) (f : file) (dir : directory) (name : string) :
  isfile (fold_left (fun d fp => <[fp := f]> d) names dir) name =
  bool_decide (name ∈ names) || isfile dir name.
Proof.
  unfold isfile. rewrite lookup_fold_insert.
  destruct (bool_decide (name ∈ names)); [|done].
  apply bool_decide_eq_true_2. eauto.
Qed.

Lemma hypothesis_fnames_cases :
  Forall (fun name => (name ∈ action_effect_fnames ∧ name ∉ skeleton_fnames) ∨
                      (name ∈ skeleton_fnames ∧ name ∉ action_effect_fnames))
         hypothesis_fnames.
Proof. apply (bool_decide_unpack _). vm_compute. exact I. Qed.

Lemma action_effect_fnames_expected :
  Forall (fun name => name ∈ hypothesis_fnames ∧ name ∉ skeleton_fnames)
         action_effect_fnames.
Proof. apply (bool_decide_unpack _). vm_compute. exact I. Qed.

(** C10, as amended.  For a directory whose specification file the encoder
    accepts and which lacks one of the four files
    [actions_effects_on_mh_<policy>.csv], generating and then validating
    ends in the hypothesis-file-not-found error: the generator writes the
    four lockdown files and [actions_effects_on_mh.csv], so the files
    reported are the action-effect files the directory lacked before. *)
Theorem generate_then_validate_not_found (read_back : DataFrame → result DataFrame)
    (dir_params : string) (dir : directory) (features : list string) (missing : string) :
  _get_one_hot_encoded_features dir PARAMS_INDIVIDUAL = Ok features →
  missing ∈ action_effect_fnames →
  dir !! missing = None →
  ∃ dir',
    generate_then_validate read_back dir_params dir =
      (dir', raise ValueError (files_not_found_msg hypothesis_fnames
                                 (map (isfile dir') hypothesis_fnames))) ∧
    is_infix missing (files_not_found_msg hypothesis_fnames
                        (map (isfile dir') hypothesis_fnames)) = true ∧
    (∀ name, name ∈ hypothesis_fnames →
       (isfile dir' name = false ↔ name ∈ action_effect_fnames ∧ dir !! name = None)).
Proof.
  intros Hfeatures Hmissing Hnone.
  unfold generate_then_validate. rewrite (create_empty_hypotheses_run _ _ _ _ Hfeatures).
  set (dir' := fold_left _ skeleton_fnames dir).
  pose proof action_effect_fnames_expected as Hexp.
  rewrite Forall_forall in Hexp. destruct (Hexp _ Hmissing) as [Hin Hfresh].
  assert (Hgone : isfile dir' missing = false).
  { unfold dir'. rewrite isfile_fold_insert, (bool_decide_eq_false_2 _ Hfresh).
    unfold isfile. rewrite Hnone. apply bool_decide_eq_false_2. by intros [? [=]]. }
  destruct (validate_param_file_not_found dir' missing Hin Hgone) as [Hraise Hshown].
  exists dir'. split; [by rewrite Hraise|]. split; [done|].
  intros name Hname. unfold dir'. rewrite isfile_fold_insert.
  pose proof hypothesis_fnames_cases as Hcases. rewrite Forall_forall in Hcases.
  destruct (Hcases _ Hname) as [[Hact Hnot]|[Hskel Hnot]].
  - rewrite (bool_decide_eq_false_2 _ Hnot). cbn [orb]. unfold isfile.
    rewrite bool_decide_eq_false. split.
    + intros Hd. split; [done|]. destruct (dir !! name); [|done].
      exfalso. apply Hd. eauto.
    + intros [_ ->]. by intros [? [=]].
  - rewrite (bool_decide_eq_true_2 _ Hskel). cbn [orb]. split; [done|].
    by intros [? _].
Qed.

(** C10, as amended, on the directory that holds the specification file
    only. *)
Lemma generate_then_validate_not_found_example :
  ∃ dir' msg,
    generate_then_validate read_as_written "parameters" example_dir
      = (dir', raise ValueError msg) ∧
    is_infix "actions_effects_on_mh_absent.csv" msg = true.
Proof.
  destruct (generate_then_validate_not_found read_as_written "parameters" example_dir
              ["gender_f"; "gender_m"; "age"] "actions_effects_on_mh_absent.csv")
    as (dir' & Hrun & Hshown & _).
  - reflexivity.
  - apply (bool_decide_unpack _). vm_compute. exact I.
  - reflexivity.
  - exists dir'. eexists. split; [exact Hrun | exact Hshown].
Defined.

(** C10 as stated fails: in a directory that already holds the four
    action-effect matrices next to a valid specification file, generating
    and then validating succeeds (the skeletons of this specification
    being read back as they were written). *)
Lemma generate_then_validate_populated :
  _get_one_hot_encoded_features populated_dir PARAMS_INDIVIDUAL
    = Ok ["gender_f"; "gender_m"; "age"] ∧
  (create_empty_hypotheses read_as_written "parameters" populated_dir).2 = Ok tt ∧
  (generate_then_validate read_as_written "parameters" populated_dir).2 = Ok tt.
Proof. repeat split; vm_compute; reflexivity. Qed.

(** C3.  What the validator does when the specification file is missing:
    the check that the hypothesis files exist comes first, so a missing
    hypothesis file is what gets reported; only when all eight are there
    does the missing specification file surface, as the [FileNotFoundError]
    of [open]. *)
Theorem validate_param_file_spec_file_missing (dir : directory) :
  dir !! PARAMS_INDIVIDUAL = None →
  (∀ name, name ∈ hypothesis_fnames → isfile dir name = false →
     validate_param_file dir =
     raise ValueError (files_not_found_msg hypothesis_fnames
                         (map (isfile dir) hypothesis_fnames))) ∧
  (Forall (fun name => isfile dir name = true) hypothesis_fnames →
     validate_param_file dir = raised_by_library FileNotFoundError).
Proof.
  intros Hnone. split.
  - intros name Hin Hname. by apply validate_param_file_not_found with name.
  - intros Hall. unfold validate_param_file.
    assert (Hex : forallb id (map (isfile dir) hypothesis_fnames) = true).
    { apply forallb_forall. intros b [name [<- Hin]]%in_map_iff.
      rewrite Forall_forall in Hall. apply Hall. by apply list_elem_of_In. }
    rewrite Hex. cbn [negb].
    unfold _get_one_hot_encoded_features, json_load. by rewrite Hnone.
Qed.

(** C3 on the empty directory: the error is the one about hypothesis
    files. *)
Lemma validate_param_file_spec_file_missing_empty :
  validate_param_file ∅ =
  raise ValueError
    ("Hypothesis file(s) not found: actions_effects_on_mh_absent.csv, " +:+
     "actions_effects_on_mh_easy.csv, actions_effects_on_mh_medium.csv, " +:+
     "actions_effects_on_mh_hard.csv, lockdown_absent.csv, lockdown_easy.csv, " +:+
     "lockdown_medium.csv, lockdown_hard.csv.").
Proof.
  destruct (validate_param_file_spec_file_missing ∅ (lookup_empty _)) as [Hfirst _].
  apply (Hfirst "lockdown_hard.csv").
  - apply (bool_decide_unpack _). vm_compute. exact I.
  - reflexivity.
Defined.

(** ** The validator: features and actions *)

Lemma read_csv_table (dir : directory) (name : string) (f : file) (hd : DataFrame) :
  dir !! name = Some f → csv_view f = Ok hd → read_csv dir name = Ok hd.
Proof. intros Hf Hhd. unfold read_csv, parse_csv. by rewrite Hf, Hhd. Qed.

Lemma read_all (dir : directory) (names : list string) (tables : list DataFrame) :
  Forall2 (fun name hd => ∃ f, dir !! name = Some f ∧ csv_view f = Ok hd) names tables →
  comprehension (read_csv dir) names = Ok tables ∧
  forallb id (map (isfile dir) names) = true.
Proof.
  induction 1 as [|name hd names tables (f & Hf & Hhd) _ [IHread IHexist]]; [done|].
  cbn [comprehension map forallb].
  rewrite (read_csv_table _ _ _ _ Hf Hhd), bind_Ok_l, IHread, IHexist.
  split; [done|]. unfold isfile. rewrite Hf.
  rewrite bool_decide_eq_true_2; [done | eauto].
Qed.

(** Past the first check, the validator is its two schema checks. *)
Lemma validate_param_file_schema
    (dir : directory) (features : list string) (tables : list DataFrame) :
  _get_one_hot_encoded_features dir PARAMS_INDIVIDUAL = Ok features →
  holds_tables dir tables →
  validate_param_file dir =
  let missing_features := map (missing_features_of (required_features features)) tables in
  if any_nonempty missing_features then
    raise ValueError ("Missing features:" +:+ nl +:+ report hypothesis_fnames missing_features)
  else
    missing_actions ← comprehension (missing_actions_of all_possible_actions) tables;
    if any_nonempty missing_actions then
      raise ValueError ("Missing actions:" +:+ nl +:+ report hypothesis_fnames missing_actions)
    else Ok tt.
Proof.
  intros Hfeatures [Hread Hexist]%read_all. unfold validate_param_file.
  rewrite Hexist, Hfeatures. cbn [negb]. rewrite bind_Ok_l, Hread, bind_Ok_l. done.
Qed.

Lemma any_nonempty_true (sets : list (gset string)) (X : gset string) :
  X ∈ sets → X ≠ ∅ → any_nonempty sets = true.
Proof.
  intros Hin HX. apply existsb_exists. exists X. split; [by apply list_elem_of_In|].
  by apply bool_decide_eq_true_2.
Qed.

Lemma any_nonempty_false (sets : list (gset string)) :
  any_nonempty sets = false ↔ Forall (fun X => X = ∅) sets.
Proof.
  unfold any_nonempty. induction sets as [|X sets IH]; [done|].
  cbn [existsb]. rewrite orb_false_iff, IH, Forall_cons, bool_decide_eq_false.
  split; intros [HX ?]; split; try done.
  - by destruct (decide (X = ∅)).
  - by intros ?.
Qed.

Lemma zip_elem_of_l {A B} (xs : list A) (ys : list B) (x : A) (y : B) :
  (x, y) ∈ zip xs ys → y ∈ ys.
Proof.
  revert ys. induction xs as [|x' xs IH]; intros [|y' ys]; cbn;
    try (by intros ?%elem_of_nil).
  intros [[= -> ->]|Hin]%elem_of_cons; apply elem_of_cons; [by left|].
  right. by apply IH.
Qed.

Lemma zip_elem_of_map {A B C} (g : B → C) (xs : list A) (ys : list B) (x : A) (y : B) :
  (x, y) ∈ zip xs ys → (x, g y) ∈ zip xs (map g ys).
Proof.
  revert ys. induction xs as [|x' xs IH]; intros [|y' ys]; cbn;
    try (by intros ?%elem_of_nil).
  intros [[= -> ->]|Hin]%elem_of_cons; apply elem_of_cons; [by left|].
  right. by apply IH.
Qed.

Lemma zip_elem_of_comprehension {A B C} (g : B → result C)
    (xs : list A) (ys : list B) (zs : list C) (x : A) (y : B) :
  comprehension g ys = Ok zs → (x, y) ∈ zip xs ys →
  ∃ z, g y = Ok z ∧ (x, z) ∈ zip xs zs.
Proof.
  revert xs zs. induction ys as [|y' ys IH]; intros [|x' xs] zs; cbn;
    try (by intros _ ?%elem_of_nil).
  destruct (g y') as [z'|] eqn:Hy'; [|done]. rewrite bind_Ok_l.
  destruct (comprehension g ys) as [zs'|] eqn:Hys; [|done]. rewrite bind_Ok_l.
  intros [= <-] [[= -> ->]|Hin]%elem_of_cons.
  - exists z'. split; [done|]. apply elem_of_cons. by left.
  - destruct (IH xs zs' eq_refl Hin) as (z & Hz & Hzin).
    exists z. split; [done|]. apply elem_of_cons. by right.
Qed.

(** A file whose set is not empty has its line in the report, and the line
    shows the file and every member of the set. *)
Lemma report_shows (fnames : list string) (missing : list (gset string))
    (fn : string) (X : gset string) :
  (fn, X) ∈ zip fnames missing → X ≠ ∅ →
  is_infix (report_line fn X) (report fnames missing) = true.
Proof.
  intros Hin HX. apply is_infix_join. unfold report_lines.
  apply list_elem_of_omap. exists (fn, X). split; [done|].
  by rewrite bool_decide_eq_true_2.
Qed.

Lemma report_line_shows (fn : string) (X : gset string) (x : string) :
  x ∈ X →
  is_infix (fn +:+ " - ") (report_line fn X) = true ∧
  is_infix x (report_line fn X) = true.
Proof.
  intros Hx. unfold report_line. split.
  - rewrite <- (append_assoc fn " - "). apply (is_infix_app _ EmptyString).
  - rewrite <- (append_assoc fn " - "), <- (append_nil_r (join _ _)).
    apply is_infix_within, is_infix_join. by apply elem_of_elements.
Qed.

Lemma text_difference_empty (required : list string) (S : gset cell) :
  text_difference required S = ∅ ↔ ∀ a, a ∈ required → Str a ∈ S.
Proof.
  unfold text_difference. split.
  - intros Hempty a Ha. destruct (decide (Str a ∈ S)) as [|Hno]; [done|].
    assert (a ∈ (∅ : gset string)) as []%not_elem_of_empty.
    rewrite <- Hempty. apply elem_of_list_to_set, list_elem_of_filter. done.
  - intros Hall. apply set_eq. intros a. split; [|by intros ?%not_elem_of_empty].
    intros [Hno Ha]%elem_of_list_to_set%list_elem_of_filter.
    destruct Hno. by apply Hall.
Qed.

(** ** The validator: the lookup of the [actions] column *)

Lemma positions_from_absent (i : nat) (label : string) (labels : list string) :
  label ∉ labels → positions_from i label labels = [].
Proof.
  revert i. induction labels as [|l labels IH]; intros i Hno; [done|].
  cbn [positions_from]. apply not_elem_of_cons in Hno as [Hne Hno].
  destruct (String.eqb_spec l label) as [->|_]; [done|]. by apply IH.
Qed.

Lemma positions_from_present (i : nat) (label : string) (labels : list string) :
  label ∈ labels → positions_from i label labels ≠ [].
Proof.
  revert i. induction labels as [|l labels IH]; intros i Hin; [by apply elem_of_nil in Hin|].
  cbn [positions_from]. destruct (String.eqb_spec l label) as [->|Hne]; [done|].
  apply elem_of_cons in Hin as [->|Hin]; [done|]. by apply IH.
Qed.

Lemma df_getitem_absent (df : DataFrame) (label : string) :
  label ∉ columns df → df_getitem df label = raised_by_library KeyError.
Proof. intros Hno. unfold df_getitem, positions. by rewrite positions_from_absent. Qed.

Lemma df_getitem_present (df : DataFrame) (label : string) :
  label ∈ columns df → ∃ sel, df_getitem df label = Ok sel.
Proof.
  intros Hin. unfold df_getitem, positions.
  pose proof (positions_from_present 0 label _ Hin) as Hne.
  destruct (positions_from 0 label (columns df)) as [|i [|j ps]]; [done|eauto..].
Qed.

Lemma df_getitem_Raise (df : DataFrame) (label : string) (err : exn) :
  df_getitem df label = Raise err → err = Exn KeyError None.
Proof.
  unfold df_getitem. destruct (positions label (columns df)) as [|i [|j ps]]; try done.
  by intros [= <-].
Qed.

Lemma missing_actions_of_selection
    (required : list string) (hd : DataFrame) (sel : selection) :
  df_getitem hd "actions" = Ok sel →
  missing_actions_of required hd = Ok (text_difference required (set_of_selection sel)).
Proof. intros Hsel. unfold missing_actions_of. by rewrite Hsel. Qed.

Lemma missing_actions_all (tables : list DataFrame) (sels : list selection) :
  Forall2 (fun hd sel => df_getitem hd "actions" = Ok sel) tables sels →
  comprehension (missing_actions_of all_possible_actions) tables =
  Ok (map (fun sel => text_difference all_possible_actions (set_of_selection sel)) sels).
Proof.
  induction 1 as [|hd sel tables sels Hsel _ IH]; [done|].
  cbn [comprehension map].
  by rewrite (missing_actions_of_selection _ _ _ Hsel), bind_Ok_l, IH.
Qed.

(** Tables that all have a column labelled [actions] have their
    selections, and these are determined by the tables. *)
Lemma selections_exist (tables : list DataFrame) :
  Forall (fun hd => "actions" ∈ columns hd) tables →
  ∃ sels, Forall2 (fun hd sel => df_getitem hd "actions" = Ok sel) tables sels.
Proof.
  induction 1 as [|hd tables Hhd _ (sels & IH)]; [exists []; constructor|].
  destruct (df_getitem_present _ _ Hhd) as (sel & Hsel).
  exists (sel :: sels). by constructor.
Qed.

Lemma selections_unique (tables : list DataFrame) (sels sels' : list selection) :
  Forall2 (fun hd sel => df_getitem hd "actions" = Ok sel) tables sels →
  Forall2 (fun hd sel => df_getitem hd "actions" = Ok sel) tables sels' →
  sels = sels'.
Proof.
  intros H. revert sels'. induction H as [|hd sel tables sels Hsel _ IH]; intros sels' H'.
  - by apply Forall2_nil_inv_l in H'.
  - apply Forall2_cons_inv_l in H' as (sel' & rest & Hsel' & Hrest & ->).
    f_equal; [congruence | by apply IH].
Qed.

Lemma comprehension_missing_actions_absent (tables : list DataFrame) (hd : DataFrame) :
  hd ∈ tables → "actions" ∉ columns hd →
  comprehension (missing_actions_of all_possible_actions) tables
  = raised_by_library KeyError.
Proof.
  intros Hin Hno. induction tables as [|hd' tables IH]; [by apply elem_of_nil in Hin|].
  cbn [comprehension].
  destruct (missing_actions_of all_possible_actions hd') as [X|err] eqn:HX.
  - rewrite bind_Ok_l. apply elem_of_cons in Hin as [->|Hin].
    + unfold missing_actions_of in HX. by rewrite (df_getitem_absent _ _ Hno) in HX.
    + by rewrite (IH Hin).
  - unfold missing_actions_of in HX.
    destruct (df_getitem hd' "actions") as [sel|err'] eqn:Hsel; [done|].
    injection HX as <-. by rewrite (df_getitem_Raise _ _ _ Hsel).
Qed.

(** Past the feature check, the validator is its check of the actions. *)
Lemma validate_param_file_complete
    (dir : directory) (features : list string) (tables : list DataFrame) :
  _get_one_hot_encoded_features dir PARAMS_INDIVIDUAL = Ok features →
  holds_tables dir tables →
  Forall (fun hd => missing_features_of (required_features features) hd = ∅) tables →
  validate_param_file dir =
  (missing_actions ← comprehension (missing_actions_of all_possible_actions) tables;
   if any_nonempty missing_actions then
     raise ValueError ("Missing actions:" +:+ nl +:+ report hypothesis_fnames missing_actions)
   else Ok tt).
Proof.
  intros Hfeatures Htables Hcomplete.
  rewrite (validate_param_file_schema _ _ _ Hfeatures Htables). cbv zeta.
  assert (Hnone : any_nonempty
            (map (missing_features_of (required_features features)) tables) = false).
  { apply any_nonempty_false. by apply Forall_map. }
  by rewrite Hnone.
Qed.

(** The lines of a report are those of the files whose set is not empty. *)
Lemma report_lines_elem {A} (lacking : A → gset string)
    (fnames : list string) (xs : list A) (line : string) :
  line ∈ report_lines fnames (map lacking xs) ↔
  ∃ fn x, (fn, x) ∈ zip fnames xs ∧ lacking x ≠ ∅ ∧ line = report_line fn (lacking x).
Proof.
  unfold report_lines. revert xs. induction fnames as [|fn0 fnames IH]; intros xs.
  { cbn. split; [by intros ?%elem_of_nil|]. by intros (? & ? & ?%elem_of_nil & _). }
  destruct xs as [|x0 xs].
  { cbn. split; [by intros ?%elem_of_nil|]. by intros (? & ? & ?%elem_of_nil & _). }
  cbn [map zip zip_with omap list_omap].
  assert (Hrest : line ∈ omap (fun '(fn, X) =>
                      if bool_decide (X ≠ ∅) then Some (report_line fn X) else None)
                    (zip fnames (map lacking xs)) ↔
          ∃ fn x, (fn, x) ∈ zip fnames xs ∧ lacking x ≠ ∅ ∧ line = report_line fn (lacking x))
    by apply IH.
  case_bool_decide as Hx0.
  - rewrite elem_of_cons, Hrest. split.
    + intros [->|(fn & x & Hin & ?)].
      * exists fn0, x0. split; [apply elem_of_cons; by left | done].
      * exists fn, x. split; [apply elem_of_cons; by right | done].
    + intros (fn & x & [[= -> ->]|Hin]%elem_of_cons & Hne & ->); [by left|].
      right. by exists fn, x.
  - rewrite Hrest. split.
    + intros (fn & x & Hin & ?). exists fn, x. split; [apply elem_of_cons; by right | done].
    + intros (fn & x & [[= -> ->]|Hin]%elem_of_cons & Hne & ->); [done|].
      by exists fn, x.
Qed.

(** C2, as amended.  The validator runs three checks in turn and raises at
    the first that fails, one [ValueError] that covers every file failing
    that check and nothing of the later checks: (1) the message of the
    first check is the list of all expected files that are not there; (2)
    when the files are there and the specification is read, the message of
    the second check has a line for every file with missing features,
    showing the file and each of them; (3) when no feature is missing and
    every file has a column labelled [actions] as written, the sets of
    missing actions are computed, and the message of the third check has a
    line for every file with missing actions, showing the file and each of
    them; when some file has no column with that label, the lookup ends the
    validation with a [KeyError]. *)
Theorem validate_param_file_reports (dir : directory) :
  (∀ name, name ∈ hypothesis_fnames → isfile dir name = false →
     validate_param_file dir =
       raise ValueError (files_not_found_msg hypothesis_fnames
                           (map (isfile dir) hypothesis_fnames)) ∧
     ∀ other, other ∈ hypothesis_fnames → isfile dir other = false →
       is_infix other (files_not_found_msg hypothesis_fnames
                         (map (isfile dir) hypothesis_fnames)) = true)
  ∧
  (∀ features tables,
     _get_one_hot_encoded_features dir PARAMS_INDIVIDUAL = Ok features →
     holds_tables dir tables →
     ∀ fn hd feature,
       (fn, hd) ∈ zip hypothesis_fnames tables →
       feature ∈ missing_features_of (required_features features) hd →
       ∃ report_text,
         report_text = report hypothesis_fnames
                         (map (missing_features_of (required_features features)) tables) ∧
         validate_param_file dir =
           raise ValueError ("Missing features:" +:+ nl +:+ report_text) ∧
         is_infix (report_line fn (missing_features_of (required_features features) hd))
                  report_text = true ∧
         is_infix (fn +:+ " - ")
                  (report_line fn (missing_features_of (required_features features) hd)) = true ∧
         is_infix feature
                  (report_line fn (missing_features_of (required_features features) hd)) = true)
  ∧
  (∀ features tables,
     _get_one_hot_encoded_features dir PARAMS_INDIVIDUAL = Ok features →
     holds_tables dir tables →
     Forall (fun hd => missing_features_of (required_features features) hd = ∅) tables →
     (Forall (fun hd => "actions" ∈ columns hd) tables →
      ∃ missing_actions,
        comprehension (missing_actions_of all_possible_actions) tables = Ok missing_actions ∧
        ∀ fn X action,
          (fn, X) ∈ zip hypothesis_fnames missing_actions →
          action ∈ X →
          validate_param_file dir =
            raise ValueError ("Missing actions:" +:+ nl +:+
                              report hypothesis_fnames missing_actions) ∧
          is_infix (report_line fn X) (report hypothesis_fnames missing_actions) = true ∧
          is_infix (fn +:+ " - ") (report_line fn X) = true ∧
          is_infix action (report_line fn X) = true) ∧
     (∀ hd, hd ∈ tables → "actions" ∉ columns hd →
        validate_param_file dir = raised_by_library KeyError)).
Proof.
  split; [|split].
  - intros name Hin Hname.
    split; [by apply (validate_param_file_not_found dir name)|].
    intros other Hother Hgone. by apply (validate_param_file_not_found dir other).
  - intros features tables Hfeatures Htables fn hd feature Hzip Hfeature.
    eexists. split; [reflexivity|].
    assert (Hne : missing_features_of (required_features features) hd ≠ ∅).
    { intros Hempty. rewrite Hempty in Hfeature. by apply not_elem_of_empty in Hfeature. }
    pose proof (zip_elem_of_map (missing_features_of (required_features features))
                  _ _ _ _ Hzip) as Hzip'.
    rewrite (validate_param_file_schema _ _ _ Hfeatures Htables). cbv zeta.
    rewrite (any_nonempty_true _ _ (zip_elem_of_l _ _ _ _ Hzip') Hne).
    split; [done|]. split; [by apply report_shows|].
    by apply report_line_shows.
  - intros features tables Hfeatures Htables Hcomplete.
    rewrite (validate_param_file_complete _ _ _ Hfeatures Htables Hcomplete). split.
    + intros (sels & Hsels)%selections_exist.
      rewrite (missing_actions_all _ _ Hsels). eexists. split; [reflexivity|].
      intros fn X action Hzip Haction.
      assert (Hne : X ≠ ∅).
      { intros ->. by apply not_elem_of_empty in Haction. }
      rewrite bind_Ok_l, (any_nonempty_true _ _ (zip_elem_of_l _ _ _ _ Hzip) Hne).
      split; [done|]. split; [by apply report_shows|].
      by apply report_line_shows.
    + intros hd Hin Hno. by rewrite (comprehension_missing_actions_absent _ _ Hin Hno).
Qed.

(** The tables of [missing_column_and_action_dir] and of
    [missing_action_dir], in the order of [hypothesis_fnames]. *)
Lemma missing_column_and_action_tables :
  holds_tables missing_column_and_action_dir
    [skeleton example_features; skeleton example_features;
     skeleton example_features; skeleton example_features;
     skeleton example_features; matrix_without_age;
     matrix_without_travel; skeleton example_features].
Proof. repeat (constructor; [eexists; split; [vm_compute; reflexivity | reflexivity]|]). constructor. Qed.

Lemma missing_action_tables :
  holds_tables missing_action_dir
    [skeleton example_features; skeleton example_features;
     skeleton example_features; skeleton example_features;
     skeleton example_features; skeleton example_features;
     matrix_without_travel; skeleton example_features].
Proof. repeat (constructor; [eexists; split; [vm_compute; reflexivity | reflexivity]|]). constructor. Qed.

(** C2, as amended, on a directory with a column missing in one file and
    an action missing in another: the error is the one about features and
    shows the file and the column. *)
Lemma validate_param_file_reports_example :
  ∃ report_text,
    validate_param_file missing_column_and_action_dir =
      raise ValueError ("Missing features:" +:+ nl +:+ report_text) ∧
    is_infix "lockdown_easy.csv - age" report_text = true.
Proof.
  destruct (validate_param_file_reports missing_column_and_action_dir) as (_ & Hfeatures & _).
  destruct (Hfeatures example_features _ eq_refl missing_column_and_action_tables
              "lockdown_easy.csv" matrix_without_age "age")
    as (report_text & _ & Hraise & Hline & _).
  - apply (bool_decide_unpack _). vm_compute. exact I.
  - apply (bool_decide_unpack _). vm_compute. exact I.
  - exists report_text. split; [exact Hraise | exact Hline].
Defined.

(** C2 as stated fails: with a file missing and a column missing in another
    file, the error shows the missing file and not the column; with a
    column missing in one file and an action missing in another, it shows
    the column and not the action. *)
Lemma validate_param_file_first_check_only :
  missing_file_and_column_dir !! "lockdown_hard.csv" = None ∧
  read_csv missing_file_and_column_dir "lockdown_easy.csv" = Ok matrix_without_age ∧
  missing_features_of (required_features example_features) matrix_without_age = {["age"]} ∧
  validate_param_file missing_file_and_column_dir =
    raise ValueError "Hypothesis file(s) not found: lockdown_hard.csv." ∧
  is_infix "age" "Hypothesis file(s) not found: lockdown_hard.csv." = false ∧
  read_csv missing_column_and_action_dir "lockdown_medium.csv" = Ok matrix_without_travel ∧
  missing_actions_of all_possible_actions matrix_without_travel = Ok {["travel"]} ∧
  validate_param_file missing_column_and_action_dir =
    raise ValueError ("Missing features:" +:+ nl +:+ "lockdown_easy.csv - age") ∧
  is_infix "travel" ("Missing features:" +:+ nl +:+ "lockdown_easy.csv - age") = false.
Proof. repeat split; vm_compute; reflexivity. Qed.

(** ** The validator: the actions of a file *)

(** C4, as amended.  Once the files are there and no feature is missing:
    (1) when some file has no column labelled [actions] as written, the
    validator ends in the [KeyError] of the lookup; (2) when every file has
    one, it returns normally exactly when the [actions] column of every
    file holds every action of the vocabulary, whatever else it holds, and
    otherwise raises the "Missing actions" error, whose message has a line
    for a file exactly when the column of that file lacks an action of the
    vocabulary; the line shows the file and each action it lacks. *)
Theorem validate_param_file_actions
    (dir : directory) (features : list string) (tables : list DataFrame) :
  _get_one_hot_encoded_features dir PARAMS_INDIVIDUAL = Ok features →
  holds_tables dir tables →
  Forall (fun hd => missing_features_of (required_features features) hd = ∅) tables →
  (∀ hd, hd ∈ tables → "actions" ∉ columns hd →
     validate_param_file dir = raised_by_library KeyError) ∧
  (Forall (fun hd => "actions" ∈ columns hd) tables →
   ∃ sels lines,
     Forall2 (fun hd sel => df_getitem hd "actions" = Ok sel) tables sels ∧
     (validate_param_file dir = Ok tt ↔ Forall covers_vocabulary sels) ∧
     (¬ Forall covers_vocabulary sels →
      validate_param_file dir =
        raise ValueError ("Missing actions:" +:+ nl +:+ join nl lines)) ∧
     (∀ line, line ∈ lines ↔
        ∃ fn sel, (fn, sel) ∈ zip hypothesis_fnames sels ∧
                  ¬ covers_vocabulary sel ∧
                  line = report_line fn (text_difference all_possible_actions
                                           (set_of_selection sel))) ∧
     (∀ fn sel action,
        (fn, sel) ∈ zip hypothesis_fnames sels →
        action ∈ all_possible_actions →
        Str action ∉ set_of_selection sel →
        is_infix (report_line fn (text_difference all_possible_actions
                                    (set_of_selection sel)))
                 (join nl lines) = true ∧
        is_infix (fn +:+ " - ")
                 (report_line fn (text_difference all_possible_actions
                                    (set_of_selection sel))) = true ∧
        is_infix action
                 (report_line fn (text_difference all_possible_actions
                                    (set_of_selection sel))) = true)).
Proof.
  intros Hfeatures Htables Hcomplete.
  rewrite (validate_param_file_complete _ _ _ Hfeatures Htables Hcomplete). split.
  { intros hd Hin Hno. by rewrite (comprehension_missing_actions_absent _ _ Hin Hno). }
  intros (sels & Hsels)%selections_exist.
  rewrite (missing_actions_all _ _ Hsels), bind_Ok_l.
  set (lacking := fun sel => text_difference all_possible_actions (set_of_selection sel)).
  assert (Hlack : ∀ sel, lacking sel ≠ ∅ ↔ ¬ covers_vocabulary sel).
  { intros sel. unfold lacking. by rewrite text_difference_empty. }
  assert (Hcov : Forall covers_vocabulary sels ↔ any_nonempty (map lacking sels) = false).
  { rewrite any_nonempty_false, Forall_map. apply Forall_iff. intros sel.
    unfold lacking. by rewrite text_difference_empty. }
  exists sels, (report_lines hypothesis_fnames (map lacking sels)).
  split; [done|]. split; [|split; [|split]].
  - rewrite Hcov. by destruct (any_nonempty (map lacking sels)).
  - rewrite Hcov. by destruct (any_nonempty (map lacking sels)).
  - intros line. rewrite report_lines_elem.
    split; intros (fn & sel & Hzip & Hne & ->); exists fn, sel;
      (split; [done|]); (split; [by apply Hlack | done]).
  - intros fn sel action Hzip Haction Hno.
    assert (Hin : action ∈ lacking sel).
    { apply elem_of_list_to_set, list_elem_of_filter. done. }
    assert (Hne : lacking sel ≠ ∅).
    { intros Hempty. rewrite Hempty in Hin. by apply not_elem_of_empty in Hin. }
    split; [|by apply report_line_shows].
    apply (report_shows hypothesis_fnames (map lacking sels) fn (lacking sel)); [|done].
    by apply (zip_elem_of_map lacking).
Qed.

(** C4, as amended, on a directory in which one file lacks the row of
    [travel]: the error is the one about actions, and its message has the
    line of that file. *)
Lemma validate_param_file_actions_example :
  ∃ lines,
    validate_param_file missing_action_dir =
      raise ValueError ("Missing actions:" +:+ nl +:+ join nl lines) ∧
    "lockdown_medium.csv - travel"%string ∈ lines.
Proof.
  destruct (validate_param_file_actions missing_action_dir example_features _
              eq_refl missing_action_tables) as [_ Hlabelled].
  - apply (bool_decide_unpack _). vm_compute. exact I.
  - destruct Hlabelled as (sels & lines & Hsels & _ & Hraise & Hlines & _).
    + apply (bool_decide_unpack _). vm_compute. exact I.
    + assert (Hsels0 : Forall2 (fun hd sel => df_getitem hd "actions" = Ok sel)
                 [skeleton example_features; skeleton example_features;
                  skeleton example_features; skeleton example_features;
                  skeleton example_features; skeleton example_features;
                  matrix_without_travel; skeleton example_features]
                 (map (fun hd => Series (map (cell_at 0) (rows hd)))
                    [skeleton example_features; skeleton example_features;
                     skeleton example_features; skeleton example_features;
                     skeleton example_features; skeleton example_features;
                     matrix_without_travel; skeleton example_features]))
        by (repeat (constructor; [reflexivity|]); constructor).
      rewrite (selections_unique _ _ _ Hsels Hsels0) in Hraise, Hlines.
      assert (Hno : ¬ covers_vocabulary
                      (Series (map (cell_at 0) (rows matrix_without_travel)))).
      { intros Hcov.
        assert (Hout : Str "travel" ∉
                  set_of_selection (Series (map (cell_at 0) (rows matrix_without_travel))))
          by (apply (bool_decide_unpack _); vm_compute; exact I).
        apply Hout, Hcov. apply (bool_decide_unpack _). vm_compute. exact I. }
      exists lines. split.
      * apply Hraise. intros Hall. apply Hno.
        rewrite Forall_forall in Hall. apply Hall.
        apply (bool_decide_unpack _). vm_compute. exact I.
      * apply Hlines. exists "lockdown_medium.csv"%string,
          (Series (map (cell_at 0) (rows matrix_without_travel))).
        split; [apply (bool_decide_unpack _); vm_compute; exact I|].
        split; [exact Hno | vm_compute; reflexivity].
Defined.

(** C4 as stated fails: a file whose [actions] column holds the ten actions
    and one more label is accepted. *)
Lemma validate_param_file_accepts_superset :
  read_csv extra_action_dir "lockdown_medium.csv" = Ok matrix_with_dance ∧
  df_getitem matrix_with_dance "actions"
    = Ok (Series (map Str (all_possible_actions ++ ["dance"]))) ∧
  bool_decide ((list_to_set (map Str all_possible_actions) : gset cell) ⊆
               set_of_selection (Series (map Str (all_possible_actions ++ ["dance"]))))
    = true ∧
  bool_decide (set_of_selection (Series (map Str (all_possible_actions ++ ["dance"])))
               = list_to_set (map Str all_possible_actions))
    = false ∧
  validate_param_file extra_action_dir = Ok tt.
Proof. repeat split; vm_compute; reflexivity. Qed.

(** ** The cross-file check *)




Lemma unique_Ok_inv (sel : selection) (entries : list cell) :
  unique sel = Ok entries → ∃ vs, sel = Series vs ∧ entries = remove_dups vs.
Proof. destruct sel as [vs|df]; [|done]. intros [= <-]. eauto. Qed.

Section checks.
Variable number_sets_equal : list cell → list cell → bool.

(** The body of the loop returns normally on the files that agree with the
    reference. *)
Lemma check_against_Ok_iff (ref : DataFrame) (vs0 : list cell) (name : string) (f : file) :
  check_against number_sets_equal
                (map lower (columns ref)) (length (map lower (columns ref)))
                (length (rows ref)) (remove_dups vs0) (name, f) = Ok tt
  ↔ agrees_with number_sets_equal ref vs0 f.
Proof.
  unfold check_against, agrees_with, parse_csv. split.
  - destruct (csv_view f) as [df|]; [|done]. rewrite bind_Ok_l. cbn [columns rows].
    destruct (length (map lower (columns df)) =? _)%nat; [|done]. cbn [negb].
    destruct (length (rows df) =? length (rows ref))%nat eqn:Hrows; [|done]. cbn [negb].
    case_bool_decide as Hset; [done|]. case_bool_decide as Horder; [done|].
    destruct (df_getitem _ "actions") as [sel|] eqn:Hsel; [|done]. rewrite bind_Ok_l.
    destruct (unique sel) as [entries|] eqn:Hentries; [|done]. rewrite bind_Ok_l.
    destruct (sets_equal _ entries _) eqn:Hact; [|done]. intros _.
    apply unique_Ok_inv in Hentries as (vs & -> & ->).
    exists df, vs. apply Nat.eqb_eq in Hrows.
    destruct (decide (map lower (columns df) = map lower (columns ref))); [|done].
    repeat split; done.
  - intros (df & vs & -> & Hcols & Hrows & Hsel & Hact). rewrite bind_Ok_l.
    cbn [columns rows]. rewrite Hcols, Hrows, !Nat.eqb_refl. cbn [negb].
    rewrite bool_decide_eq_false_2 by (by intros ?).
    rewrite bool_decide_eq_false_2 by (by intros ?).
    unfold lowered in Hsel. rewrite Hcols in Hsel. rewrite Hsel, bind_Ok_l.
    cbn [unique]. by rewrite bind_Ok_l, Hact.
Qed.

Lemma check_all_Ok_iff (check : string * file → result unit) (P : file → Prop)
    (entries : list (string * file)) :
  (∀ name f, check (name, f) = Ok tt ↔ P f) →
  check_all check entries = Ok tt ↔ Forall (fun entry => P entry.2) entries.
Proof.
  intros Hcheck. induction entries as [|[name f] entries IH]; [done|].
  cbn [check_all]. rewrite Forall_cons. cbn [snd].
  destruct (check (name, f)) as [[]|err] eqn:Hc.
  - rewrite bind_Ok_l, IH. split; [|by intros [_ ?]].
    intros ?. split; [exact (proj1 (Hcheck name f) Hc) | done].
  - split; [done|]. intros [HP _]. apply (proj2 (Hcheck name f)) in HP. congruence.
Qed.


(** The run of the check on a listing whose first matrix file is read as
    a table with one [actions] column. *)
Lemma test_input_example_matrices_run
    (abs_dir : string) (listing : list (string * file))
    (name : string) (first : file) (others : list (string * file))
    (ref : DataFrame) (vs0 : list cell) :
  List.filter (fun entry => is_matrix_name entry.1) listing = (name, first) :: others →
  csv_view first = Ok ref →
  df_getitem ref "actions" = Ok (Series vs0) →
  test_input_example_matrices number_sets_equal abs_dir listing =
  check_all (check_against number_sets_equal
               (map lower (columns ref)) (length (map lower (columns ref)))
               (length (rows ref)) (remove_dups vs0)) others.
Proof.
  intros Hfiles Href Hvs0. unfold test_input_example_matrices.
  rewrite Hfiles. unfold parse_csv at 1. rewrite Href, bind_Ok_l, Hvs0, bind_Ok_l.
  cbn [unique]. by rewrite bind_Ok_l.
Qed.

End checks.



(** The message of that run: positions 2 and 3. *)
Example column_order_drift_message :
  test_input_example_matrices same_numerals "/repo/parameters" drift_listing =
  raise AssertionError "lockdown_easy.csv has different column order at indices: [2, 3].".
Proof. vm_compute. reflexivity. Qed.


(** * Further properties *)

(** ** [filter_dates]: when it returns, and when it cannot *)

Lemma filter_paths_Ok_inv (s e : datetime) (file_list out : list string) :
  filter_paths s e file_list = Ok out →
  Forall (fun file => is_Some (path_date file)) file_list ∧
  out = List.filter (in_window s e) file_list.
Proof.
  revert out. induction file_list as [|file rest IH]; intros out.
  { intros [= <-]. by split. }
  cbn [filter_paths]. destruct (search file) as [g|] eqn:Hs; [|done].
  destruct (strptime g) as [d|] eqn:Hg; [|done]. rewrite bind_Ok_l.
  destruct (filter_paths s e rest) as [filtered|] eqn:Hrest; [|done].
  rewrite bind_Ok_l. intros [= <-].
  destruct (IH filtered eq_refl) as [Hall ->].
  assert (Hd : path_date file = Some d) by (apply path_date_Some; eauto).
  split; [constructor; [by eexists | done]|].
  assert (Hw : in_window s e file = dt_leb s d && dt_leb d e)
    by (unfold in_window; by rewrite Hd).
  cbn [List.filter]. by rewrite Hw.
Qed.

Lemma collect_dates_Raise (file_list : list string) (err : exn) :
  collect_dates file_list = Raise err → err = Exn ValueError None.
Proof.
  induction file_list as [|file rest IH]; [done|]. cbn [collect_dates].
  destruct (search file) as [g|]; [|done].
  destruct (strptime g) as [d|err'] eqn:Hg.
  - rewrite bind_Ok_l. destruct (collect_dates rest); [done|].
    intros [= <-]. by apply IH.
  - intros [= <-]. by apply strptime_Raise in Hg.
Qed.

Lemma collect_dates_invalid (file_list : list string) (file g : string) (err : exn) :
  file ∈ file_list → search file = Some g → strptime g = Raise err →
  collect_dates file_list = raised_by_library ValueError.
Proof.
  intros Hin Hs Hg.
  destruct (collect_dates file_list) as [dates|err'] eqn:Hc.
  - exfalso. revert dates Hc.
    induction file_list as [|f rest IH]; intros dates; [by apply elem_of_nil in Hin|].
    cbn [collect_dates]. apply elem_of_cons in Hin as [<-|Hin].
    + by rewrite Hs, Hg.
    + destruct (search f) as [g'|]; [|by apply IH].
      destruct (strptime g'); [|done]. rewrite bind_Ok_l.
      destruct (collect_dates rest) as [ds|] eqn:Hrest; [|done].
      intros _. by apply (IH Hin ds).
  - by rewrite (collect_dates_Raise _ _ Hc).
Qed.

(** [filter_dates] returns a list exactly when the window reads as two
    dates, every path of the list carries a date, and the window lies
    between the earliest and the latest of them; what it returns is then
    the paths dated in the window, in list order.  So a list with one
    undated path, or an empty list, never gets an answer. *)
Theorem filter_dates_Ok_iff (file_list out : list string) (ts te : string) :
  filter_dates file_list (ts, te) = Ok out ↔
  ∃ s e mn mx,
    strptime ts = Ok s ∧ strptime te = Ok e ∧
    Forall (fun file => is_Some (path_date file)) file_list ∧
    earliest mn (parsed_dates file_list) ∧ latest mx (parsed_dates file_list) ∧
    dt_leb mn s = true ∧ dt_leb e mx = true ∧
    out = List.filter (in_window s e) file_list.
Proof.
  split.
  - unfold filter_dates. cbn [fst snd].
    destruct (strptime ts) as [s|] eqn:Hs; [|done].
    destruct (strptime te) as [e|] eqn:He; [|done]. rewrite !bind_Ok_l.
    destruct (collect_dates file_list) as [[|d0 ds]|] eqn:Hc; [done| |done].
    rewrite bind_Ok_l.
    destruct (dt_ltb s (py_min d0 ds) || dt_gtb e (py_max d0 ds)) eqn:Hout; [done|].
    intros [Hall ->]%filter_paths_Ok_inv.
    assert (Hwd : Forall well_dated file_list).
    { eapply Forall_impl; [exact Hall|]. intros file ?. by right. }
    rewrite (collect_dates_well_dated _ Hwd) in Hc. injection Hc as Hc.
    apply orb_false_iff in Hout as [Hlo Hhi].
    rewrite dt_ltb_leb in Hlo. rewrite dt_gtb_leb in Hhi.
    apply negb_false_iff in Hlo, Hhi.
    exists s, e, (py_min d0 ds), (py_max d0 ds). rewrite Hc.
    repeat split; try done; [apply py_min_earliest | apply py_min_earliest
                             | apply py_max_latest | apply py_max_latest].
  - intros (s & e & mn & mx & Hs & He & Hall & Hmin & Hmax & Hlo & Hhi & ->).
    assert (Hwd : Forall well_dated file_list).
    { eapply Forall_impl; [exact Hall|]. intros file ?. by right. }
    rewrite (filter_dates_bounds _ _ _ _ _ _ _ Hs He Hwd Hmin Hmax).
    rewrite dt_ltb_leb, dt_gtb_leb, Hlo, Hhi. cbn.
    by apply filter_paths_dated.
Qed.

(** A path in which the pattern finds something that is no calendar date
    (a thirtieth of February, a thirteenth month) makes [filter_dates] fail
    with the [ValueError] of [strptime], whatever the window and the other
    paths are. *)
Theorem filter_dates_invalid_date
    (file_list : list string) (ts te file g : string) (s e : datetime) (err : exn) :
  strptime ts = Ok s →
  strptime te = Ok e →
  file ∈ file_list →
  search file = Some g →
  strptime g = Raise err →
  filter_dates file_list (ts, te) = raised_by_library ValueError.
Proof.
  intros Hs He Hin Hg Herr. unfold filter_dates. cbn [fst snd].
  rewrite Hs, He, !bind_Ok_l.
  by rewrite (collect_dates_invalid _ _ _ _ Hin Hg Herr).
Qed.

Lemma filter_dates_invalid_date_example :
  filter_dates [path_01_01; "data-rivm/tests/rivm_daily_2021-02-30.csv.gz"]
               ("2021-01-01", "2021-01-01")
  = raised_by_library ValueError.
Proof.
  apply (filter_dates_invalid_date _ "2021-01-01" "2021-01-01"
           "data-rivm/tests/rivm_daily_2021-02-30.csv.gz" "2021-02-30"
           (Datetime 2021 1 1) (Datetime 2021 1 1) (Exn ValueError None)).
  - reflexivity.
  - reflexivity.
  - apply (bool_decide_unpack _). vm_compute. exact I.
  - reflexivity.
  - reflexivity.
Defined.



(** ** The feature encoder: values outside the data model *)

Lemma encoder_of_file (dir : directory) (fname : string) (f : file)
    (spec : list (string * json)) :
  dir !! fname = Some f → json_view f = Some (JObj spec) →
  _get_one_hot_encoded_features dir fname = encode_items spec [].
Proof.
  intros Hf Hjson. unfold _get_one_hot_encoded_features, json_load.
  by rewrite Hf, Hjson.
Qed.

Lemma encode_items_app (before items : list (string * json)) (features : list string) :
  Forall well_formed_attribute before →
  encode_items (before ++ items) features =
  encode_items items (features ++ encoded_columns before).
Proof.
  intros Hwf. revert features.
  induction Hwf as [|[name value] before Hattr _ IH]; intros features.
  - cbn. by rewrite app_nil_r.
  - cbn [app]. rewrite (encode_items_cons _ _ _ _ Hattr), IH, encoded_columns_cons.
    by rewrite <- app_assoc.
Qed.

Lemma comprehension_level_column_mixed (name : string) (items : list json) :
  string_list items = None →
  comprehension (level_column name) items = raised_by_library TypeError.
Proof.
  induction items as [|item items IH]; [done|].
  cbn [comprehension]. destruct item; try done.
  cbn [string_list level_column]. rewrite bind_Ok_l.
  destruct (string_list items); [done|]. intros _. by rewrite IH.
Qed.

Lemma encode_items_rejected (name : string) (value : json) (c : exn_class)
    (after : list (string * json)) (features : list string) :
  rejected_value value c →
  encode_items ((name, value) :: after) features = raised_by_library c.
Proof.
  intros Hrej. cbn [encode_items].
  destruct Hrej as [v Hv| | | |v0 more Hv| | | |s rest more Hmixed]; try done.
  - by destruct v.
  - cbn [getitem0]. rewrite bind_Ok_l. by destruct v0.
  - cbn [getitem0]. rewrite !bind_Ok_l. cbn [is_str iterate]. rewrite bind_Ok_l.
    cbn [comprehension level_column]. rewrite bind_Ok_l.
    by rewrite (comprehension_level_column_mixed _ _ Hmixed).
Qed.

(** The encoder on a file in which, after well-formed attributes, comes an
    attribute with a rejected value: the exception of that value is raised
    and no column list is returned, whatever follows.  The rejected values
    are: a scalar ([null], a boolean, a number) or a list whose first entry
    is a scalar, [TypeError]; a [dict] or a list whose first entry is a
    [dict], [KeyError]; the empty text, the empty list, or a list whose
    first entry is the empty text or the empty list, [IndexError]; a list
    whose first entry is a list that starts with a text and holds something
    that is no text, [TypeError]. *)
Theorem one_hot_encoded_features_rejected
    (dir : directory) (fname : string) (f : file)
    (before after : list (string * json)) (name : string) (value : json)
    (c : exn_class) :
  dir !! fname = Some f →
  json_view f = Some (JObj (before ++ (name, value) :: after)) →
  Forall well_formed_attribute before →
  rejected_value value c →
  _get_one_hot_encoded_features dir fname = raised_by_library c.
Proof.
  intros Hf Hjson Hwf Hrej. rewrite (encoder_of_file _ _ _ _ Hf Hjson).
  rewrite (encode_items_app _ _ _ Hwf). by apply encode_items_rejected.
Qed.

Lemma one_hot_encoded_features_rejected_example :
  _get_one_hot_encoded_features
    {[ PARAMS_INDIVIDUAL :=
         json_file (JObj (example_spec ++
                   [("education", JArr [JArr [JStr "low"; JInt 2]])])) ]}
    PARAMS_INDIVIDUAL
  = raised_by_library TypeError.
Proof.
  apply (one_hot_encoded_features_rejected _ PARAMS_INDIVIDUAL
           (json_file (JObj (example_spec ++
                      [("education", JArr [JArr [JStr "low"; JInt 2]])])))
           example_spec [] "education" (JArr [JArr [JStr "low"; JInt 2]])).
  - apply lookup_singleton_eq.
  - reflexivity.
  - repeat apply Forall_cons_2; [| |apply Forall_nil_2].
    + eexists _, _, _. split; [reflexivity|]. intros _. by eexists.
    + eexists _, _, _. split; [reflexivity|]. intros [=].
  - by constructor.
Defined.



(** On a well-formed specification every attribute gets at least one
    column, and every column starts with the name of an attribute of the
    specification. *)
Theorem one_hot_encoded_features_traceable
    (dir : directory) (fname : string) (f : file) (spec : list (string * json))
    (features : list string) :
  dir !! fname = Some f →
  json_view f = Some (JObj spec) →
  Forall well_formed_attribute spec →
  _get_one_hot_encoded_features dir fname = Ok features →
  (∀ name value, (name, value) ∈ spec →
     ∃ col, col ∈ features ∧ String.prefix name col = true) ∧
  (∀ col, col ∈ features →
     ∃ name value, (name, value) ∈ spec ∧ String.prefix name col = true).
Proof.
  intros Hf Hjson Hwf. rewrite (encoder_of_file _ _ _ _ Hf Hjson).
  rewrite (encode_items_spec _ _ Hwf). cbn [app]. intros [= <-].
  assert (Hattr : ∀ name value, well_formed_attribute (name, value) →
            attribute_columns (name, value) ≠ [] ∧
            ∀ col, col ∈ attribute_columns (name, value) → String.prefix name col = true).
  { intros name value (first & rest & more & Hvalue & _). cbn [snd] in Hvalue. subst value.
    unfold attribute_columns.
    destruct (string_list (first :: rest)) as [levels|] eqn:Hlevels.
    - split.
      + destruct levels as [|l levels]; [|done].
        destruct first; try done. cbn [string_list] in Hlevels.
        by destruct (string_list rest).
      + intros col Hcol. rewrite list_elem_of_In, in_map_iff in Hcol.
        destruct Hcol as (level & <- & _). apply prefix_app.
    - split; [done|]. intros col ->%list_elem_of_singleton.
      rewrite <- (append_nil_r name) at 2. apply prefix_app. }
  split.
  - intros name value Hin. rewrite Forall_forall in Hwf.
    destruct (Hattr name value (Hwf _ Hin)) as [Hne _].
    destruct (attribute_columns (name, value)) as [|col cols] eqn:Hcols; [done|].
    exists col. split.
    + unfold encoded_columns. apply list_elem_of_bind. exists (name, value).
      rewrite Hcols. split; [apply elem_of_cons; by left | done].
    + destruct (Hattr name value (Hwf _ Hin)) as [_ Hpre]. apply Hpre.
      rewrite Hcols. apply elem_of_cons. by left.
  - intros col ([name value] & Hcol & Hin)%list_elem_of_bind.
    rewrite Forall_forall in Hwf. exists name, value. split; [done|].
    by apply (Hattr name value (Hwf _ Hin)).
Qed.

Lemma one_hot_encoded_features_traceable_example :
  ∃ col, col ∈ example_features ∧ String.prefix "age" col = true.
Proof.
  destruct (one_hot_encoded_features_traceable example_dir PARAMS_INDIVIDUAL
              (json_file (JObj example_spec)) example_spec example_features)
    as [Hcovered _].
  - apply lookup_singleton_eq.
  - reflexivity.
  - repeat apply Forall_cons_2; [| |apply Forall_nil_2].
    + eexists _, _, _. split; [reflexivity|]. intros _. by eexists.
    + eexists _, _, _. split; [reflexivity|]. intros [=].
  - reflexivity.
  - apply (Hcovered "age" (JArr [JArr [JInt 18; JInt 65]])).
    apply list_elem_of_In. right. left. reflexivity.
Defined.

(** ** The validator: when it accepts a directory *)

Lemma read_all_inv (dir : directory) (names : list string) (tables : list DataFrame) :
  comprehension (read_csv dir) names = Ok tables →
  Forall2 (fun name hd => ∃ f, dir !! name = Some f ∧ csv_view f = Ok hd) names tables.
Proof.
  revert tables. induction names as [|name names IH]; intros tables.
  { intros [= <-]. constructor. }
  cbn [comprehension]. destruct (read_csv dir name) as [hd|] eqn:Hhd; [|done].
  rewrite bind_Ok_l. destruct (comprehension (read_csv dir) names) as [hds|]; [|done].
  rewrite bind_Ok_l. intros [= <-]. constructor; [|by apply IH].
  unfold read_csv, parse_csv in Hhd. destruct (dir !! name) as [f|]; [|done].
  by exists f.
Qed.

Lemma missing_features_of_empty (features : list string) (hd : DataFrame) :
  missing_features_of (required_features features) hd = ∅ ↔ has_features features hd.
Proof.
  unfold missing_features_of, has_features. split.
  - intros Hempty feature Hin.
    destruct (decide (lower feature ∈ map lower (columns hd))) as [|Hno]; [done|].
    assert (lower feature ∈ (∅ : gset string)) as []%not_elem_of_empty.
    rewrite <- Hempty. apply elem_of_difference. split.
    + apply elem_of_list_to_set, list_elem_of_In, in_map, list_elem_of_In, Hin.
    + by rewrite elem_of_list_to_set.
  - intros Hall. apply set_eq. intros x. split; [|by intros ?%not_elem_of_empty].
    intros [Hx Hno]%elem_of_difference. destruct Hno.
    apply elem_of_list_to_set. apply elem_of_list_to_set in Hx.
    rewrite list_elem_of_In, in_map_iff in Hx. destruct Hx as (feature & <- & Hin).
    by apply Hall, list_elem_of_In.
Qed.

Lemma missing_actions_all_inv (tables : list DataFrame) (sets : list (gset string)) :
  comprehension (missing_actions_of all_possible_actions) tables = Ok sets →
  ∃ sels,
    Forall2 (fun hd sel => df_getitem hd "actions" = Ok sel) tables sels ∧
    sets = map (fun sel => text_difference all_possible_actions (set_of_selection sel)) sels.
Proof.
  revert sets. induction tables as [|hd tables IH]; intros sets.
  { intros [= <-]. exists []. by split; [constructor|]. }
  cbn [comprehension].
  destruct (missing_actions_of all_possible_actions hd) as [X|] eqn:HX; [|done].
  rewrite bind_Ok_l.
  destruct (comprehension _ tables) as [sets'|]; [|done]. rewrite bind_Ok_l.
  intros [= <-]. destruct (IH sets' eq_refl) as (sels & Hsels & ->).
  unfold missing_actions_of in HX.
  destruct (df_getitem hd "actions") as [sel|] eqn:Hsel; [|done].
  rewrite bind_Ok_l in HX. injection HX as <-.
  exists (sel :: sels). by split; [constructor|].
Qed.

(** A directory the validator has nothing to say against. *)
Lemma validate_param_file_passes
    (dir : directory) (features : list string) (tables : list DataFrame) :
  _get_one_hot_encoded_features dir PARAMS_INDIVIDUAL = Ok features →
  holds_tables dir tables →
  Forall (fun hd => has_features features hd ∧ has_actions hd) tables →
  validate_param_file dir = Ok tt.
Proof.
  intros Hfeatures Htables Hall.
  rewrite (validate_param_file_schema _ _ _ Hfeatures Htables). cbv zeta.
  assert (Hnone : any_nonempty
            (map (missing_features_of (required_features features)) tables) = false).
  { apply any_nonempty_false, Forall_map. eapply Forall_impl; [exact Hall|].
    intros hd [? _]. by apply missing_features_of_empty. }
  rewrite Hnone.
  assert (Hsels : ∃ sels,
            Forall2 (fun hd sel => df_getitem hd "actions" = Ok sel) tables sels ∧
            Forall covers_vocabulary sels).
  { clear -Hall. induction Hall as [|hd tables [_ (sel & Hsel & Hcov)] _ (sels & ? & ?)].
    - exists []. by split; constructor.
    - exists (sel :: sels). by split; constructor. }
  destruct Hsels as (sels & Hsels & Hcov).
  rewrite (missing_actions_all _ _ Hsels), bind_Ok_l.
  assert (Hno : any_nonempty
            (map (fun sel => text_difference all_possible_actions (set_of_selection sel))
                 sels) = false).
  { apply any_nonempty_false, Forall_map. eapply Forall_impl; [exact Hcov|].
    intros sel ?. by apply text_difference_empty. }
  by rewrite Hno.
Qed.

Lemma validate_param_file_accepted (dir : directory) :
  validate_param_file dir = Ok tt →
  ∃ features tables,
    _get_one_hot_encoded_features dir PARAMS_INDIVIDUAL = Ok features ∧
    holds_tables dir tables ∧
    Forall (fun hd => has_features features hd ∧ has_actions hd) tables.
Proof.
  unfold validate_param_file.
  destruct (forallb id (map (isfile dir) hypothesis_fnames)); [|done]. cbn [negb].
  destruct (_get_one_hot_encoded_features dir PARAMS_INDIVIDUAL) as [features|]; [|done].
  rewrite bind_Ok_l.
  destruct (comprehension (read_csv dir) hypothesis_fnames) as [tables|] eqn:Hread;
    [|done].
  rewrite bind_Ok_l.
  destruct (any_nonempty (map _ tables)) eqn:Hfeat; [done|].
  destruct (comprehension (missing_actions_of all_possible_actions) tables)
    as [sets|] eqn:Hsets; [|done].
  rewrite bind_Ok_l. destruct (any_nonempty sets) eqn:Hact; [done|]. intros _.
  exists features, tables. split; [done|]. split; [by apply read_all_inv|].
  apply any_nonempty_false, Forall_map in Hfeat.
  destruct (missing_actions_all_inv _ _ Hsets) as (sels & Hsels & ->).
  apply any_nonempty_false, Forall_map in Hact.
  clear -Hfeat Hsels Hact. induction Hsels as [|hd sel tables sels Hsel _ IH];
    [constructor|].
  apply Forall_cons in Hfeat as [Hhd Hfeat]. apply Forall_cons in Hact as [Hsel' Hact].
  constructor; [|by apply IH].
  split; [exact (proj1 (missing_features_of_empty features hd) Hhd)|].
  exists sel. split; [done|]. exact (proj1 (text_difference_empty _ _) Hsel').
Qed.

(** The validator returns normally exactly when the specification file is
    read by the encoder, the eight expected files are there and are read
    as tables, and every table has, up to case, the required columns and,
    under the label [actions] as written, every action of the vocabulary. *)
Theorem validate_param_file_Ok_iff (dir : directory) :
  validate_param_file dir = Ok tt ↔
  ∃ features tables,
    _get_one_hot_encoded_features dir PARAMS_INDIVIDUAL = Ok features ∧
    holds_tables dir tables ∧
    Forall (fun hd => has_features features hd ∧ has_actions hd) tables.
Proof.
  split; [apply validate_param_file_accepted|].
  intros (features & tables & Hfeatures & Htables & Hall).
  by apply (validate_param_file_passes dir features tables).
Qed.

(** The [actions] column of a skeleton whose features do not use that
    label. *)
Lemma skeleton_actions (features : list string) :
  "actions" ∉ features →
  df_getitem (skeleton features) "actions" = Ok (Series (map Str all_possible_actions)).
Proof.
  intros Hno. unfold df_getitem, positions, skeleton, skeleton_columns.
  cbn [columns rows positions_from String.eqb Ascii.eqb Bool.eqb].
  rewrite (positions_from_absent 2 "actions" features Hno). reflexivity.
Qed.

Lemma skeleton_has_features (features : list string) :
  has_features features (skeleton features).
Proof.
  intros feature Hin. apply list_elem_of_In, in_map, list_elem_of_In. exact Hin.
Qed.

Lemma skeleton_has_actions (features : list string) :
  "actions" ∉ features → has_actions (skeleton features).
Proof.
  intros Hno. exists (Series (map Str all_possible_actions)).
  split; [by apply skeleton_actions|]. intros a Ha. cbn [set_of_selection].
  apply elem_of_list_to_set, list_elem_of_In, in_map, list_elem_of_In, Ha.
Qed.

Lemma holds_tables_all (dir : directory) (hd : DataFrame) :
  (∀ name, name ∈ hypothesis_fnames → read_csv dir name = Ok hd) →
  holds_tables dir (map (fun _ => hd) hypothesis_fnames).
Proof.
  intros Hall. unfold holds_tables. revert Hall.
  generalize hypothesis_fnames. intros names Hall.
  induction names as [|name names IH]; [constructor|].
  cbn [map]. constructor.
  - assert (Hname : read_csv dir name = Ok hd) by (apply Hall, elem_of_cons; by left).
    unfold read_csv, parse_csv in Hname. destruct (dir !! name) as [f|]; [|done].
    by exists f.
  - apply IH. intros n Hn. apply Hall, elem_of_cons. by right.
Qed.

(** Skeletons validate: when [read_csv] reads each of the eight expected
    files as the skeleton of the features the encoder returns, and no
    feature is itself labelled [actions], the validator accepts the
    directory. *)
Theorem validate_param_file_skeletons (dir : directory) (features : list string) :
  _get_one_hot_encoded_features dir PARAMS_INDIVIDUAL = Ok features →
  "actions" ∉ features →
  (∀ name, name ∈ hypothesis_fnames → read_csv dir name = Ok (skeleton features)) →
  validate_param_file dir = Ok tt.
Proof.
  intros Hfeatures Hno Hall.
  apply (validate_param_file_passes dir features
           (map (fun _ => skeleton features) hypothesis_fnames));
    [done | by apply holds_tables_all |].
  apply Forall_map, Forall_forall. intros name _.
  split; [apply skeleton_has_features | by apply skeleton_has_actions].
Qed.

Lemma validate_param_file_skeletons_example :
  validate_param_file complete_dir = Ok tt.
Proof.
  apply (validate_param_file_skeletons complete_dir example_features).
  - reflexivity.
  - apply (bool_decide_unpack _). vm_compute. exact I.
  - apply Forall_forall.
    change hypothesis_fnames with
      (action_effect_fnames ++
       ["lockdown_absent.csv"; "lockdown_easy.csv"; "lockdown_medium.csv";
        "lockdown_hard.csv"]).
    repeat (apply Forall_cons_2; [vm_compute; reflexivity|]). apply Forall_nil_2.
Defined.

(** The feature check compares labels without regard to case, the lookup
    of the action column does not: when no feature is missing and some
    file has no column written exactly [actions], the validator ends in
    the [KeyError] of the lookup and not in a schema report. *)
Theorem validate_param_file_actions_label
    (dir : directory) (features : list string) (tables : list DataFrame)
    (hd : DataFrame) :
  _get_one_hot_encoded_features dir PARAMS_INDIVIDUAL = Ok features →
  holds_tables dir tables →
  Forall (has_features features) tables →
  hd ∈ tables →
  "actions" ∉ columns hd →
  validate_param_file dir = raised_by_library KeyError.
Proof.
  intros Hfeatures Htables Hall Hin Hno.
  rewrite (validate_param_file_schema _ _ _ Hfeatures Htables). cbv zeta.
  assert (Hnone : any_nonempty
            (map (missing_features_of (required_features features)) tables) = false).
  { apply any_nonempty_false, Forall_map. eapply Forall_impl; [exact Hall|].
    intros hd' ?. by apply missing_features_of_empty. }
  by rewrite Hnone, (comprehension_missing_actions_absent _ _ Hin Hno).
Qed.

Lemma validate_param_file_actions_label_example :
  validate_param_file capitalised_dir = raised_by_library KeyError.
Proof.
  apply (validate_param_file_actions_label capitalised_dir example_features
           [skeleton example_features; skeleton example_features;
            skeleton example_features; skeleton example_features;
            skeleton example_features; matrix_capitalised;
            skeleton example_features; skeleton example_features]
           matrix_capitalised).
  - reflexivity.
  - repeat (constructor; [eexists; split; [vm_compute; reflexivity | reflexivity]|]).
    constructor.
  - apply Forall_forall. intros hd' Hhd' feature Hfeature.
    revert feature Hfeature. apply Forall_forall.
    revert hd' Hhd'. apply Forall_forall.
    apply (bool_decide_unpack _). vm_compute. exact I.
  - apply (bool_decide_unpack _). vm_compute. exact I.
  - apply (bool_decide_unpack _). vm_compute. exact I.
Defined.

(** ** The generator, run again and followed by the validator *)

Lemma encoder_fold_insert (names : list string) (f : file) (dir : directory) :
  PARAMS_INDIVIDUAL ∉ names →
  _get_one_hot_encoded_features (fold_left (fun d fp => <[fp := f]> d) names dir)
                                PARAMS_INDIVIDUAL
  = _get_one_hot_encoded_features dir PARAMS_INDIVIDUAL.
Proof.
  intros Hno. unfold _get_one_hot_encoded_features, json_load.
  by rewrite lookup_fold_insert, (bool_decide_eq_false_2 _ Hno).
Qed.

Lemma spec_file_not_written : PARAMS_INDIVIDUAL ∉ skeleton_fnames.
Proof. apply (bool_decide_unpack _). vm_compute. exact I. Qed.

(** Generating twice is generating once: the second run finds the same
    specification and writes the same five files again. *)
Theorem create_empty_hypotheses_again (read_back : DataFrame → result DataFrame)
    (dir_params : string) (dir dir' : directory) (features : list string) :
  _get_one_hot_encoded_features dir PARAMS_INDIVIDUAL = Ok features →
  create_empty_hypotheses read_back dir_params dir = (dir', Ok tt) →
  create_empty_hypotheses read_back dir_params dir' = (dir', Ok tt).
Proof.
  intros Hfeatures. rewrite (create_empty_hypotheses_run _ _ _ _ Hfeatures).
  intros Hrun. apply (f_equal fst) in Hrun. cbn [fst] in Hrun. subst dir'.
  rewrite (create_empty_hypotheses_run _ _ _ features).
  - f_equal. apply map_eq. intros name. rewrite !lookup_fold_insert.
    by destruct (bool_decide (name ∈ skeleton_fnames)).
  - rewrite encoder_fold_insert; [done | apply spec_file_not_written].
Qed.

Lemma create_empty_hypotheses_again_example :
  create_empty_hypotheses read_as_written "parameters"
    (create_empty_hypotheses read_as_written "parameters" example_dir).1
  = ((create_empty_hypotheses read_as_written "parameters" example_dir).1, Ok tt).
Proof.
  apply (create_empty_hypotheses_again read_as_written "parameters" example_dir _
           example_features).
  - reflexivity.
  - vm_compute. reflexivity.
Defined.

Lemma Forall2_pointwise {A B} (R : A → B → Prop) (P : B → Prop) (xs : list A) :
  (∃ ys, Forall2 R xs ys ∧ Forall P ys) ↔ ∀ x, x ∈ xs → ∃ y, R x y ∧ P y.
Proof.
  induction xs as [|x xs IH].
  - split; [by intros _ x ?%elem_of_nil|]. intros _. exists []. by split; constructor.
  - split.
    + intros (ys & HR & HP). apply Forall2_cons_inv_l in HR as (y & ys' & Hxy & HR & ->).
      apply Forall_cons in HP as [Hy HP]. intros z [->|Hz]%elem_of_cons; [eauto|].
      apply IH; eauto.
    + intros Hall. destruct (Hall x) as (y & Hxy & Hy); [apply elem_of_cons; by left|].
      destruct (proj2 IH) as (ys & HR & HP).
      { intros z Hz. apply Hall, elem_of_cons. by right. }
      exists (y :: ys). by split; constructor.
Qed.

(** After the generator has run, the validator accepts the directory
    exactly when (a) what pandas reads back from the skeleton the
    generator wrote is a table with the required columns and all the
    actions, and (b) the four action-effect matrices, which the generator
    does not write, were already there with the required columns and all
    the actions.  When the skeleton is read back as it was written and no
    feature is labelled [actions], (a) holds. *)
Theorem generate_then_validate_Ok_iff (read_back : DataFrame → result DataFrame)
    (dir_params : string) (dir : directory) (features : list string) :
  _get_one_hot_encoded_features dir PARAMS_INDIVIDUAL = Ok features →
  ((generate_then_validate read_back dir_params dir).2 = Ok tt ↔
   (∃ written, read_back (skeleton features) = Ok written ∧
               has_features features written ∧ has_actions written) ∧
   ∀ name, name ∈ action_effect_fnames →
     ∃ f hd, dir !! name = Some f ∧ csv_view f = Ok hd ∧
             has_features features hd ∧ has_actions hd) ∧
  (read_back (skeleton features) = Ok (skeleton features) →
   "actions" ∉ features →
   ∃ written, read_back (skeleton features) = Ok written ∧
              has_features features written ∧ has_actions written).
Proof.
  intros Hfeatures. split.
  2:{ intros Hback Hno. exists (skeleton features).
      split; [done|]. split; [apply skeleton_has_features | by apply skeleton_has_actions]. }
  unfold generate_then_validate.
  rewrite (create_empty_hypotheses_run _ _ _ _ Hfeatures). cbn [snd].
  set (dir' := fold_left _ skeleton_fnames dir).
  assert (Hfeatures' : _get_one_hot_encoded_features dir' PARAMS_INDIVIDUAL = Ok features).
  { unfold dir'. rewrite encoder_fold_insert; [done | apply spec_file_not_written]. }
  pose proof hypothesis_fnames_cases as Hcases. rewrite Forall_forall in Hcases.
  pose proof action_effect_fnames_expected as Hexp. rewrite Forall_forall in Hexp.
  assert (Hlockdown : "lockdown_easy.csv"%string ∈ hypothesis_fnames ∧
                      "lockdown_easy.csv"%string ∈ skeleton_fnames)
    by (split; apply (bool_decide_unpack _); vm_compute; exact I).
  destruct Hlockdown as [Hexpected Hwritten].
  split.
  - intros (features' & tables & Hf' & Htables & Hall)%validate_param_file_accepted.
    assert (features' = features) as -> by congruence.
    assert (Hpoint : ∃ ys, Forall2 (fun name hd => ∃ f, dir' !! name = Some f ∧
                                      csv_view f = Ok hd) hypothesis_fnames ys ∧
                           Forall (fun hd => has_features features hd ∧ has_actions hd) ys)
      by eauto.
    rewrite Forall2_pointwise in Hpoint. split.
    + destruct (Hpoint _ Hexpected) as (hd & (f & Hf & Hhd) & Hfeat & Hact).
      unfold dir' in Hf. rewrite lookup_fold_insert, (bool_decide_eq_true_2 _ Hwritten) in Hf.
      injection Hf as <-. by exists hd.
    + intros name Hname. destruct (Hexp _ Hname) as [Hin Hfresh].
      destruct (Hpoint _ Hin) as (hd & (f & Hf & Hhd) & Hfeat & Hact).
      unfold dir' in Hf. rewrite lookup_fold_insert, (bool_decide_eq_false_2 _ Hfresh) in Hf.
      by exists f, hd.
  - intros [(written & Hback & Hwfeat & Hwact) Hall].
    assert (Hpoint : ∃ ys, Forall2 (fun name hd => ∃ f, dir' !! name = Some f ∧
                                      csv_view f = Ok hd) hypothesis_fnames ys ∧
                           Forall (fun hd => has_features features hd ∧ has_actions hd) ys).
    { apply Forall2_pointwise. intros name Hname.
      destruct (Hcases _ Hname) as [[Hact Hfresh]|[Hskel _]].
      - destruct (Hall _ Hact) as (f & hd & Hf & Hhd & ? & ?).
        exists hd. split; [|done]. exists f. split; [|done].
        unfold dir'. by rewrite lookup_fold_insert, (bool_decide_eq_false_2 _ Hfresh).
      - exists written. split; [|done].
        exists (to_csv read_back (skeleton features)). split; [|done].
        unfold dir'. by rewrite lookup_fold_insert, (bool_decide_eq_true_2 _ Hskel). }
    destruct Hpoint as (tables & Htables & Hok).
    by apply (validate_param_file_passes dir' features tables).
Qed.

Lemma generate_then_validate_Ok_iff_example :
  (generate_then_validate read_as_written "parameters" populated_dir).2 = Ok tt.
Proof.
  destruct (generate_then_validate_Ok_iff read_as_written "parameters" populated_dir
              example_features eq_refl) as [Hiff Hwritten].
  apply Hiff. split.
  - apply Hwritten; [reflexivity|]. apply (bool_decide_unpack _). vm_compute. exact I.
  - apply Forall_forall. unfold action_effect_fnames.
    repeat (apply Forall_cons_2;
            [exists example_matrix, (skeleton example_features);
             split; [vm_compute; reflexivity|]; split; [reflexivity|];
             split; [apply skeleton_has_features | apply skeleton_has_actions;
                     apply (bool_decide_unpack _); vm_compute; exact I]|]).
    apply Forall_nil_2.
Defined.

(** ** The cross-file check: when it passes *)

(** The cross-file check passes when every matrix file agrees with the
    first one found. *)
Lemma test_input_example_matrices_passes
    (number_sets_equal : list cell → list cell → bool)
    (abs_dir : string) (listing : list (string * file))
    (name : string) (first : file) (others : list (string * file))
    (ref : DataFrame) (vs0 : list cell) :
  List.filter (fun entry => is_matrix_name entry.1) listing = (name, first) :: others →
  csv_view first = Ok ref →
  df_getitem ref "actions" = Ok (Series vs0) →
  Forall (fun entry => agrees_with number_sets_equal ref vs0 entry.2) others →
  test_input_example_matrices number_sets_equal abs_dir listing = Ok tt.
Proof.
  intros Hfiles Href Hvs0 Hall.
  rewrite (test_input_example_matrices_run _ _ _ _ _ _ _ _ Hfiles Href Hvs0).
  apply (check_all_Ok_iff _ (agrees_with number_sets_equal ref vs0)); [|done].
  intros n f. apply check_against_Ok_iff.
Qed.

(** The cross-file check passes exactly when there is a matrix file (a
    name that ends in [.csv] and starts with [lockdown] or [actions]), the
    first one found is read as a table with one [actions] column, and every
    other matrix file agrees with it: same labels in the same order up to
    case, as many rows, and [actions] entries that make the same set for
    Python.  Files that are not named like a matrix play no part. *)
Theorem test_input_example_matrices_Ok_iff
    (number_sets_equal : list cell → list cell → bool)
    (abs_dir : string) (listing : list (string * file)) :
  test_input_example_matrices number_sets_equal abs_dir listing = Ok tt ↔
  ∃ name first others ref vs0,
    List.filter (fun entry => is_matrix_name entry.1) listing = (name, first) :: others ∧
    csv_view first = Ok ref ∧
    df_getitem ref "actions" = Ok (Series vs0) ∧
    Forall (fun entry => agrees_with number_sets_equal ref vs0 entry.2) others.
Proof.
  split.
  - unfold test_input_example_matrices.
    destruct (List.filter _ listing) as [|[name first] others]; [done|].
    unfold parse_csv at 1. destruct (csv_view first) as [ref|] eqn:Href; [|done].
    rewrite bind_Ok_l.
    destruct (df_getitem ref "actions") as [sel|] eqn:Hsel; [|done]. rewrite bind_Ok_l.
    destruct (unique sel) as [entries|] eqn:Hentries; [|done]. rewrite bind_Ok_l.
    apply unique_Ok_inv in Hentries as (vs0 & -> & ->). intros Hall.
    exists name, first, others, ref, vs0. do 3 (split; [done|]).
    apply (check_all_Ok_iff _ (agrees_with number_sets_equal ref vs0)) in Hall; [done|].
    intros n f. apply check_against_Ok_iff.
  - intros (name & first & others & ref & vs0 & Hfiles & Href & Hvs0 & Hall).
    by apply (test_input_example_matrices_passes number_sets_equal abs_dir listing
                name first others ref vs0).
Qed.

Lemma lowered_skeleton_actions (features : list string) :
  "actions" ∉ map lower features →
  df_getitem (lowered (skeleton features)) "actions"
  = Ok (Series (map Str all_possible_actions)).
Proof.
  intros Hno. unfold df_getitem, positions, lowered, skeleton, skeleton_columns.
  cbn [columns rows map positions_from lower lower_char String.eqb Ascii.eqb Bool.eqb].
  change (lower "actions") with "actions"%string. change (lower "baseline") with "baseline"%string.
  cbn [positions_from String.eqb Ascii.eqb Bool.eqb].
  rewrite (positions_from_absent 2 "actions" _ Hno). reflexivity.
Qed.

Lemma filter_Forall_inv {A} (p : A → bool) (l : list A) (x : A) (rest : list A) :
  List.filter p l = x :: rest → x ∈ l ∧ p x = true ∧ Forall (fun y => y ∈ l ∧ p y = true) rest.
Proof.
  intros Hf.
  assert (Hall : Forall (fun y => y ∈ l ∧ p y = true) (List.filter p l)).
  { apply Forall_forall. intros y Hy. apply list_elem_of_In, filter_In in Hy as [Hy ?].
    split; [by apply list_elem_of_In | done]. }
  rewrite Hf in Hall. apply Forall_cons in Hall as [[? ?] ?]. done.
Qed.

(** Two lists of texts make the same set for Python when they hold the
    same texts. *)
Lemma sets_equal_texts (number_sets_equal : list cell → list cell → bool)
    (xs : list string) :
  sets_equal number_sets_equal (remove_dups (map Str xs)) (remove_dups (map Str xs)) = true.
Proof.
  unfold sets_equal.
  assert (Htext : forallb is_text (remove_dups (map Str xs)) = true).
  { apply forallb_forall. intros c Hc. apply (proj2 (list_elem_of_In _ _)) in Hc.
    apply (proj1 (elem_of_remove_dups _ _)) in Hc.
    apply (proj1 (list_elem_of_In _ _)) in Hc.
    apply in_map_iff in Hc as (x & <- & _). done. }
  rewrite Htext. cbn [andb]. by apply bool_decide_eq_true_2.
Qed.

(** What the generator writes passes the cross-file check, when pandas
    reads the skeleton back as it was written: in a listing of the
    generated directory whose matrix files are the generated ones, all
    files agree with whichever comes first.  (No encoded feature may read
    [actions] in lower case, or the skeleton has that label twice.) *)
Theorem generated_matrices_consistent
    (read_back : DataFrame → result DataFrame)
    (number_sets_equal : list cell → list cell → bool)
    (abs_dir dir_params : string) (dir dir' : directory) (features : list string)
    (listing : list (string * file)) :
  _get_one_hot_encoded_features dir PARAMS_INDIVIDUAL = Ok features →
  "actions" ∉ map lower features →
  read_back (skeleton features) = Ok (skeleton features) →
  create_empty_hypotheses read_back dir_params dir = (dir', Ok tt) →
  (∀ name f, (name, f) ∈ listing → dir' !! name = Some f) →
  (∀ name f, (name, f) ∈ listing → is_matrix_name name = true → name ∈ skeleton_fnames) →
  (∃ name f, (name, f) ∈ listing ∧ is_matrix_name name = true) →
  test_input_example_matrices number_sets_equal abs_dir listing = Ok tt.
Proof.
  intros Hfeatures Hno Hback Hrun Hlisted Hmatrix (name0 & f0 & Hin0 & Hname0).
  rewrite (create_empty_hypotheses_run _ _ _ _ Hfeatures) in Hrun.
  apply (f_equal fst) in Hrun. cbn [fst] in Hrun. subst dir'.
  assert (Hgen : ∀ name f, (name, f) ∈ listing → is_matrix_name name = true →
                           csv_view f = Ok (skeleton features)).
  { intros name f Hin Hname. pose proof (Hlisted _ _ Hin) as Hf.
    rewrite lookup_fold_insert, (bool_decide_eq_true_2 _ (Hmatrix _ _ Hin Hname)) in Hf.
    injection Hf as <-. exact Hback. }
  assert (Hno' : "actions" ∉ features).
  { intros Hin. apply Hno. apply list_elem_of_In, in_map_iff.
    exists "actions"%string. split; [reflexivity | by apply list_elem_of_In]. }
  destruct (List.filter (fun entry => is_matrix_name entry.1) listing)
    as [|[name first] others] eqn:Hfiles.
  { assert (Hin : In (name0, f0) (List.filter (fun entry => is_matrix_name entry.1) listing)).
    { apply filter_In. split; [by apply list_elem_of_In | done]. }
    by rewrite Hfiles in Hin. }
  apply filter_Forall_inv in Hfiles as Hparts. destruct Hparts as (Hfirst & Hnamed & Hothers).
  apply (test_input_example_matrices_passes number_sets_equal abs_dir listing name first
           others (skeleton features) (map Str all_possible_actions)); [done | | |].
  - by apply (Hgen _ _ Hfirst Hnamed).
  - by apply skeleton_actions.
  - eapply Forall_impl; [exact Hothers|]. intros [n f] [Hin Hn]. cbn [fst snd] in *.
    exists (skeleton features), (map Str all_possible_actions).
    split; [by apply (Hgen _ _ Hin Hn)|]. do 2 (split; [done|]).
    split; [by apply lowered_skeleton_actions | apply sets_equal_texts].
Qed.

Lemma generated_matrices_consistent_example :
  test_input_example_matrices same_numerals "/repo/parameters"
    [("params_individual.json", json_file (JObj example_spec));
     ("lockdown_hard.csv", example_matrix);
     ("actions_effects_on_mh.csv", example_matrix);
     ("lockdown_absent.csv", example_matrix)]
  = Ok tt.
Proof.
  apply (generated_matrices_consistent read_as_written same_numerals
           "/repo/parameters" "parameters" example_dir
           (create_empty_hypotheses read_as_written "parameters" example_dir).1
           example_features).
  - reflexivity.
  - apply (bool_decide_unpack _). vm_compute. exact I.
  - reflexivity.
  - vm_compute. reflexivity.
  - intros name f Hin. apply list_elem_of_In in Hin.
    repeat (destruct Hin as [[= <- <-]|Hin]; [vm_compute; reflexivity|]). destruct Hin.
  - intros name f Hin. apply list_elem_of_In in Hin.
    repeat (destruct Hin as [[= <- <-]|Hin];
            [intros Hname; first [discriminate Hname
                                 | apply (bool_decide_unpack _); vm_compute; exact I]|]).
    destruct Hin.
  - exists "lockdown_hard.csv"%string, example_matrix. split; [|reflexivity].
    apply list_elem_of_In. right. left. reflexivity.
Defined.

(** The reference file is looked up under [actions] as written, before any
    comparison: when the first matrix file found has no column with
    exactly that label, the check ends in a [KeyError], whatever the other
    files are. *)
Theorem test_input_example_matrices_reference_label
    (number_sets_equal : list cell → list cell → bool)
    (abs_dir : string) (listing : list (string * file))
    (name : string) (first : file) (others : list (string * file)) (ref : DataFrame) :
  List.filter (fun entry => is_matrix_name entry.1) listing = (name, first) :: others →
  csv_view first = Ok ref →
  "actions" ∉ columns ref →
  test_input_example_matrices number_sets_equal abs_dir listing = raised_by_library KeyError.
Proof.
  intros Hfiles Href Hno. unfold test_input_example_matrices.
  rewrite Hfiles. unfold parse_csv at 1. rewrite Href, bind_Ok_l.
  by rewrite (df_getitem_absent _ _ Hno).
Qed.

Lemma test_input_example_matrices_reference_label_example :
  test_input_example_matrices same_numerals "/repo/parameters"
    [("lockdown_easy.csv", table_file matrix_capitalised); ("lockdown_hard.csv", example_matrix)]
  = raised_by_library KeyError.
Proof.
  apply (test_input_example_matrices_reference_label same_numerals "/repo/parameters" _
           "lockdown_easy.csv" (table_file matrix_capitalised)
           [("lockdown_hard.csv", example_matrix)] matrix_capitalised).
  - reflexivity.
  - reflexivity.
  - apply (bool_decide_unpack _). vm_compute. exact I.
Defined.

(** ** [get_file_paths]: the listing it reads *)

Lemma comprehension_Ok_iff {A B} (f : A → result B) (xs : list A) (ys : list B) :
  comprehension f xs = Ok ys ↔ Forall2 (fun x y => f x = Ok y) xs ys.
Proof.
  revert ys. induction xs as [|x xs IH]; intros ys; cbn [comprehension].
  - split; [intros [= <-]; constructor | by intros ->%Forall2_nil_inv_l].
  - split.
    + intros (y & Hy & (ys' & Hys & [= <-])%bind_Ok)%bind_Ok.
      constructor; [done | by apply IH].
    + intros (y & ys' & Hy & Hys & ->)%Forall2_cons_inv_l.
      rewrite Hy, bind_Ok_l. apply IH in Hys. by rewrite Hys.
Qed.

Lemma comprehension_Raise {A B} (f : A → result B) (xs : list A) (e : exn) :
  comprehension f xs = Raise e → ∃ x, x ∈ xs ∧ f x = Raise e.
Proof.
  induction xs as [|x xs IH]; cbn [comprehension]; [discriminate|].
  destruct (f x) as [y|e'] eqn:Hx.
  - rewrite bind_Ok_l. destruct (comprehension f xs) as [ys|e'] eqn:Hxs; [discriminate|].
    intros [= ->]. destruct IH as (z & Hz & Hfz); [done|]. exists z. split; [by right | done].
  - intros [= ->]. exists x. split; [by left | done].
Qed.

Lemma getitem_Ok_iff (v : json) (key : string) (x : json) :
  getitem v key = Ok x ↔ holds v key x.
Proof.
  unfold holds. split.
  - destruct v as [| | | | |items|members]; try discriminate. cbn [getitem].
    destruct (dict_get members key) as [y|] eqn:Hget; [|discriminate].
    intros [= <-]. eauto.
  - intros (members & -> & Hget). cbn [getitem]. by rewrite Hget.
Qed.

Lemma getitem_Raise (v : json) (key : string) (e : exn) :
  getitem v key = Raise e → e = Exn KeyError None ∨ e = Exn TypeError None.
Proof.
  destruct v as [| | | | |items|members]; cbn [getitem];
    try (intros [= <-]; by right).
  destruct (dict_get members key); [discriminate|]. intros [= <-]. by left.
Qed.

(** [get_file_paths] returns a list exactly when the fetch returns a
    [dict] that holds under [payload] a [dict] that holds under [tree] a
    [dict] that holds under [items] something to iterate over, every item
    of which is a [dict] with a [path]; the list is then the paths of the
    items, one per item, in the order of the items, whatever else the
    items or the [dict]s hold. *)
Theorem get_file_paths_Ok_iff (fetch : string → result json) (url : string)
    (paths : list json) :
  get_file_paths fetch url = Ok paths ↔
  ∃ data payload tree items entries,
    fetch url = Ok data ∧
    holds data "payload" payload ∧ holds payload "tree" tree ∧
    holds tree "items" items ∧
    iterate items = Ok entries ∧
    Forall2 (fun item path => holds item "path" path) entries paths.
Proof.
  unfold get_file_paths. split.
  - intros (data & Hdata & (payload & Hpayload & (tree & Htree & (items & Hitems &
      (entries & Hentries & Hpaths)%bind_Ok)%bind_Ok)%bind_Ok)%bind_Ok)%bind_Ok.
    exists data, payload, tree, items, entries.
    rewrite <- !getitem_Ok_iff. repeat (split; [done|]).
    apply comprehension_Ok_iff in Hpaths.
    eapply Forall2_impl; [exact Hpaths|]. intros item path. apply getitem_Ok_iff.
  - intros (data & payload & tree & items & entries & -> & Hpayload%getitem_Ok_iff
            & Htree%getitem_Ok_iff & Hitems%getitem_Ok_iff & Hentries & Hpaths).
    rewrite bind_Ok_l, Hpayload, bind_Ok_l, Htree, bind_Ok_l, Hitems, bind_Ok_l,
      Hentries, bind_Ok_l.
    apply comprehension_Ok_iff. eapply Forall2_impl; [exact Hpaths|].
    intros item path. apply getitem_Ok_iff.
Qed.

(** What [get_file_paths] raises is the exception of the fetch, unchanged,
    or the [KeyError] or [TypeError] Python raises on a body of another
    shape; it adds no message of its own. *)
Theorem get_file_paths_raises (fetch : string → result json) (url : string) (e : exn) :
  get_file_paths fetch url = Raise e →
  fetch url = Raise e ∨ e = Exn KeyError None ∨ e = Exn TypeError None.
Proof.
  unfold get_file_paths.
  destruct (fetch url) as [data|e0]; [|intros [= ->]; by left].
  rewrite bind_Ok_l. intros Hrun. right.
  destruct (getitem data "payload") as [payload|e1] eqn:H1;
    [rewrite bind_Ok_l in Hrun | injection Hrun as ->; by eapply getitem_Raise].
  destruct (getitem payload "tree") as [tree|e1] eqn:H2;
    [rewrite bind_Ok_l in Hrun | injection Hrun as ->; by eapply getitem_Raise].
  destruct (getitem tree "items") as [items|e1] eqn:H3;
    [rewrite bind_Ok_l in Hrun | injection Hrun as ->; by eapply getitem_Raise].
  destruct (iterate items) as [entries|e1] eqn:H4; [rewrite bind_Ok_l in Hrun|].
  - apply comprehension_Raise in Hrun as (item & _ & Hitem). by eapply getitem_Raise.
  - injection Hrun as ->. destruct items; try discriminate; injection H4 as <-; by right.
Qed.

Lemma get_file_paths_raises_example :
  get_file_paths (fun _ => Ok (JObj [("payload", JArr [])])) "https://github.com/x" =
    Raise (Exn TypeError None) ∧
  ((fun _ : string => Ok (JObj [("payload", JArr [])])) "https://github.com/x" =
     Raise (Exn TypeError None) ∨
   Exn TypeError None = Exn KeyError None ∨ Exn TypeError None = Exn TypeError None).
Proof.
  split; [reflexivity|].
  apply (get_file_paths_raises (fun _ => Ok (JObj [("payload", JArr [])]))
           "https://github.com/x" (Exn TypeError None)).
  reflexivity.
Defined.

(** ** [read_hypotheses]: columns, rows and entries of the matrices *)

Lemma set_column_length (i : nat) (values : list cell) (rows : list (list cell)) :
  length values = length rows → length (set_column i values rows) = length rows.
Proof. intros Hlen. unfold set_column. rewrite length_zip_with. lia. Qed.

Lemma set_column_widths (i : nat) (values : list cell) (rows : list (list cell)) :
  length values = length rows →
  map length (set_column i values rows) = map length rows.
Proof.
  unfold set_column. revert values.
  induction rows as [|row rows IH]; intros [|v values] Hlen; try done.
  cbn [zip_with map]. rewrite length_insert. f_equal. apply IH. by injection Hlen.
Qed.

Lemma set_column_other (i p : nat) (values : list cell) (rows : list (list cell)) :
  length values = length rows → p ≠ i →
  map (cell_at p) (set_column i values rows) = map (cell_at p) rows.
Proof.
  unfold set_column. intros Hlen Hp. revert values Hlen.
  induction rows as [|row rows IH]; intros [|v values] Hlen; try done.
  cbn [zip_with map]. f_equal; [|apply IH; by injection Hlen].
  unfold cell_at. rewrite !nth_lookup. by rewrite list_lookup_insert_ne.
Qed.

Lemma set_column_same (i : nat) (values : list cell) (rows : list (list cell)) :
  length values = length rows → Forall (fun row => (i < length row)%nat) rows →
  map (cell_at i) (set_column i values rows) = values.
Proof.
  unfold set_column. intros Hlen Hwide. revert values Hlen.
  induction Hwide as [|row rows Hrow _ IH]; intros [|v values] Hlen; try done.
  cbn [zip_with map]. f_equal; [|apply IH; by injection Hlen].
  unfold cell_at. rewrite nth_lookup. by rewrite list_lookup_insert_eq.
Qed.

Section conversion.
Variable astype_float : list cell → result (list cell).

Lemma columns_to_float_Ok (labels : list string) :
  ∀ (i : nat) (rows out : list (list cell)),
    columns_to_float astype_float i labels rows = Ok out →
    map length out = map length rows ∧
    (∀ p, (p < i ∨ i + length labels ≤ p)%nat → map (cell_at p) out = map (cell_at p) rows) ∧
    (∀ k label, labels !! k = Some label →
       if String.eqb label "actions" then
         map (cell_at (i + k)) out = map (cell_at (i + k)) rows
       else ∃ values, astype_float (map (cell_at (i + k)) rows) = Ok values ∧
                      length values = length rows ∧
                      (Forall (fun row => (i + k < length row)%nat) rows →
                       map (cell_at (i + k)) out = values)).
Proof.
  induction labels as [|col rest IH]; intros i rows out; cbn [columns_to_float].
  - intros [= <-]. split; [done|]. split; [done|]. intros k label. by rewrite lookup_nil.
  - destruct (String.eqb col "actions") eqn:Hcol.
    + intros (Hw & Hout & Hin)%IH. split; [done|]. split.
      { intros p Hp. apply Hout. cbn [length] in Hp. lia. }
      intros [|k] label; cbn [lookup list_lookup].
      * intros [= <-]. rewrite Hcol. apply Hout. lia.
      * intros Hk. specialize (Hin k label Hk).
        by replace (i + S k)%nat with (S i + k)%nat by lia.
    + intros (values & Hvalues & Hrest)%bind_Ok.
      destruct (length values =? length rows)%nat eqn:Hlen; [|discriminate].
      apply Nat.eqb_eq in Hlen. cbn [negb] in Hrest.
      apply IH in Hrest as (Hw & Hout & Hin).
      rewrite set_column_widths in Hw by done. split; [done|]. split.
      { intros p Hp. rewrite Hout by (cbn [length] in Hp; lia).
        apply set_column_other; [done|]. cbn [length] in Hp. lia. }
      intros [|k] label; cbn [lookup list_lookup].
      * intros [= <-]. rewrite Hcol. exists values. split; [by rewrite Nat.add_0_r|].
        split; [done|]. intros Hwide. rewrite Hout by lia. rewrite Nat.add_0_r.
        apply set_column_same; [done|].
        eapply Forall_impl; [exact Hwide|]. intros row. cbn beta. lia.
      * intros Hk. specialize (Hin k label Hk).
        replace (i + S k)%nat with (S i + k)%nat by lia.
        destruct (String.eqb label "actions").
        -- rewrite Hin. apply set_column_other; [done | lia].
        -- destruct Hin as (vs & Hvs & Hlenvs & Hcolumn).
           rewrite set_column_other in Hvs by (done || lia).
           rewrite set_column_length in Hlenvs by done.
           exists vs. split; [done|]. split; [done|]. intros Hwide. apply Hcolumn.
           apply Forall_forall. intros row Hrow.
           assert (Hws : Forall (fun n => (S i + k < n)%nat)
                           (map length (set_column i values rows))).
           { rewrite set_column_widths by done. by apply Forall_map. }
           rewrite Forall_map in Hws. by rewrite Forall_forall in Hws; apply Hws.
Qed.
End conversion.

Lemma elem_of_positions_from (i : nat) (label : string) (labels : list string) (p : nat) :
  p ∈ positions_from i label labels ↔ ∃ k, p = (i + k)%nat ∧ labels !! k = Some label.
Proof.
  revert i. induction labels as [|l labels IH]; intros i; cbn [positions_from].
  - split; [by intros ?%elem_of_nil | by intros (k & _ & ?)].
  - destruct (String.eqb_spec l label) as [->|Hne].
    + rewrite elem_of_cons, IH. split.
      * intros [->|(k & -> & Hk)]; [exists 0%nat | exists (S k)];
          (split; [lia | done]).
      * intros ([|k] & -> & Hk); [left; lia|]. right. exists k. split; [lia | done].
    + rewrite IH. split.
      * intros (k & -> & Hk). exists (S k). split; [lia | done].
      * intros ([|k] & -> & Hk); [by injection Hk|]. exists k. split; [lia | done].
Qed.

Lemma positions_from_NoDup (i k : nat) (label : string) (labels : list string) :
  NoDup labels → labels !! k = Some label → positions_from i label labels = [(i + k)%nat].
Proof.
  intros Hnd. revert i k. induction Hnd as [|l labels Hl Hnd IH]; intros i k; [done|].
  cbn [positions_from]. destruct (String.eqb_spec l label) as [->|Hne].
  - destruct k as [|k]; cbn [lookup list_lookup].
    + intros _. rewrite positions_from_absent by done. by rewrite Nat.add_0_r.
    + intros Hk%list_elem_of_lookup_2. done.
  - destruct k as [|k]; cbn [lookup list_lookup]; [by intros [= ?]|].
    intros Hk. rewrite (IH (S i) k Hk). f_equal. lia.
Qed.

Lemma df_select_Ok (df out : DataFrame) (labels : list string) :
  df_select df labels = Ok out →
  Forall (fun l => l ∈ columns df) labels ∧
  columns out = (l ← labels; map (fun _ => l) (positions l (columns df))) ∧
  rows out =
    map (fun row => l ← labels; map (fun i => cell_at i row) (positions l (columns df)))
        (rows df).
Proof.
  unfold df_select.
  destruct (forallb _ labels) eqn:Hall; [|discriminate]. intros [= <-].
  split; [|done]. apply Forall_forall. intros l Hl.
  rewrite forallb_forall in Hall. apply list_elem_of_In, Hall in Hl.
  by apply bool_decide_eq_true_1 in Hl.
Qed.

Lemma df_select_Raise (df : DataFrame) (labels : list string) (label : string) :
  label ∈ labels → label ∉ columns df → df_select df labels = raised_by_library KeyError.
Proof.
  intros Hin Hno. unfold df_select.
  destruct (forallb _ labels) eqn:Hall; [|done].
  rewrite forallb_forall in Hall. apply list_elem_of_In, Hall in Hin.
  by apply bool_decide_eq_true_1 in Hin.
Qed.

Lemma selected_labels (labels cols : list string) (label : string) :
  Forall (fun l => l ∈ cols) labels →
  label ∈ (l ← labels; map (fun _ => l) (positions l cols)) ↔ label ∈ labels.
Proof.
  intros Hall. rewrite list_elem_of_bind. split.
  - intros (l & Hin & Hl). apply list_elem_of_fmap in Hin as (p & -> & _). done.
  - intros Hl. exists label. split; [|done].
    rewrite Forall_forall in Hall. specialize (Hall label Hl).
    pose proof (positions_from_present 0 label cols Hall) as Hne.
    unfold positions. destruct (positions_from 0 label cols) as [|p ps]; [done|].
    cbn [map]. by left.
Qed.

Lemma selected_width {A B} (labels cols : list string) (f : string → nat → A)
    (g : string → nat → B) :
  length (l ← labels; map (f l) (positions l cols)) =
  length (l ← labels; map (g l) (positions l cols)).
Proof.
  induction labels as [|l labels IH]; [done|].
  cbn [mbind list_bind]. rewrite !length_app, !length_map.
  f_equal. exact IH.
Qed.

Lemma index_of_lookup (labels : list string) (k : nat) (label : string) :
  NoDup labels → labels !! k = Some label → index_of label labels = Some k.
Proof.
  intros Hnd. revert k. induction Hnd as [|l labels Hl Hnd IH]; intros k; [done|].
  cbn [index_of]. destruct (String.eqb_spec l label) as [->|Hne].
  - destruct k as [|k]; [done|]. cbn. intros Hk%list_elem_of_lookup_2. done.
  - destruct k as [|k]; cbn [lookup list_lookup]; [by intros [= ?]|].
    intros Hk. by rewrite (IH k Hk).
Qed.

(** One column per label when the labels of the frame are distinct. *)
Lemma selected_distinct {A} (labels cols : list string) (f : string → nat → A)
    (pos : string → nat) :
  NoDup cols → Forall (fun l => cols !! pos l = Some l) labels →
  (l ← labels; map (f l) (positions l cols)) = map (fun l => f l (pos l)) labels.
Proof.
  intros Hnd Hall. induction Hall as [|l labels Hl _ IH]; [done|].
  cbn [mbind list_bind map]. unfold positions at 1.
  rewrite (positions_from_NoDup 0 (pos l) l cols Hnd Hl). cbn [map app Nat.add].
  f_equal. exact IH.
Qed.

Section sorting_rows.
Variable argsort : list nat → list nat.

Lemma sort_by_actions_Ok (df out : DataFrame) :
  sort_by_actions argsort df = Ok out →
  ∃ i, positions "actions" (columns df) = [i] ∧
       columns out = columns df ∧
       rows out =
         map (fun k =>
                nth k (zip_with (fun row v =>
                         zip_with (fun l c => if String.eqb l "actions" then v else c)
                                  (columns df) row)
                         (rows df) (map set_categories (map (cell_at i) (rows df)))) [])
             (argsort (map category_code (map (cell_at i) (rows df)))).
Proof.
  unfold sort_by_actions, df_getitem.
  destruct (positions "actions" (columns df)) as [|i [|j ps]] eqn:Hpos; try discriminate.
  rewrite bind_Ok_l. unfold df_setitem. rewrite !length_map, Nat.eqb_refl. cbn [negb].
  assert (Hex : existsb (fun l => String.eqb l "actions") (columns df) = true).
  { apply existsb_exists. exists "actions". split; [|apply String.eqb_refl].
    assert (Hin : i ∈ positions "actions" (columns df)) by (rewrite Hpos; by left).
    apply elem_of_positions_from in Hin as (k & _ & Hk).
    apply list_elem_of_In. by eapply list_elem_of_lookup_2. }
  rewrite Hex, bind_Ok_l. cbn [columns rows]. intros [= <-]. exists i. done.
Qed.

Lemma sort_by_actions_distinct (df : DataFrame) :
  NoDup (columns df) → "actions" ∈ columns df → ∃ out, sort_by_actions argsort df = Ok out.
Proof.
  intros Hnd (k & Hk)%list_elem_of_lookup_1.
  unfold sort_by_actions, df_getitem, positions.
  rewrite (positions_from_NoDup 0 k "actions" (columns df) Hnd Hk). rewrite bind_Ok_l.
  unfold df_setitem. rewrite !length_map, Nat.eqb_refl. cbn [negb].
  destruct (existsb _ (columns df)); rewrite bind_Ok_l; eauto.
Qed.
End sorting_rows.

Lemma set_label_other (cols : list string) (row : list cell) (label : string) (v : cell)
    (p : nat) (l : string) :
  length row = length cols → cols !! p = Some l → l ≠ label →
  cell_at p (zip_with (fun l c => if String.eqb l label then v else c) cols row) =
  cell_at p row.
Proof.
  intros Hlen Hp Hne. unfold cell_at. rewrite !nth_lookup. f_equal.
  rewrite lookup_zip_with, Hp. cbn [mbind option_bind].
  destruct (row !! p) as [c|] eqn:Hc.
  - cbn. destruct (String.eqb_spec l label); [done | done].
  - done.
Qed.

Lemma index_of_elem (labels : list string) (label : string) :
  label ∈ labels → ∃ k, index_of label labels = Some k ∧ labels !! k = Some label.
Proof.
  induction labels as [|l labels IH]; [by intros ?%elem_of_nil|].
  cbn [index_of]. destruct (String.eqb_spec l label) as [->|Hne].
  - intros _. by exists 0%nat.
  - intros [?|Hin]%elem_of_cons; [done|]. destruct (IH Hin) as (k & -> & Hk).
    by exists (S k).
Qed.

Lemma selected_by_index {A} (labels cols : list string) (f : string → nat → A) :
  NoDup cols → Forall (fun l => l ∈ cols) labels →
  (l ← labels; map (f l) (positions l cols)) =
  map (fun l => f l (default 0%nat (index_of l cols))) labels.
Proof.
  intros Hnd Hall. apply selected_distinct; [done|].
  eapply Forall_impl; [exact Hall|]. intros l (k & -> & Hk)%index_of_elem. done.
Qed.

Lemma actions_NoDup : NoDup all_possible_actions.
Proof. apply (bool_decide_unpack _). vm_compute. exact I. Qed.

Lemma matrix_columns_no_actions : "actions" ∉ matrix_columns.
Proof. apply (bool_decide_unpack _). vm_compute. exact I. Qed.

Lemma lower_actions (label : string) : lower label ∈ matrix_columns → label ≠ "actions".
Proof. intros Hin ->. by apply matrix_columns_no_actions. Qed.

Lemma map_nth_seq {A} (l : list A) (d : A) :
  map (fun k => nth k l d) (seq 0 (length l)) = l.
Proof.
  apply list_eq. intros i. rewrite list_lookup_fmap.
  destruct (l !! i) as [x|] eqn:Hi.
  - rewrite lookup_seq_lt by (by eapply lookup_lt_Some). cbn.
    by rewrite (nth_lookup_Some _ _ _ _ Hi).
  - rewrite lookup_seq_ge; [done|]. by apply lookup_ge_None.
Qed.

Lemma Sorted_le_seq (a n : nat) : Sorted le (seq a n).
Proof.
  revert a. induction n as [|n IH]; intros a; cbn [seq]; constructor; [apply IH|].
  destruct n; cbn [seq]; constructor. lia.
Qed.

Lemma codes_of_vocabulary :
  map category_code (map Str all_possible_actions) = seq 0 (length all_possible_actions).
Proof. vm_compute. reflexivity. Qed.

(** Where a sorted order puts the row of the [i]-th action, when every
    action has one row. *)
Lemma sorted_order_vocabulary (vs : list cell) (order : list nat) (i k : nat)
    (action : string) :
  vs ≡ₚ map Str all_possible_actions →
  sorted_order (map category_code vs) order →
  all_possible_actions !! i = Some action → vs !! k = Some (Str action) →
  order !! i = Some k.
Proof.
  intros Hvs [Hperm Hsorted] Hi Hk.
  set (codes := map category_code vs) in *.
  assert (Hcodes : codes ≡ₚ seq 0 (length all_possible_actions)).
  { unfold codes. rewrite Hvs. by rewrite codes_of_vocabulary. }
  assert (Hks : map (fun k => nth k codes 0%nat) order = seq 0 (length all_possible_actions)).
  { apply (Sorted_unique le); [done | |].
    - apply Sorted_le_seq.
    - rewrite Hperm, map_nth_seq. exact Hcodes. }
  assert (Hcode : codes !! k = Some i).
  { unfold codes. rewrite list_lookup_fmap, Hk.
    change (Some (category_code (Str action)) = Some i). unfold category_code.
    by rewrite (index_of_lookup _ _ _ actions_NoDup Hi). }
  assert (Hlt : (i < length all_possible_actions)%nat) by (by eapply lookup_lt_Some).
  assert (Ho : ∃ o, order !! i = Some o) .
  { apply lookup_lt_is_Some. apply (f_equal length) in Hks.
    rewrite length_map, length_seq in Hks. lia. }
  destruct Ho as (o & Ho). rewrite Ho. f_equal.
  assert (Hnth : nth o codes 0%nat = i).
  { apply (f_equal (fun l => l !! i)) in Hks.
    rewrite list_lookup_fmap, Ho, lookup_seq_lt in Hks by done. cbn in Hks.
    by injection Hks. }
  assert (Holt : (o < length codes)%nat).
  { apply list_elem_of_lookup_2 in Ho. rewrite Hperm in Ho.
    apply elem_of_seq in Ho. lia. }
  assert (Hco : codes !! o = Some i).
  { apply lookup_lt_is_Some in Holt as (x & Hx).
    rewrite (nth_lookup_Some _ _ _ _ Hx) in Hnth. by rewrite Hx, Hnth. }
  assert (Hnd : NoDup codes).
  { rewrite Hcodes. apply NoDup_seq. }
  by apply (NoDup_lookup codes o k i).
Qed.

Section reader_loop.
Variable astype_float : list cell → result (list cell).
Variable argsort : list nat → list nat.

Lemma read_policies_Ok (dir : directory) (data_type : string) (policies : list string)
    (acc out : gmap string DataFrame) :
  read_policies astype_float argsort dir data_type policies acc = Ok out →
  (∀ policy, policy ∈ policies →
     ∃ df, read_matrix astype_float argsort dir data_type policy = Ok df ∧
           out !! policy = Some df) ∧
  (∀ policy, policy ∉ policies → out !! policy = acc !! policy).
Proof.
  revert acc. induction policies as [|p rest IH]; intros acc; cbn [read_policies].
  - intros [= <-]. split; [by intros ? ?%elem_of_nil | done].
  - intros (df & Hdf & Hrest)%bind_Ok. apply IH in Hrest as [Hin Hout]. split.
    + intros policy Hp. destruct (decide (policy ∈ rest)) as [Hr|Hr]; [by apply Hin|].
      apply elem_of_cons in Hp as [->|?]; [|done]. exists df. split; [done|].
      rewrite Hout by done. apply lookup_insert_eq.
    + intros policy [Hne Hr]%not_elem_of_cons. rewrite Hout by done.
      by apply lookup_insert_ne.
Qed.

Lemma read_policies_all (dir : directory) (data_type : string) (policies : list string)
    (acc : gmap string DataFrame) :
  (∀ policy, policy ∈ policies →
     ∃ df, read_matrix astype_float argsort dir data_type policy = Ok df) →
  ∃ out, read_policies astype_float argsort dir data_type policies acc = Ok out.
Proof.
  revert acc. induction policies as [|p rest IH]; intros acc Hall; cbn [read_policies].
  - eauto.
  - destruct (Hall p) as (df & ->); [by left|]. rewrite bind_Ok_l.
    apply IH. intros policy Hp. apply Hall. by right.
Qed.

Lemma read_hypotheses_Ok (dir : directory) (policies : list string) (data_type : string)
    (data_dfs : gmap string DataFrame) :
  read_hypotheses astype_float argsort dir policies data_type = Ok data_dfs →
  valid_data_type data_type ∧
  read_policies astype_float argsort dir data_type policies ∅ = Ok data_dfs.
Proof.
  unfold read_hypotheses, valid_data_type.
  destruct (String.eqb_spec data_type "actions") as [->|_]; [by eauto|].
  destruct (String.eqb_spec data_type "lockdown") as [->|_]; [by eauto|].
  discriminate.
Qed.

Lemma read_hypotheses_valid (dir : directory) (policies : list string) (data_type : string) :
  valid_data_type data_type →
  read_hypotheses astype_float argsort dir policies data_type =
  read_policies astype_float argsort dir data_type policies ∅.
Proof. by intros [-> | ->]. Qed.

Lemma read_hypotheses_lookup (dir : directory) (policies : list string)
    (data_type policy : string) (data_dfs : gmap string DataFrame) (df : DataFrame) :
  read_hypotheses astype_float argsort dir policies data_type = Ok data_dfs →
  data_dfs !! policy = Some df →
  policy ∈ policies ∧ read_matrix astype_float argsort dir data_type policy = Ok df.
Proof.
  intros [_ [Hin Hout]%read_policies_Ok]%read_hypotheses_Ok Hdf.
  destruct (decide (policy ∈ policies)) as [Hp|Hp].
  - split; [done|]. destruct (Hin policy Hp) as (df' & Hread & Hdf'). congruence.
  - rewrite (Hout policy Hp), lookup_empty in Hdf. discriminate.
Qed.

Lemma read_matrix_Ok (dir : directory) (data_type policy : string) (df : DataFrame) :
  read_matrix astype_float argsort dir data_type policy = Ok df →
  ∃ table converted sorted,
    read_csv dir (file_pattern data_type policy) = Ok table ∧
    columns_to_float astype_float 0 (columns table) (rows table) = Ok converted ∧
    sort_by_actions argsort (mkDataFrame (columns table) converted) = Ok sorted ∧
    df_select (mkDataFrame (map lower (columns sorted)) (rows sorted)) matrix_columns
      = Ok df.
Proof.
  unfold read_matrix.
  intros (table & Htable & (converted & Hconv & (sorted & Hsorted & Hsel)%bind_Ok)%bind_Ok)
    %bind_Ok.
  by exists table, converted, sorted.
Qed.

End reader_loop.

Lemma df_select_present (df : DataFrame) (labels : list string) :
  Forall (fun l => l ∈ columns df) labels → ∃ out, df_select df labels = Ok out.
Proof.
  intros Hall. unfold df_select.
  destruct (forallb _ labels) eqn:Hb; [eauto|].
  apply not_true_iff_false in Hb. destruct Hb. apply forallb_forall.
  intros l Hl%list_elem_of_In. apply bool_decide_eq_true_2.
  rewrite Forall_forall in Hall. by apply Hall.
Qed.

Section reader_matrix.
Variable astype_float : list cell → result (list cell).
Variable argsort : list nat → list nat.

Lemma columns_to_float_succeeds (labels : list string) :
  ∀ (i : nat) (rows : list (list cell)),
    (∀ k label, labels !! k = Some label → label ≠ "actions" →
       ∃ values, astype_float (map (cell_at (i + k)) rows) = Ok values ∧
                 length values = length rows) →
    ∃ out, columns_to_float astype_float i labels rows = Ok out.
Proof.
  induction labels as [|col rest IH]; intros i rows Hall; cbn [columns_to_float]; [eauto|].
  destruct (String.eqb_spec col "actions") as [->|Hcol].
  - apply IH. intros k label Hk Hne.
    replace (S i + k)%nat with (i + S k)%nat by lia. by apply (Hall (S k) label).
  - destruct (Hall 0%nat col eq_refl Hcol) as (values & Hvalues & Hlen).
    rewrite Nat.add_0_r in Hvalues. rewrite Hvalues, bind_Ok_l, Hlen, Nat.eqb_refl.
    cbn [negb]. apply IH. intros k label Hk Hne.
    rewrite set_column_other by (done || lia). rewrite set_column_length by done.
    replace (S i + k)%nat with (i + S k)%nat by lia. by apply (Hall (S k) label).
Qed.

(** What a table that was read successfully looks like, and what comes
    out. *)
Lemma read_matrix_shape (dir : directory) (data_type policy : string) (df : DataFrame) :
  read_matrix astype_float argsort dir data_type policy = Ok df →
  ∃ table,
    read_csv dir (file_pattern data_type policy) = Ok table ∧
    readable astype_float table ∧
    (∀ label, label ∈ columns df ↔ label ∈ matrix_columns) ∧
    (NoDup (map lower (columns table)) → columns df = matrix_columns) ∧
    rectangular df.
Proof.
  intros (table & converted & sorted & Htable & Hconv & Hsorted & Hsel)%read_matrix_Ok.
  exists table. split; [done|].
  apply sort_by_actions_Ok in Hsorted as (a & Hpos & Hcols & _). cbn [columns] in Hpos, Hcols.
  apply df_select_Ok in Hsel as (Hall & Hdfcols & Hdfrows).
  cbn [columns rows] in Hall, Hdfcols, Hdfrows. rewrite Hcols in Hall, Hdfcols, Hdfrows.
  split; [|split; [|split]].
  - split; [|split].
    + assert (Hin : a ∈ positions "actions" (columns table)) by (rewrite Hpos; by left).
      apply elem_of_positions_from in Hin as (k & _ & Hk).
      by eapply list_elem_of_lookup_2.
    + by apply Forall_forall.
    + intros p label Hp Hne.
      apply columns_to_float_Ok in Hconv as (_ & _ & Hin).
      specialize (Hin p label Hp). destruct (String.eqb_spec label "actions"); [done|].
      destruct Hin as (values & Hvalues & Hlen & _). eauto.
  - intros label. rewrite Hdfcols. by apply selected_labels.
  - intros Hnd. rewrite Hdfcols.
    rewrite (selected_by_index _ _ (fun l _ => l)) by done. apply map_id.
  - unfold rectangular. rewrite Hdfrows, Hdfcols. apply Forall_map, Forall_forall.
    intros row _. apply selected_width.
Qed.

Lemma read_matrix_readable (dir : directory) (data_type policy : string)
    (table : DataFrame) :
  read_csv dir (file_pattern data_type policy) = Ok table →
  NoDup (columns table) → readable astype_float table →
  ∃ df, read_matrix astype_float argsort dir data_type policy = Ok df.
Proof.
  intros Htable Hnd (Hactions & Hfeatures & Hfloat).
  unfold read_matrix. rewrite Htable, bind_Ok_l.
  destruct (columns_to_float_succeeds (columns table) 0 (rows table)) as (converted & ->);
    [done|].
  rewrite bind_Ok_l.
  destruct (sort_by_actions_distinct argsort (mkDataFrame (columns table) converted))
    as (sorted & Hsorted); [done..|].
  rewrite Hsorted, bind_Ok_l.
  apply sort_by_actions_Ok in Hsorted as (a & _ & Hcols & _). cbn [columns] in Hcols.
  apply df_select_present. cbn [columns]. rewrite Hcols. by apply Forall_forall.
Qed.

End reader_matrix.

(** What [read_hypotheses] returns when it returns: [data_type] was one of
    the two kinds, the [dict] has one entry per policy asked for and no
    other, and the matrix of a policy comes from the file of that policy
    and kind; its labels are those of [matrix_columns] and no other (in
    particular there is no [actions] column left: a row is known by its
    position only), they are exactly [matrix_columns], in that order, when
    the labels of the file differ up to case, and every row has a cell per
    label. *)
Theorem read_hypotheses_returns
    (astype_float : list cell → result (list cell)) (argsort : list nat → list nat)
    (dir : directory) (policies : list string) (data_type : string)
    (data_dfs : gmap string DataFrame) :
  read_hypotheses astype_float argsort dir policies data_type = Ok data_dfs →
  valid_data_type data_type ∧
  (∀ policy, is_Some (data_dfs !! policy) ↔ policy ∈ policies) ∧
  ∀ policy df, data_dfs !! policy = Some df →
    ∃ table,
      read_csv dir (file_pattern data_type policy) = Ok table ∧
      (∀ label, label ∈ columns df ↔ label ∈ matrix_columns) ∧
      (NoDup (map lower (columns table)) → columns df = matrix_columns) ∧
      ("actions" ∉ columns df) ∧
      rectangular df.
Proof.
  intros Hrun. split; [by apply read_hypotheses_Ok in Hrun as [? _]|]. split.
  - intros policy. split.
    + intros [df Hdf]. by destruct (read_hypotheses_lookup _ _ _ _ _ _ _ _ Hrun Hdf).
    + intros Hp. apply read_hypotheses_Ok in Hrun as [_ [Hin _]%read_policies_Ok].
      destruct (Hin policy Hp) as (df & _ & ->). eauto.
  - intros policy df Hdf.
    destruct (read_hypotheses_lookup _ _ _ _ _ _ _ _ Hrun Hdf) as [_ Hread].
    apply read_matrix_shape in Hread as (table & Htable & _ & Hlabels & Hcols & Hrect).
    exists table. repeat (split; [done|]). split; [|done].
    rewrite Hlabels. apply matrix_columns_no_actions.
Qed.

(** When [read_hypotheses] returns, in a directory whose tables have
    distinct labels (as [read_csv] makes them): exactly when [data_type] is
    one of the two kinds and the file of every policy asked for is a table
    with a column [actions], with every column of [matrix_columns] up to
    case, and with no column but [actions] that the conversion to float
    rejects.  What the column [actions] holds plays no part. *)
Theorem read_hypotheses_Ok_iff
    (astype_float : list cell → result (list cell)) (argsort : list nat → list nat)
    (dir : directory) (policies : list string) (data_type : string) :
  (∀ name table, read_csv dir name = Ok table → NoDup (columns table)) →
  (∃ data_dfs, read_hypotheses astype_float argsort dir policies data_type = Ok data_dfs)
  ↔ valid_data_type data_type ∧
    ∀ policy, policy ∈ policies →
      ∃ table, read_csv dir (file_pattern data_type policy) = Ok table ∧
               readable astype_float table.
Proof.
  intros Hdistinct. split.
  - intros (data_dfs & [Hvalid [Hin _]%read_policies_Ok]%read_hypotheses_Ok).
    split; [done|]. intros policy Hp. destruct (Hin policy Hp) as (df & Hread & _).
    apply read_matrix_shape in Hread as (table & Htable & Hreadable & _). eauto.
  - intros [Hvalid Hall]. rewrite read_hypotheses_valid by done.
    apply read_policies_all. intros policy Hp.
    destruct (Hall policy Hp) as (table & Htable & Hreadable).
    apply (read_matrix_readable _ _ _ _ _ table); eauto.
Qed.

(** The entries of a matrix [read_hypotheses] returns, for a file whose
    labels differ up to case and whose [actions] column holds every action
    of the vocabulary once, whenever [sort_values] sorts: the matrix has
    the columns [matrix_columns] and one row per action, and its entry in
    row [i], column [c] is the float made of the entry of the file in the
    row of the [i]-th action of the vocabulary and the column whose label
    is, in lower case, the [c]-th of [matrix_columns].  So neither the
    order of the rows nor the order or the case of the columns of the file
    shows in the result. *)
Theorem read_hypotheses_entry
    (astype_float : list cell → result (list cell)) (argsort : list nat → list nat)
    (dir : directory) (policies : list string) (data_type policy : string)
    (data_dfs : gmap string DataFrame) (df table : DataFrame) (vs : list cell) :
  read_hypotheses astype_float argsort dir policies data_type = Ok data_dfs →
  data_dfs !! policy = Some df →
  read_csv dir (file_pattern data_type policy) = Ok table →
  rectangular table →
  NoDup (map lower (columns table)) →
  df_getitem table "actions" = Ok (Series vs) →
  vs ≡ₚ map Str all_possible_actions →
  sorted_order (map category_code vs) (argsort (map category_code vs)) →
  columns df = matrix_columns ∧
  length (rows df) = length all_possible_actions ∧
  ∀ i action k c label p,
    all_possible_actions !! i = Some action → vs !! k = Some (Str action) →
    matrix_columns !! c = Some label → map lower (columns table) !! p = Some label →
    ∃ values v row,
      astype_float (map (cell_at p) (rows table)) = Ok values ∧
      values !! k = Some v ∧
      rows df !! i = Some row ∧ row !! c = Some v.
Proof.
  intros Hrun Hdf Htable Hrect Hnd Hvs Hperm Hsort.
  destruct (read_hypotheses_lookup _ _ _ _ _ _ _ _ Hrun Hdf) as [_ Hread].
  apply read_matrix_Ok in Hread
    as (table' & converted & sorted & Htable' & Hconv & Hsorted & Hsel).
  assert (table' = table) as -> by congruence. clear Htable'.
  assert (Hndc : NoDup (columns table)) by (by eapply NoDup_fmap_1).
  apply columns_to_float_Ok in Hconv as (Hw & _ & Hin).
  apply sort_by_actions_Ok in Hsorted as (a & Hpos & Hcols & Hrows).
  cbn [columns rows] in Hpos, Hcols, Hrows.
  unfold df_getitem in Hvs. rewrite Hpos in Hvs. injection Hvs as Hvs.
  assert (Ha : columns table !! a = Some "actions").
  { assert (Hina : a ∈ positions "actions" (columns table)) by (rewrite Hpos; by left).
    by apply elem_of_positions_from in Hina as (k & -> & Hk). }
  pose proof (Hin a "actions" Ha) as Hact. cbn [String.eqb Ascii.eqb Bool.eqb Nat.add] in Hact.
  rewrite Hact, Hvs in Hrows. clear Hact.
  apply df_select_Ok in Hsel as (Hall & Hdfcols & Hdfrows).
  cbn [columns rows] in Hall, Hdfcols, Hdfrows. rewrite Hcols in Hall, Hdfcols, Hdfrows.
  rewrite (selected_by_index _ _ (fun l _ => l)) in Hdfcols by done.
  rewrite map_id in Hdfcols.
  assert (Hlenvs : length vs = length all_possible_actions).
  { by rewrite Hperm, length_map. }
  assert (Hlenorder : length (argsort (map category_code vs)) = length vs).
  { pose proof (Permutation_length (proj1 Hsort)) as Hl.
    by rewrite length_seq, length_map in Hl. }
  split; [done|]. split.
  { by rewrite Hdfrows, Hrows, !length_map, Hlenorder. }
  intros i action k c label p Hi Hk Hc Hp.
  pose proof (sorted_order_vocabulary _ _ _ _ _ Hperm Hsort Hi Hk) as Horder.
  apply list_lookup_fmap_Some in Hp as (l & -> & Hl).
  assert (Hne : l ≠ "actions").
  { apply lower_actions. by eapply list_elem_of_lookup_2. }
  specialize (Hin p l Hl). cbn [Nat.add] in Hin.
  destruct (String.eqb_spec l "actions") as [?|_]; [done|].
  destruct Hin as (values & Hvalues & Hlen & Hcolumn).
  assert (Hklt : (k < length (rows table))%nat).
  { apply lookup_lt_Some in Hk. by rewrite <- Hvs, length_map in Hk. }
  assert (Hplt : (p < length (columns table))%nat) by (by eapply lookup_lt_Some).
  assert (Hvalues' : map (cell_at p) converted = values).
  { apply Hcolumn. eapply Forall_impl; [exact Hrect|].
    intros row Hrow. cbn beta. by rewrite Hrow. }
  clear Hcolumn.
  assert (Hlenc : length converted = length (rows table)).
  { apply (f_equal length) in Hw. by rewrite !length_map in Hw. }
  destruct (lookup_lt_is_Some_2 converted k) as (ck & Hck); [lia|].
  assert (Hckw : length ck = length (columns table)).
  { apply (f_equal (fun l => l !! k)) in Hw. rewrite !list_lookup_fmap, Hck in Hw.
    destruct (rows table !! k) as [rk|] eqn:Hrk; [|done].
    cbn in Hw. injection Hw as ->.
    unfold rectangular in Hrect. rewrite Forall_forall in Hrect.
    apply Hrect. by eapply list_elem_of_lookup_2. }
  exists values, (cell_at p ck).
  eexists. split; [done|]. split.
  { rewrite <- Hvalues', list_lookup_fmap, Hck. done. }
  split.
  { rewrite Hdfrows, Hrows, list_lookup_fmap, list_lookup_fmap, Horder. cbn [fmap option_fmap option_map].
    reflexivity. }
  rewrite (selected_by_index _ _ (fun _ q => cell_at q _)) by done.
  rewrite list_lookup_fmap, Hc. cbn [fmap option_fmap option_map]. f_equal.
  rewrite (index_of_lookup _ p (lower l)); [|done|by rewrite list_lookup_fmap, Hl].
  cbn [default].
  set (rows1 := zip_with _ converted _).
  assert (Hrow1 : rows1 !! k =
                  Some (zip_with (fun l c => if String.eqb l "actions"
                                             then set_categories (Str action) else c)
                                 (columns table) ck)).
  { unfold rows1. rewrite lookup_zip_with, Hck. cbn [mbind option_bind].
    by rewrite list_lookup_fmap, Hk. }
  rewrite (nth_lookup_Some _ _ _ _ Hrow1).
  by apply (set_label_other _ _ _ _ _ l).
Qed.

Lemma read_hypotheses_returns_example :
  valid_data_type "lockdown" ∧
  (∀ policy, is_Some (full_read !! policy) ↔ policy ∈ ["easy"]) ∧
  ∀ policy df, full_read !! policy = Some df →
    ∃ table,
      read_csv full_dir (file_pattern "lockdown" policy) = Ok table ∧
      (∀ label, label ∈ columns df ↔ label ∈ matrix_columns) ∧
      (NoDup (map lower (columns table)) → columns df = matrix_columns) ∧
      ("actions" ∉ columns df) ∧
      rectangular df.
Proof.
  apply (read_hypotheses_returns keep_cells keep_order full_dir ["easy"] "lockdown" full_read).
  vm_compute. reflexivity.
Defined.

Lemma read_hypotheses_Ok_iff_example :
  (∃ data_dfs, read_hypotheses keep_cells keep_order full_dir ["easy"] "lockdown"
               = Ok data_dfs)
  ↔ valid_data_type "lockdown" ∧
    ∀ policy, policy ∈ ["easy"] →
      ∃ table, read_csv full_dir (file_pattern "lockdown" policy) = Ok table ∧
               readable keep_cells table.
Proof.
  apply (read_hypotheses_Ok_iff keep_cells keep_order full_dir ["easy"] "lockdown").
  intros name table. unfold read_csv, full_dir.
  destruct (decide (name = "lockdown_easy.csv")) as [->|Hne].
  - rewrite lookup_singleton_eq. intros [= <-].
    apply (bool_decide_unpack _). vm_compute. exact I.
  - by rewrite lookup_singleton_ne.
Defined.

Lemma read_hypotheses_entry_example :
  columns full_matrix_read = matrix_columns ∧
  length (rows full_matrix_read) = length all_possible_actions ∧
  ∀ i action k c label p,
    all_possible_actions !! i = Some action →
    map Str all_possible_actions !! k = Some (Str action) →
    matrix_columns !! c = Some label →
    map lower (columns full_matrix) !! p = Some label →
    ∃ values v row,
      keep_cells (map (cell_at p) (rows full_matrix)) = Ok values ∧
      values !! k = Some v ∧
      rows full_matrix_read !! i = Some row ∧
      row !! c = Some v.
Proof.
  apply (read_hypotheses_entry keep_cells keep_order full_dir ["easy"] "lockdown" "easy"
           full_read full_matrix_read full_matrix (map Str all_possible_actions)).
  - vm_compute. reflexivity.
  - vm_compute. reflexivity.
  - vm_compute. reflexivity.
  - apply (bool_decide_unpack _). vm_compute. exact I.
  - apply (bool_decide_unpack _). vm_compute. exact I.
  - vm_compute. reflexivity.
  - reflexivity.
  - split.
    + vm_compute. reflexivity.
    + vm_compute. repeat constructor.
Defined.

(** A table whose numbers convert but which has no column written
    [actions], or lacks one of [matrix_columns] up to case, makes
    [read_hypotheses] raise the [KeyError] of pandas at the first policy,
    whatever the other policies are: the columns the reader asks for are
    the fixed list of the class, not the features of the specification
    file. *)
Theorem read_hypotheses_missing_column
    (astype_float : list cell → result (list cell)) (argsort : list nat → list nat)
    (dir : directory) (policy : string) (rest : list string) (data_type : string)
    (table : DataFrame) :
  valid_data_type data_type →
  read_csv dir (file_pattern data_type policy) = Ok table →
  NoDup (columns table) →
  (∀ p label, columns table !! p = Some label → label ≠ "actions" →
     ∃ values, astype_float (map (cell_at p) (rows table)) = Ok values ∧
               length values = length (rows table)) →
  "actions" ∉ columns table ∨
    (∃ label, label ∈ matrix_columns ∧ label ∉ map lower (columns table)) →
  read_hypotheses astype_float argsort dir (policy :: rest) data_type
  = raised_by_library KeyError.
Proof.
  intros Hvalid Htable Hnd Hfloat Hmissing.
  rewrite read_hypotheses_valid by done. cbn [read_policies].
  unfold read_matrix. rewrite Htable, bind_Ok_l.
  destruct (columns_to_float_succeeds astype_float (columns table) 0 (rows table))
    as (converted & ->); [done|].
  rewrite bind_Ok_l.
  destruct (decide ("actions" ∈ columns table)) as [Hactions|Hactions].
  - destruct Hmissing as [?|(label & Hlabel & Hno)]; [done|].
    destruct (sort_by_actions_distinct argsort (mkDataFrame (columns table) converted))
      as (sorted & Hsorted); [done..|].
    rewrite Hsorted, bind_Ok_l.
    apply sort_by_actions_Ok in Hsorted as (a & _ & Hcols & _). cbn [columns] in Hcols.
    rewrite (df_select_Raise _ _ label); [done..|]. cbn [columns]. by rewrite Hcols.
  - unfold sort_by_actions. by rewrite df_getitem_absent.
Qed.

Lemma read_hypotheses_missing_column_example :
  read_hypotheses keep_cells keep_order
                  (create_empty_hypotheses read_as_written "parameters" example_dir).1
                  ["easy"; "hard"] "lockdown"
  = raised_by_library KeyError.
Proof.
  apply (read_hypotheses_missing_column keep_cells keep_order _ "easy" ["hard"] "lockdown"
           (skeleton example_features)).
  - by right.
  - vm_compute. reflexivity.
  - apply (bool_decide_unpack _). vm_compute. exact I.
  - intros p label _ _. eexists. split; [reflexivity|]. apply length_map.
  - right. exists "age_group__1"%string. split; apply (bool_decide_unpack _); vm_compute; exact I.
Defined.

Lemma action_effects_not_generated (policy : string) :
  file_pattern "actions" policy ∉ skeleton_fnames.
Proof.
  unfold file_pattern. cbn [String.eqb Ascii.eqb Bool.eqb].
  rewrite !append_cons, append_nil. unfold skeleton_fnames.
  intros Hin. apply list_elem_of_In in Hin. cbn in Hin.
  repeat (destruct Hin as [Heq|Hin]; [discriminate Heq|]). destruct Hin.
Qed.

Lemma create_empty_hypotheses_other (read_back : DataFrame → result DataFrame)
    (dir_params : string) (dir : directory) (name : string) :
  name ∉ skeleton_fnames →
  (create_empty_hypotheses read_back dir_params dir).1 !! name = dir !! name.
Proof.
  intros Hno. unfold create_empty_hypotheses.
  destruct (negb (isfile dir PARAMS_INDIVIDUAL)); [done|].
  destruct (_ ≫= _) as [df|e]; [|done]. cbn [fst].
  rewrite skeleton_fnames_eq, lookup_fold_insert. by rewrite bool_decide_eq_false_2.
Qed.

(** The generator writes no file the reader of action effects opens: it
    leaves [actions_effects_on_mh.csv], the reader asks for
    [actions_effects_on_mh_<policy>.csv].  After a run of the generator,
    successful or not, in a directory without that file, reading the action
    effects of any policy raises [FileNotFoundError]. *)
Theorem read_hypotheses_after_generation
    (astype_float : list cell → result (list cell)) (argsort : list nat → list nat)
    (read_back : DataFrame → result DataFrame)
    (dir_params : string) (dir : directory) (policy : string) (rest : list string) :
  dir !! file_pattern "actions" policy = None →
  read_hypotheses astype_float argsort
                  (create_empty_hypotheses read_back dir_params dir).1
                  (policy :: rest) "actions"
  = raised_by_library FileNotFoundError.
Proof.
  intros Hnone. unfold read_hypotheses. cbn [String.eqb Ascii.eqb Bool.eqb orb negb].
  cbn [read_policies]. unfold read_matrix, read_csv.
  rewrite create_empty_hypotheses_other by apply action_effects_not_generated.
  by rewrite Hnone.
Qed.

Lemma read_hypotheses_after_generation_example :
  read_hypotheses keep_cells keep_order
                  (create_empty_hypotheses read_as_written "parameters" example_dir).1
                  ["easy"] "actions"
  = raised_by_library FileNotFoundError.
Proof.
  apply (read_hypotheses_after_generation keep_cells keep_order read_as_written
           "parameters" example_dir "easy" []).
  vm_compute. reflexivity.
Defined.
